(** * Second-brain documents: the indexer and the loader

    A shallow embedding of [src/lib/documents.ts] (the library behind the two
    read endpoints of the application): the sidecar reader [getMetaFromFile],
    the body reader [getBodyContent], the indexer [getAllDocuments] and the
    loader [getDocument].

    Modelling conventions.
    - The filesystem is a finite tree of files and directories; the [fs]
      calls of the source ([existsSync], [statSync], [readFileSync],
      [readdirSync]) are functions on path strings over that tree.  A
      directory lists its entries in the order of the tree.
    - A JavaScript exception is the [Throw] result of the [result] monad;
      [try]/[catch] is a match on it.
    - The two parsers ([matter] of gray-matter and [JSON.parse]), the
      collation [localeCompare] and the configured root [BRAIN_PATH] are
      parameters of the development.
    - Parsed metadata is first typed as the source declares it
      ([Partial<DocumentMeta>]): optional strings and an optional list of
      strings.  The module [Any] embeds the same functions on the values
      the parsers really return ([null], a text where an array is
      declared, a [Date]); theorem [declared_types_refine] shows that the
      typed functions are those of [Any] on metadata of the declared
      types.
    - A string is the sequence of the UTF-16 units of a text whose units
      are all below 256, one character of the string per unit; other texts
      are outside the development. *)

From Stdlib Require Import String Ascii List ZArith Lia Bool Permutation Sorted.
Import ListNotations.
Local Open Scope list_scope.
Local Open Scope string_scope.

(* ================================================================= *)
(** ** Exceptions *)

Inductive exn : Type :=
| ENOENT        (* no such file or directory *)
| EISDIR        (* read of a directory *)
| ENOTDIR       (* listing of a file *)
| SyntaxError   (* JSON.parse *)
| YAMLException (* gray-matter *)
| TypeError     (* a property of null, a call of what is no function *).

Inductive result (A : Type) : Type :=
| Ok (a : A)
| Throw (e : exn).

Arguments Ok {A} a.
Arguments Throw {A} e.

Definition bind {A B : Type} (r : result A) (k : A -> result B) : result B :=
  match r with
  | Ok a => k a
  | Throw e => Throw e
  end.

Notation "x <- e ;; k" := (bind e (fun x => k))
  (at level 61, e at next level, right associativity).

(** [for (const x of l) { documents.push(...f x) }]: the pushes of every
    iteration in order, aborted by the first exception. *)
Fixpoint for_each {A B : Type} (f : A -> result (list B)) (l : list A)
  : result (list B) :=
  match l with
  | [] => Ok []
  | x :: rest =>
      ds <- f x ;;
      more <- for_each f rest ;;
      Ok (ds ++ more)%list
  end.

(* ================================================================= *)
(** ** JavaScript string operations used by the source *)

Module Js.

Definition slash : ascii := "/"%char.

(** [s.split(sep)] for a one-character separator; never empty. *)
Fixpoint split (sep : ascii) (s : string) : list string :=
  match s with
  | EmptyString => [EmptyString]
  | String c rest =>
      if Ascii.eqb c sep then EmptyString :: split sep rest
      else match split sep rest with
           | [] => [String c EmptyString]
           | h :: t => String c h :: t
           end
  end.

Fixpoint strip_prefix (pat s : string) : option string :=
  match pat with
  | EmptyString => Some s
  | String p pat' =>
      match s with
      | EmptyString => None
      | String c s' => if Ascii.eqb p c then strip_prefix pat' s' else None
      end
  end.

Definition startsWith (s pat : string) : bool :=
  match strip_prefix pat s with Some _ => true | None => false end.

(** [s.endsWith(suffix)] *)
Definition endsWith (s suffix : string) : bool :=
  let n := String.length s in
  let m := String.length suffix in
  (m <=? n)%nat && (substring (n - m) m s =? suffix).

(** [s.replace(pat, '')] with a string pattern: only the first occurrence
    is removed. *)
Fixpoint remove_first (pat s : string) : string :=
  match strip_prefix pat s with
  | Some rest => rest
  | None =>
      match s with
      | EmptyString => EmptyString
      | String c s' => String c (remove_first pat s')
      end
  end.

(** [s.replace(/-/g, ' ')] *)
Fixpoint hyphens_to_spaces (s : string) : string :=
  match s with
  | EmptyString => EmptyString
  | String c s' =>
      String (if Ascii.eqb c "-"%char then " "%char else c)
             (hyphens_to_spaces s')
  end.

(** [s.slice(0, -1)] *)
Definition drop_last (s : string) : string :=
  substring 0 (String.length s - 1) s.

(** [a || b] on [string | undefined]: the empty string is falsy. *)
Definition truthy (a : option string) : bool :=
  match a with
  | Some s => negb (s =? "")
  | None => false
  end.

Definition or_str (a b : option string) : option string :=
  if truthy a then a else b.

(** [a || d] where [d] is a string. *)
Definition or_else_str (a : option string) (d : string) : string :=
  match a with
  | Some s => if s =? "" then d else s
  | None => d
  end.

(** [a || b] on [string[] | undefined]: every array is truthy. *)
Definition or_tags (a b : option (list string)) : option (list string) :=
  match a with
  | Some _ => a
  | None => b
  end.

Definition or_else_tags (a : option (list string)) (d : list string)
  : list string :=
  match a with
  | Some l => l
  | None => d
  end.

End Js.

(* ================================================================= *)
(** ** [path.join] (POSIX) *)

Module Path.

(** [normalizeString]: the stack holds the kept segments, last first. *)
Fixpoint norm_segs (above : bool) (stack segs : list string) : list string :=
  match segs with
  | [] => stack
  | s :: rest =>
      if (s =? "") || (s =? ".") then norm_segs above stack rest
      else if s =? ".." then
        match stack with
        | top :: below =>
            if top =? ".." then norm_segs above (".." :: stack) rest
            else norm_segs above below rest
        | [] =>
            if above then norm_segs above [".."] rest
            else norm_segs above [] rest
        end
      else norm_segs above (s :: stack) rest
  end.

Definition normalize (p : string) : string :=
  if p =? "" then "."
  else
    let isAbsolute := Js.startsWith p "/" in
    let trailingSeparator := Js.endsWith p "/" in
    let body :=
      String.concat "/"
        (rev (norm_segs (negb isAbsolute) [] (Js.split Js.slash p))) in
    if body =? "" then
      if isAbsolute then "/" else if trailingSeparator then "./" else "."
    else
      (if isAbsolute then "/" else "") ++ body
        ++ (if trailingSeparator then "/" else "").

(** [path.join(a, b)]: empty arguments are skipped. *)
Definition join (a b : string) : string :=
  if a =? "" then (if b =? "" then "." else normalize b)
  else if b =? "" then normalize a
  else normalize (a ++ "/" ++ b).

End Path.

(* ================================================================= *)
(** ** The filesystem *)

#[warnings="-register-all"] Inductive node : Type :=
| File (data : string)
| Dir (entries : list (string * node)).

(** [fs.Dirent] as [readdirSync(.., { withFileTypes: true })] returns it. *)
Record Dirent : Type := mkDirent {
  name : string;
  isDirectory : bool
}.

Module Fs.

Fixpoint assoc (k : string) (es : list (string * node)) : option node :=
  match es with
  | [] => None
  | (k', n) :: rest => if k' =? k then Some n else assoc k rest
  end.

Fixpoint walk (n : node) (segs : list string) : option node :=
  match segs with
  | [] => Some n
  | s :: rest =>
      match n with
      | File _ => None
      | Dir es =>
          match assoc s es with
          | Some child => walk child rest
          | None => None
          end
      end
  end.

(** Path resolution from the root of the tree (which is also the working
    directory): empty and dot segments are resolved, the parent of the
    root is the root, and a trailing separator asks for a directory. *)
Definition lookup (root : node) (p : string) : option node :=
  match walk root (rev (Path.norm_segs false [] (Js.split Js.slash p))) with
  | Some (File d) => if Js.endsWith p "/" then None else Some (File d)
  | r => r
  end.

Definition existsSync (root : node) (p : string) : bool :=
  match lookup root p with Some _ => true | None => false end.

(** [fs.statSync(p).isDirectory()] *)
Definition statSync_isDirectory (root : node) (p : string) : result bool :=
  match lookup root p with
  | Some (Dir _) => Ok true
  | Some (File _) => Ok false
  | None => Throw ENOENT
  end.

(** [fs.readFileSync(p, 'utf-8')] *)
Definition readFileSync (root : node) (p : string) : result string :=
  match lookup root p with
  | Some (File d) => Ok d
  | Some (Dir _) => Throw EISDIR
  | None => Throw ENOENT
  end.

Definition dirent_of (e : string * node) : Dirent :=
  match e with
  | (k, File _) => mkDirent k false
  | (k, Dir _) => mkDirent k true
  end.

(** [fs.readdirSync(p, { withFileTypes: true })] *)
Definition readdirSync (root : node) (p : string) : result (list Dirent) :=
  match lookup root p with
  | Some (Dir es) => Ok (map dirent_of es)
  | Some (File _) => Throw ENOTDIR
  | None => Throw ENOENT
  end.

(** [fs.readdirSync(p)]: names only. *)
Definition readdirSync_names (root : node) (p : string)
  : result (list string) :=
  es <- readdirSync root p ;; Ok (map name es).

End Fs.

(* ================================================================= *)
(** ** The data model *)

(** The optional fields read from a sidecar or from frontmatter. *)
Module Partial.
Record t : Type := mk {
  title : option string;
  date : option string;
  tags : option (list string);
  summary : option string
}.
(** The object [{}]. *)
Definition empty : t := mk None None None None.
End Partial.

Record DocumentMeta : Type := mkDocumentMeta {
  id : string;
  title : string;
  type : string;
  category : option string;
  date : option string;
  tags : option (list string);
  summary : option string
}.

(** [interface Document extends DocumentMeta] *)
Record Document : Type := mkDocument {
  meta : DocumentMeta;
  content : string;
  sections : option (list string)
}.

Record BodyContent : Type := mkBodyContent {
  bc_content : string;
  frontmatter : Partial.t
}.

(** [Array.prototype.sort(cmp)]: the sort is stable, so for a consistent
    comparator its result is the one of the stable insertion sort. *)
Section Sort.
Context {A : Type} (cmp : A -> A -> Z).

Fixpoint insert (x : A) (l : list A) : list A :=
  match l with
  | [] => [x]
  | y :: rest => if (cmp x y <=? 0)%Z then x :: l else y :: insert x rest
  end.

Definition sort (l : list A) : list A := fold_right insert [] l.
End Sort.

(* ================================================================= *)
(** ** [src/lib/documents.ts] *)

Section Documents.

(** gray-matter: the frontmatter record and the remaining body text, or
    an exception on a malformed block. *)
Variable matter : string -> result (Partial.t * string).
(** [JSON.parse], typed as the source types its result. *)
Variable JSON_parse : string -> result Partial.t.
(** [String.prototype.localeCompare]: negative, zero or positive. *)
Variable localeCompare : string -> string -> Z.
Variable BRAIN_PATH : string.
(** The filesystem the calls read. *)
Variable fs : node.

Definition getMetaFromFile (metaPath : string) : result Partial.t :=
  match
    (if Fs.existsSync fs metaPath then
       s <- Fs.readFileSync fs metaPath ;; JSON_parse s
     else Ok Partial.empty)
  with
  | Ok m => Ok m
  | Throw _ => (* console.error(..) *) Ok Partial.empty
  end.

Definition getBodyContent (docPath : string) : result BodyContent :=
  let bodyPath := Path.join docPath "body.md" in
  let indexPath := Path.join docPath "index.md" in
  let filePath :=
    if negb (Fs.existsSync fs bodyPath) && Fs.existsSync fs indexPath
    then indexPath else bodyPath in
  if Fs.existsSync fs filePath then
    fileContent <- Fs.readFileSync fs filePath ;;
    m <- matter fileContent ;;
    Ok (mkBodyContent (snd m) (fst m))
  else if Js.endsWith docPath ".md" && Fs.existsSync fs docPath then
    fileContent <- Fs.readFileSync fs docPath ;;
    m <- matter fileContent ;;
    Ok (mkBodyContent (snd m) (fst m))
  else Ok (mkBodyContent "" Partial.empty).

Definition types : list string := ["projects"; "journals"; "concepts"].

(** One iteration of the loop over [subEntries] of a category folder. *)
Definition subEntryDocuments (type entryName entryPath : string)
    (subEntry : Dirent) : result (list DocumentMeta) :=
  let subPath := Path.join entryPath (name subEntry) in
  if isDirectory subEntry then
    meta <- getMetaFromFile (Path.join subPath "meta.json") ;;
    bc <- getBodyContent subPath ;;
    let frontmatter := frontmatter bc in
    Ok [ {| id := type ++ "/" ++ entryName ++ "/" ++ name subEntry;
            title :=
              Js.or_else_str
                (Js.or_str (Partial.title frontmatter) (Partial.title meta))
                (Js.hyphens_to_spaces (name subEntry));
            type := Js.drop_last type;
            category := Some entryName;
            date := Js.or_str (Partial.date frontmatter) (Partial.date meta);
            tags :=
              Some (Js.or_else_tags
                      (Js.or_tags (Partial.tags frontmatter)
                                  (Partial.tags meta)) []);
            summary :=
              Js.or_str (Partial.summary frontmatter) (Partial.summary meta)
         |} ]
  else if Js.endsWith (name subEntry) ".md" then
    bc <- getBodyContent subPath ;;
    let frontmatter := frontmatter bc in
    let name := Js.remove_first ".md" (name subEntry) in
    Ok [ {| id := type ++ "/" ++ entryName ++ "/" ++ name;
            title :=
              Js.or_else_str (Partial.title frontmatter)
                             (Js.hyphens_to_spaces name);
            type := Js.drop_last type;
            category := Some entryName;
            date := Partial.date frontmatter;
            tags := Some (Js.or_else_tags (Partial.tags frontmatter) []);
            summary := Partial.summary frontmatter
         |} ]
  else Ok [].

(** [subEntries.some(e => e.name === 'body.md' || e.name === 'index.md')] *)
Definition hasBody (subEntries : list Dirent) : bool :=
  existsb (fun e => (name e =? "body.md") || (name e =? "index.md"))
          subEntries.

(** One iteration of the loop over the [entries] of a type folder. *)
Definition entryDocuments (type typePath : string) (entry : Dirent)
  : result (list DocumentMeta) :=
  let entryPath := Path.join typePath (name entry) in
  if isDirectory entry then
    subEntries <- Fs.readdirSync fs entryPath ;;
    if hasBody subEntries then
      meta <- getMetaFromFile (Path.join entryPath "meta.json") ;;
      bc <- getBodyContent entryPath ;;
      let frontmatter := frontmatter bc in
      Ok [ {| id := type ++ "/" ++ name entry;
              title :=
                Js.or_else_str
                  (Js.or_str (Partial.title frontmatter)
                             (Partial.title meta))
                  (Js.hyphens_to_spaces (name entry));
              type := Js.drop_last type;
              category :=
                if type =? "projects" then Some (name entry) else None;
              date :=
                Js.or_str (Partial.date frontmatter) (Partial.date meta);
              tags :=
                Some (Js.or_else_tags
                        (Js.or_tags (Partial.tags frontmatter)
                                    (Partial.tags meta)) []);
              summary :=
                Js.or_str (Partial.summary frontmatter)
                          (Partial.summary meta)
           |} ]
    else
      for_each (subEntryDocuments type (name entry) entryPath) subEntries
  else if Js.endsWith (name entry) ".md" then
    bc <- getBodyContent entryPath ;;
    let frontmatter := frontmatter bc in
    let name := Js.remove_first ".md" (name entry) in
    Ok [ {| id := type ++ "/" ++ name;
            title := Js.or_else_str (Partial.title frontmatter) name;
            type := Js.drop_last type;
            category := None;
            date := Some (Js.or_else_str (Partial.date frontmatter) name);
            tags := Some (Js.or_else_tags (Partial.tags frontmatter) []);
            summary := Partial.summary frontmatter
         |} ]
  else Ok [].

(** One iteration of the loop over [types]. *)
Definition typeDocuments (type : string) : result (list DocumentMeta) :=
  let typePath := Path.join BRAIN_PATH type in
  if negb (Fs.existsSync fs typePath) then Ok []
  else
    entries <- Fs.readdirSync fs typePath ;;
    for_each (entryDocuments type typePath) entries.

(** The comparator handed to [documents.sort]. *)
Definition compareDocuments (a b : DocumentMeta) : Z :=
  match date a, date b with
  | Some da, Some db =>
      if Js.truthy (date a) && Js.truthy (date b) then localeCompare db da
      else if Js.truthy (date a) then (-1)%Z
      else if Js.truthy (date b) then 1%Z
      else localeCompare (title a) (title b)
  | _, _ =>
      if Js.truthy (date a) then (-1)%Z
      else if Js.truthy (date b) then 1%Z
      else localeCompare (title a) (title b)
  end.

(** The documents pushed by the loops, before the sort. *)
Definition collectDocuments : result (list DocumentMeta) :=
  for_each typeDocuments types.

Definition getAllDocuments : result (list DocumentMeta) :=
  documents <- collectDocuments ;;
  Ok (sort compareDocuments documents).

(** The path [getDocument] settles on: the identifier under the root, or
    that path with [.md] appended when the former does not exist. *)
Definition actualPath (id : string) : string :=
  let docPath := Path.join BRAIN_PATH id in
  if negb (Fs.existsSync fs docPath) then docPath ++ ".md" else docPath.

(** The [sections] of a directory-shaped document. *)
Definition readSections (actualPath : string) : result (list string) :=
  let sectionsPath := Path.join actualPath "sections" in
  if Fs.existsSync fs sectionsPath then
    files <- Fs.readdirSync_names fs sectionsPath ;;
    Ok (map (Js.remove_first ".md")
            (filter (fun f => Js.endsWith f ".md") files))
  else Ok [].

Definition getDocument (id : string) : result (option Document) :=
  let docPath := Path.join BRAIN_PATH id in
  if negb (Fs.existsSync fs docPath)
     && negb (Fs.existsSync fs (docPath ++ ".md"))
  then Ok None
  else
    let actualPath := actualPath id in
    isDirectory <- Fs.statSync_isDirectory fs actualPath ;;
    if isDirectory : bool then
      meta <- getMetaFromFile (Path.join actualPath "meta.json") ;;
      bc <- getBodyContent actualPath ;;
      let frontmatter := frontmatter bc in
      sections <- readSections actualPath ;;
      let parts := Js.split Js.slash id in
      let type := Js.drop_last (hd "" parts) in
      Ok (Some
        {| meta :=
             {| id := id;
                title :=
                  Js.or_else_str
                    (Js.or_str (Partial.title frontmatter)
                               (Partial.title meta))
                    (Js.hyphens_to_spaces (last parts ""));
                type := type;
                category :=
                  if (2 <? List.length parts)%nat
                  then Some (nth 1 parts "") else None;
                date :=
                  Js.or_str (Partial.date frontmatter) (Partial.date meta);
                tags :=
                  Some (Js.or_else_tags
                          (Js.or_tags (Partial.tags frontmatter)
                                      (Partial.tags meta)) []);
                summary :=
                  Js.or_str (Partial.summary frontmatter)
                            (Partial.summary meta)
             |};
           content := bc_content bc;
           sections := Some sections
        |})
    else
      bc <- getBodyContent actualPath ;;
      let frontmatter := frontmatter bc in
      let parts := Js.split Js.slash id in
      let name := last parts "" in
      let type := Js.drop_last (hd "" parts) in
      Ok (Some
        {| meta :=
             {| id := id;
                title :=
                  Js.or_else_str (Partial.title frontmatter)
                                 (Js.hyphens_to_spaces name);
                type := type;
                category :=
                  if (2 <? List.length parts)%nat
                  then Some (nth 1 parts "") else None;
                date :=
                  Some (Js.or_else_str (Partial.date frontmatter) name);
                tags :=
                  Some (Js.or_else_tags (Partial.tags frontmatter) []);
                summary := Partial.summary frontmatter
             |};
           content := bc_content bc;
           sections := None
        |}).

End Documents.

(* ================================================================= *)
(** ** A concrete platform and concrete trees *)

Module Demo.

Definition nl : string := String (ascii_of_nat 10) EmptyString.
Definition dq : string := String (ascii_of_nat 34) EmptyString.

(** Frontmatter [title: A]. *)
Definition text_title_A : string :=
  "---" ++ nl ++ "title: A" ++ nl ++ "---" ++ nl ++ "Hello".

(** Frontmatter [date: ''], the empty string. *)
Definition text_date_empty : string :=
  "---" ++ nl ++ "date: ''" ++ nl ++ "---" ++ nl ++ "Hello".

(** Frontmatter [title: ''], the empty string. *)
Definition text_title_empty : string :=
  "---" ++ nl ++ "title: ''" ++ nl ++ "---" ++ nl ++ "Hello".

(** Frontmatter [tags: []], the empty sequence. *)
Definition text_tags_empty : string :=
  "---" ++ nl ++ "tags: []" ++ nl ++ "---" ++ nl ++ "Hello".

(** The sidecar with title B and date 2024-01-01. *)
Definition json_title_B_date : string :=
  "{" ++ dq ++ "title" ++ dq ++ ": " ++ dq ++ "B" ++ dq ++ ", "
      ++ dq ++ "date" ++ dq ++ ": " ++ dq ++ "2024-01-01" ++ dq ++ "}".

(** The sidecar with tags [x]. *)
Definition json_tags_x : string :=
  "{" ++ dq ++ "tags" ++ dq ++ ": [" ++ dq ++ "x" ++ dq ++ "]}".

(** gray-matter on the texts of this module: the four fenced texts above
    parse to their records, and a text that does not open with the [---]
    fence has no frontmatter and is its own body.  No other fenced text is
    read below; such a text stands for a malformed block. *)
Definition matter (s : string) : result (Partial.t * string) :=
  if s =? text_title_A then
    Ok (Partial.mk (Some "A") None None None, "Hello")
  else if s =? text_date_empty then
    Ok (Partial.mk None (Some "") None None, "Hello")
  else if s =? text_title_empty then
    Ok (Partial.mk (Some "") None None None, "Hello")
  else if s =? text_tags_empty then
    Ok (Partial.mk None None (Some []) None, "Hello")
  else if Js.startsWith s "---" then Throw YAMLException
  else Ok (Partial.empty, s).

(** [JSON.parse] on the texts of this module; any other text used below is
    not JSON. *)
Definition JSON_parse (s : string) : result Partial.t :=
  if s =? "{}" then Ok Partial.empty
  else if s =? json_title_B_date then
    Ok (Partial.mk (Some "B") (Some "2024-01-01") None None)
  else if s =? json_tags_x then
    Ok (Partial.mk None None (Some ["x"]) None)
  else Throw SyntaxError.

(** [String.prototype.localeCompare] in the root collation, on texts of
    ASCII letters, digits, spaces and hyphens.  Two texts are compared
    first without regard to case, character by character: a space sorts
    before a hyphen, these before the digits and the digits before the
    letters, and a proper prefix sorts first.  Texts that differ by case
    only are ordered by their first such difference, lower case first.  So
    [a] sorts before [B], which the comparison by character codes puts
    first. *)
Definition is_capital (c : ascii) : bool :=
  let n := nat_of_ascii c in (65 <=? n)%nat && (n <=? 90)%nat.

Fixpoint primary (s : string) : string :=
  match s with
  | EmptyString => EmptyString
  | String c rest =>
      String (if is_capital c then ascii_of_nat (nat_of_ascii c + 32) else c)
             (primary rest)
  end.

Fixpoint tertiary (s : string) : string :=
  match s with
  | EmptyString => EmptyString
  | String c rest =>
      String (if is_capital c then "1"%char else "0"%char) (tertiary rest)
  end.

Definition localeCompare (a b : string) : Z :=
  match String.compare (primary a) (primary b) with
  | Lt => (-1)%Z
  | Gt => 1%Z
  | Eq =>
      match String.compare (tertiary a) (tertiary b) with
      | Lt => (-1)%Z
      | Eq => 0%Z
      | Gt => 1%Z
      end
  end.

Definition BRAIN_PATH : string := "/home/andy/second-brain".

(** The tree whose brain folder has the given entries. *)
Definition brain (entries : list (string * node)) : node :=
  Dir [("home", Dir [("andy", Dir [("second-brain", Dir entries)])])].

(** [projects/foo/body.md] *)
Definition fs_project_foo : node :=
  brain [("projects", Dir [("foo", Dir [("body.md", File "Hello")])])].

(** [projects/foo/bar/body.md] *)
Definition fs_project_foo_bar : node :=
  brain [("projects",
          Dir [("foo", Dir [("bar", Dir [("body.md", File "Hello")])])])].


(** [projects/foo/] with frontmatter [tags: []] and sidecar tags [x]. *)
Definition fs_empty_tags : node :=
  brain [("projects",
          Dir [("foo", Dir [("body.md", File text_tags_empty);
                            ("meta.json", File json_tags_x)])])].

(** Two dated journals and one undated concept. *)
Definition fs_sorting : node :=
  brain [("journals", Dir [("2024-01-01.md", File "January");
                           ("2024-06-01.md", File "June")]);
         ("concepts", Dir [("idea", Dir [("body.md", File "Undated")])])].

(** [projects/foo/body.md] next to [projects/foo.md]. *)
Definition fs_same_base_name : node :=
  brain [("projects", Dir [("foo", Dir [("body.md", File "Folder")]);
                           ("foo.md", File "Flat")])].

(** [journals/2026-01-28.md] *)
Definition fs_journal : node :=
  brain [("journals", Dir [("2026-01-28.md", File "Dear diary")])].


(** [journals/a.md.b.md] *)
Definition fs_journal_inner_md : node :=
  brain [("journals", Dir [("a.md.b.md", File "Dear diary")])].

(** [journals/my-note.md] *)
Definition fs_flat_hyphen : node :=
  brain [("journals", Dir [("my-note.md", File "Note")])].

(** [projects/cat/my-note.md] *)
Definition fs_subdoc_file : node :=
  brain [("projects", Dir [("cat", Dir [("my-note.md", File "Note")])])].

(** [projects/foo/] with a sidecar that is not JSON. *)
Definition fs_bad_sidecar : node :=
  brain [("projects",
          Dir [("foo", Dir [("body.md", File text_title_A);
                            ("meta.json", File "{oops")])])].

(** [projects/foo/] where [sections] is a plain file. *)
Definition fs_sections_file : node :=
  brain [("projects",
          Dir [("foo", Dir [("body.md", File "Hello");
                            ("sections", File "not a folder")])])].

(** [projects/foo/] with two sections and another file. *)
Definition fs_sections : node :=
  brain [("projects",
          Dir [("foo", Dir [("body.md", File "Hello");
                            ("sections", Dir [("intro.md", File "I");
                                              ("notes.txt", File "N");
                                              ("outro.md", File "O")])])])].

(** [projects/foo/] with the empty-title frontmatter and sidecar title B. *)
Definition fs_empty_title : node :=
  brain [("projects",
          Dir [("foo", Dir [("body.md", File text_title_empty);
                            ("meta.json", File json_title_B_date)])])].

(** Two journals, and a project category with a folder and a file. *)
Definition fs_distinct : node :=
  brain
    [("projects",
      Dir [("quizzydots",
            Dir [("plan", Dir [("body.md", File "Plan")]);
                 ("notes.md", File "Notes")])]);
     ("journals", Dir [("2024-01-01.md", File "January");
                       ("2024-06-01.md", File "June")])].

(** The paths of the folders used below. *)
Definition projects_path : string := "/home/andy/second-brain/projects".
Definition journals_path : string := "/home/andy/second-brain/journals".

End Demo.

(* ================================================================= *)
(** ** Notions used to state the properties *)

Module Spec.

(** The name holds no path separator (true of every directory entry). *)
Fixpoint no_slash (s : string) : bool :=
  match s with
  | EmptyString => true
  | String c rest => negb (Ascii.eqb c Js.slash) && no_slash rest
  end.

(** [pat] occurs somewhere in [s]. *)
Fixpoint occurs (pat s : string) : bool :=
  Js.startsWith s pat
  || match s with
     | EmptyString => false
     | String _ rest => occurs pat rest
     end.

Definition nonempty_string (s : string) : bool := negb (s =? "").


(** The precedence rule in the words of the specification: the frontmatter
    value wins if present and non-empty; otherwise the sidecar value is
    used; otherwise the field is absent. *)
Definition precedence {A : Type} (nonempty : A -> bool)
    (fm sidecar : option A) : option A :=
  match fm with
  | Some v => if nonempty v then Some v else sidecar
  | None => sidecar
  end.

(** The comparator is consistent: swapping the arguments flips the sign,
    and "not after" is transitive. *)
Record consistent (cmp : string -> string -> Z) : Prop := {
  cmp_flip : forall a b, Z.sgn (cmp b a) = (- Z.sgn (cmp a b))%Z;
  cmp_trans : forall a b c,
      (cmp a b <= 0)%Z -> (cmp b c <= 0)%Z -> (cmp a c <= 0)%Z
}.

(** The entries of a folder that yield documents, and the path segment
    each contributes to the identifiers. *)
Definition listed (e : Dirent) : bool :=
  isDirectory e || Js.endsWith (name e) ".md".

Definition segment (e : Dirent) : string :=
  if isDirectory e then name e else Js.remove_first ".md" (name e).

(** A parser that answers the empty record where [parse] raises. *)
Definition lenient (parse : string -> result Partial.t) (s : string)
  : result Partial.t :=
  match parse s with
  | Ok m => Ok m
  | Throw _ => Ok Partial.empty
  end.

(** The title rule in the words of the specification: the frontmatter
    title when present, otherwise the sidecar title when present, otherwise
    the last path segment of the identifier with hyphens replaced by
    spaces. *)
Definition title_by_chain (fm sidecar : option string) (ident : string)
  : string :=
  match fm with
  | Some t => t
  | None =>
      match sidecar with
      | Some t => t
      | None => Js.hyphens_to_spaces (last (Js.split Js.slash ident) "")
      end
  end.

(** The last segment of an identifier. *)
Definition last_segment (id : string) : string :=
  last (Js.split Js.slash id) "".

(** The title rule: the frontmatter title when present and non-empty,
    otherwise the sidecar title when present and non-empty, otherwise the
    fallback. *)
Definition resolved_title (fm sidecar : option string) (fallback : string)
  : string :=
  match precedence nonempty_string fm
          (precedence nonempty_string sidecar None) with
  | Some t => t
  | None => fallback
  end.

(** The tags rule: the frontmatter tags when present (an empty sequence
    included), otherwise the sidecar tags when present, otherwise the empty
    sequence. *)
Definition resolved_tags (fm sidecar : option (list string)) : list string :=
  match fm with
  | Some l => l
  | None => match sidecar with
            | Some l => l
            | None => []
            end
  end.

(** The four merged fields of a document backed by a folder. *)
Definition folder_fields (fallback : string) (fm sidecar : Partial.t)
    (d : DocumentMeta) : Prop :=
  title d = resolved_title (Partial.title fm) (Partial.title sidecar) fallback
  /\ date d
     = precedence nonempty_string (Partial.date fm) (Partial.date sidecar)
  /\ tags d = Some (resolved_tags (Partial.tags fm) (Partial.tags sidecar))
  /\ summary d
     = precedence nonempty_string (Partial.summary fm)
         (Partial.summary sidecar).


End Spec.

(* ================================================================= *)
(** ** [getCategories] and the listing endpoint ([api/documents/route.ts]) *)

(** One element of the result of [getCategories]. *)
Record TypeCategories : Type := mkTypeCategories {
  tc_type : string;
  categories : list string
}.

(** The JSON body of a response of the listing endpoint. *)
Inductive ResponseBody : Type :=
| DocumentsBody (documents : list DocumentMeta)
| ErrorBody (error : string).

Record Response : Type := mkResponse {
  status : nat;
  body : ResponseBody
}.

Section Api.

Variable matter : string -> result (Partial.t * string).
Variable JSON_parse : string -> result Partial.t.
Variable localeCompare : string -> string -> Z.
Variable BRAIN_PATH : string.
Variable fs : node.

(** One iteration of the loop of [getCategories] over its [types]. *)
Definition typeCategories (type : string) : result (list TypeCategories) :=
  let typePath := Path.join BRAIN_PATH type in
  if negb (Fs.existsSync fs typePath) then Ok []
  else
    entries <- Fs.readdirSync fs typePath ;;
    let categories := map name (filter isDirectory entries) in
    Ok [ {| tc_type := type; categories := categories |} ].

Definition getCategories : result (list TypeCategories) :=
  for_each typeCategories ["projects"; "journals"; "concepts"].

(** [GET] of [/api/documents]: [NextResponse.json(documents)] answers 200,
    the [catch] branch 500. *)
Definition GET : Response :=
  match getAllDocuments matter JSON_parse localeCompare BRAIN_PATH fs with
  | Ok documents => mkResponse 200 (DocumentsBody documents)
  | Throw _ =>
      (* console.error(..) *)
      mkResponse 500 (ErrorBody "Failed to fetch documents")
  end.

End Api.

(* ================================================================= *)
(** ** The list page ([Home]) *)

Module Home.

(** [activeTab] *)
Inductive Tab : Type := All | Projects | Journals | Concepts.

Definition tab_name (tab : Tab) : string :=
  match tab with
  | All => "all"
  | Projects => "projects"
  | Journals => "journals"
  | Concepts => "concepts"
  end.

(** [GroupedDocs]: the own properties of [projects] in insertion order. *)
Record GroupedDocs : Type := mkGroupedDocs {
  projects : list (string * list DocumentMeta);
  journals : list DocumentMeta;
  concepts : list DocumentMeta
}.

(** [o[cat]] for an own property. *)
Fixpoint own (cat : string) (o : list (string * list DocumentMeta))
  : option (list DocumentMeta) :=
  match o with
  | [] => None
  | (k, docs) :: rest => if k =? cat then Some docs else own cat rest
  end.

(** [if (!o[cat]) o[cat] = []; o[cat].push(doc)] where [cat] is not
    inherited. *)
Fixpoint push (cat : string) (doc : DocumentMeta)
    (o : list (string * list DocumentMeta))
  : list (string * list DocumentMeta) :=
  match o with
  | [] => [(cat, [doc])]
  | (k, docs) :: rest =>
      if k =? cat then (k, (docs ++ [doc])%list) :: rest
      else (k, docs) :: push cat doc rest
  end.

(** The keys that are array indices: the decimal numerals without a
    leading zero, up to 4294967294. *)
Definition digit (c : ascii) : option N :=
  let n := N_of_ascii c in
  if (48 <=? n)%N && (n <=? 57)%N then Some (n - 48)%N else None.

Fixpoint numeral (acc : N) (s : string) : option N :=
  match s with
  | EmptyString => Some acc
  | String c rest =>
      match digit c with
      | Some d => numeral (10 * acc + d)%N rest
      | None => None
      end
  end.

Definition index_key (k : string) : option N :=
  match k with
  | EmptyString => None
  | String c rest =>
      if Ascii.eqb c "0"%char && negb (rest =? "") then None
      else
        match numeral 0 k with
        | Some n => if (n <=? 4294967294)%N then Some n else None
        | None => None
        end
  end.

Definition is_index {A : Type} (p : string * A) : bool :=
  match index_key (fst p) with
  | Some _ => true
  | None => false
  end.

Definition by_index {A : Type} (p q : string * A) : Z :=
  match index_key (fst p), index_key (fst q) with
  | Some m, Some n => (Z.of_N m - Z.of_N n)%Z
  | _, _ => 0%Z
  end.

(** [Object.entries(o)]: the array indices in ascending order, then the
    other keys in insertion order. *)
Definition entries {A : Type} (o : list (string * A)) : list (string * A) :=
  (sort by_index (filter is_index o)
   ++ filter (fun p => negb (is_index p)) o)%list.

Section Page.

(** [String.prototype.toLowerCase] *)
Variable toLowerCase : string -> string.
(** The property names every object literal inherits ([constructor],
    [toString], ...): for such a name [o[cat]] is the inherited member,
    not an array. *)
Variable inherited : string -> bool.

(** The body of the grouping loop; [None] is the TypeError of calling
    [push] on an inherited member. *)
Definition groupStep (g : GroupedDocs) (doc : DocumentMeta)
  : option GroupedDocs :=
  if type doc =? "project" then
    let cat := Js.or_else_str (category doc) "uncategorized" in
    if inherited cat then None
    else Some (mkGroupedDocs (push cat doc (projects g))
                             (journals g) (concepts g))
  else if type doc =? "journal" then
    Some (mkGroupedDocs (projects g) (journals g ++ [doc])%list (concepts g))
  else if type doc =? "concept" then
    Some (mkGroupedDocs (projects g) (journals g) (concepts g ++ [doc])%list)
  else Some g.

Fixpoint groupFrom (g : GroupedDocs) (data : list DocumentMeta)
  : option GroupedDocs :=
  match data with
  | [] => Some g
  | doc :: rest =>
      match groupStep g doc with
      | Some g' => groupFrom g' rest
      | None => None
      end
  end.

(** The grouping of the fetched documents. *)
Definition groupDocuments (data : list DocumentMeta) : option GroupedDocs :=
  groupFrom (mkGroupedDocs [] [] []) data.

(** [s.includes(q)] *)
Definition includes (s q : string) : bool := Spec.occurs q s.

(** The predicate of [documents.filter(..)]. *)
Definition shown (searchQuery : string) (activeTab : Tab)
    (doc : DocumentMeta) : bool :=
  if negb (searchQuery =? "") then
    let q := toLowerCase searchQuery in
    includes (toLowerCase (title doc)) q
    || match summary doc with
       | Some s => includes (toLowerCase s) q
       | None => false
       end
    || match tags doc with
       | Some ts => existsb (fun t => includes (toLowerCase t) q) ts
       | None => false
       end
  else if tab_name activeTab =? "all" then true
  else type doc =? Js.drop_last (tab_name activeTab).

Definition filteredDocs (searchQuery : string) (activeTab : Tab)
    (documents : list DocumentMeta) : list DocumentMeta :=
  filter (shown searchQuery activeTab) documents.

(** The count shown on a tab. *)
Definition tabCount (tab : Tab) (documents : list DocumentMeta)
    (grouped : GroupedDocs) : nat :=
  if tab_name tab =? "all" then List.length documents
  else if tab_name tab =? "projects" then
    List.length (List.concat (map snd (projects grouped)))
  else if tab_name tab =? "journals" then List.length (journals grouped)
  else List.length (concepts grouped).

(** [grouped] after the fetch: [setGrouped] is reached only when the
    grouping completes; the state keeps its initial value when it
    raises. *)
Definition groupedAfter (data : list DocumentMeta) : GroupedDocs :=
  match groupDocuments data with
  | Some g => g
  | None => mkGroupedDocs [] [] []
  end.

(** The cards of the main area: the grouped view on the Projects tab
    without a search query, the flat list otherwise. *)
Definition cards (searchQuery : string) (activeTab : Tab)
    (documents : list DocumentMeta) (grouped : GroupedDocs)
  : list DocumentMeta :=
  if (tab_name activeTab =? "projects") && (searchQuery =? "") then
    List.concat (map snd (entries (projects grouped)))
  else filteredDocs searchQuery activeTab documents.

End Page.

End Home.

(* ================================================================= *)
(** ** Notions used to state the further properties *)

Module Laws.

(** The category under which the list page groups a project. *)
Definition group_of (d : DocumentMeta) : string :=
  Js.or_else_str (category d) "uncategorized".

(** The bucket of a category, empty when there is none. *)
Definition bucket (cat : string) (g : Home.GroupedDocs)
  : list DocumentMeta :=
  match Home.own cat (Home.projects g) with
  | Some docs => docs
  | None => []
  end.

Definition is_type (ty : string) (d : DocumentMeta) : bool := type d =? ty.

(** The record sits under the type folder [t]: its type is the singular of
    the folder, its identifier starts with the folder, and its category,
    when present, is the next segment of the identifier. *)
Definition placed_under (t : string) (d : DocumentMeta) : Prop :=
  type d = Js.drop_last t
  /\ Js.startsWith (id d) (t ++ "/") = true
  /\ forall c,
      category d = Some c ->
      (t = "projects" /\ id d = t ++ "/" ++ c)
      \/ exists seg, id d = t ++ "/" ++ c ++ "/" ++ seg.

(** What a pushed record owes to the entry of the type folder [t] it comes
    from: its place, and a category that can only be the name of that
    entry, a directory. *)
Definition from_entry (t : string) (entry : Dirent) (d : DocumentMeta)
  : Prop :=
  placed_under t d
  /\ forall c,
      category d = Some c -> isDirectory entry = true /\ c = name entry.

(** The record sits under one of the three type folders. *)
Definition well_placed (d : DocumentMeta) : Prop :=
  exists t, In t types /\ placed_under t d.


Definition with_title (t : string) (d : DocumentMeta) : DocumentMeta :=
  mkDocumentMeta (id d) t (type d) (category d) (date d) (tags d) (summary d).

Definition with_date (v : option string) (d : DocumentMeta) : DocumentMeta :=
  mkDocumentMeta (id d) (title d) (type d) (category d) v (tags d) (summary d).

(** The name holds no hyphen. *)
Definition no_hyphen (s : string) : Prop := Js.hyphens_to_spaces s = s.

(** A plain entry name: not empty, without separator, and neither of the
    two dot names. *)
Definition plain (s : string) : Prop :=
  Spec.no_slash s = true /\ s <> "" /\ s <> "." /\ s <> "..".

(** A path written from the stack of its segments, last first. *)
Definition render (isAbsolute : bool) (stack : list string) : string :=
  (if isAbsolute then "/" else "") ++ String.concat "/" (rev stack).

(** A segment that normalization keeps. *)
Definition kept (s : string) : Prop :=
  Spec.no_slash s = true /\ s <> "" /\ s <> ".".

(** A normalized stack: kept segments, where [..] sits only at the bottom
    and only when the path may climb above its start. *)
Fixpoint normal (above : bool) (stack : list string) : Prop :=
  match stack with
  | [] => True
  | s :: below =>
      kept s
      /\ (s = ".." ->
          above = true
          /\ match below with
             | [] => True
             | b :: _ => b = ".."
             end)
      /\ normal above below
  end.

End Laws.

(* ================================================================= *)
(** ** Further concrete trees and a concrete page *)

Module Cases.

(** A frontmatter block whose YAML is malformed (an unclosed sequence). *)
Definition text_broken : string :=
  "---" ++ Demo.nl ++ "title: [" ++ Demo.nl ++ "---" ++ Demo.nl ++ "Body".

(** A good journal next to one with malformed frontmatter. *)
Definition fs_broken_entry : node :=
  Demo.brain [("journals", Dir [("2024-01-01.md", File "January");
                                ("broken.md", File text_broken)])].

(** [journals] is a plain file. *)
Definition fs_type_is_file : node :=
  Demo.brain [("journals", File "not a folder")].

(** [projects/foo/] with both [body.md] and [index.md]. *)
Definition fs_body_and_index : node :=
  Demo.brain
    [("projects", Dir [("foo", Dir [("body.md", File "Body text");
                                    ("index.md", File "Index text")])])].

(** [projects/foo/] with [index.md] only. *)
Definition fs_index_only : node :=
  Demo.brain
    [("projects", Dir [("foo", Dir [("index.md", File "Index text")])])].

(** [projects/foo/] where [body.md] is a directory. *)
Definition fs_body_is_directory : node :=
  Demo.brain
    [("projects", Dir [("foo", Dir [("body.md", Dir []);
                                    ("index.md", File "Index text")])])].

(** A project category named [constructor]. *)
Definition fs_inherited_category : node :=
  Demo.brain
    [("projects",
      Dir [("constructor", Dir [("plan", Dir [("body.md", File "Plan")])])])].

(** [concepts/idea.md] *)
Definition fs_flat_plain : node :=
  Demo.brain [("concepts", Dir [("idea.md", File "Idea")])].

Definition concepts_path : string := "/home/andy/second-brain/concepts".

(** Lower case of the letters A to Z. *)
Definition lower (c : ascii) : ascii :=
  let n := nat_of_ascii c in
  if (65 <=? n)%nat && (n <=? 90)%nat then ascii_of_nat (n + 32) else c.

(** [toLowerCase] on texts of letters A to Z and other ASCII characters. *)
Fixpoint toLowerCase (s : string) : string :=
  match s with
  | EmptyString => EmptyString
  | String c rest => String (lower c) (toLowerCase rest)
  end.

(** The members of [Object.prototype]. *)
Definition inherited (k : string) : bool :=
  existsb (String.eqb k)
    ["constructor"; "hasOwnProperty"; "isPrototypeOf";
     "propertyIsEnumerable"; "toLocaleString"; "toString"; "valueOf";
     "__defineGetter__"; "__defineSetter__"; "__lookupGetter__";
     "__lookupSetter__"; "__proto__"].

(** Three fetched records. *)
Definition doc_plan : DocumentMeta :=
  mkDocumentMeta "projects/quizzydots/plan" "Plan" "project"
    (Some "quizzydots") None (Some ["Roadmap"; "q3"]) None.

Definition doc_notes : DocumentMeta :=
  mkDocumentMeta "projects/notes" "notes" "project" None (Some "notes")
    (Some []) (Some "Loose notes").

Definition doc_january : DocumentMeta :=
  mkDocumentMeta "journals/2024-01-01" "2024-01-01" "journal" None
    (Some "2024-01-01") (Some []) None.

Definition doc_constructor : DocumentMeta :=
  mkDocumentMeta "projects/constructor/plan" "plan" "project"
    (Some "constructor") None (Some []) None.

End Cases.

(* ================================================================= *)
(** ** The same functions on run-time values *)

(** TypeScript's types are erased at run time.  [JSON.parse] returns
    whatever the sidecar holds ([null], a text, an object whose [tags] is a
    text) and gray-matter returns whatever the YAML block parses to (an
    unquoted timestamp is a [Date]), so a field typed [string] or
    [string[]] may hold any value.  This module embeds the functions of
    [src/lib/documents.ts] once more, on the values they really receive;
    the definitions above are these restricted to metadata of the declared
    types. *)
Module Any.

(** A JavaScript value as the two parsers produce them.  A number is kept
    as an integer (fractions and [NaN] are left out): only whether it is
    zero matters below. *)
#[warnings="-register-all"] Inductive value : Type :=
| Undefined
| Null
| Bool (b : bool)
| Num (n : Z)
| Str (s : string)
| Date (iso : string)
| Arr (items : list value)
| Obj (props : list (string * value)).

(** The conversion to boolean of [||] and [&&]. *)
Definition truthy (v : value) : bool :=
  match v with
  | Undefined | Null => false
  | Bool b => b
  | Num n => negb (n =? 0)%Z
  | Str s => negb (s =? "")
  | Date _ | Arr _ | Obj _ => true
  end.

(** [o[k]] for an own property of an object, [undefined] without one. *)
Fixpoint own (k : string) (props : list (string * value)) : value :=
  match props with
  | [] => Undefined
  | (k', v) :: rest => if k' =? k then v else own k rest
  end.

(** [v.k] for the keys the source reads ([title], [date], [tags],
    [summary]), which no prototype defines: a [TypeError] on [null] and
    [undefined], the own property of an object, [undefined] on any other
    value. *)
Definition get (v : value) (k : string) : result value :=
  match v with
  | Undefined | Null => Throw TypeError
  | Obj props => Ok (own k props)
  | Bool _ | Num _ | Str _ | Date _ | Arr _ => Ok Undefined
  end.

(** [a || b]: [b] is evaluated only when [a] is falsy. *)
Definition or (a b : result value) : result value :=
  x <- a ;; if truthy x then Ok x else b.

Record DocumentMeta : Type := mkDocumentMeta {
  id : string;
  title : value;
  type : string;
  category : option string;
  date : value;
  tags : value;
  summary : value
}.

Record Document : Type := mkDocument {
  meta : DocumentMeta;
  content : string;
  sections : option (list string)
}.

Record BodyContent : Type := mkBodyContent {
  bc_content : string;
  frontmatter : value
}.

(** [Array.prototype.sort(cmp)] with a comparator that may raise: the
    exception aborts the sort.  The comparisons made are those of the
    stable insertion sort. *)
Section Sort.
Context {A : Type} (cmp : A -> A -> result Z).

Fixpoint insert (x : A) (l : list A) : result (list A) :=
  match l with
  | [] => Ok [x]
  | y :: rest =>
      c <- cmp x y ;;
      if (c <=? 0)%Z then Ok (x :: l)
      else
        l' <- insert x rest ;;
        Ok (y :: l')
  end.

Fixpoint sort (l : list A) : result (list A) :=
  match l with
  | [] => Ok []
  | x :: rest =>
      sorted <- sort rest ;;
      insert x sorted
  end.
End Sort.

Section Documents.

(** gray-matter: [data] and [content], or an exception on a malformed
    block. *)
Variable matter : string -> result (value * string).
Variable JSON_parse : string -> result value.
(** [String.prototype.localeCompare] on two texts. *)
Variable localeCompare : string -> string -> Z.
(** The conversion to text of an argument that is not a text. *)
Variable ToString : value -> string.
Variable BRAIN_PATH : string.
Variable fs : node.

Definition getMetaFromFile (metaPath : string) : result value :=
  match
    (if Fs.existsSync fs metaPath then
       s <- Fs.readFileSync fs metaPath ;; JSON_parse s
     else Ok (Obj []))
  with
  | Ok m => Ok m
  | Throw _ => (* console.error(..) *) Ok (Obj [])
  end.

Definition getBodyContent (docPath : string) : result BodyContent :=
  let bodyPath := Path.join docPath "body.md" in
  let indexPath := Path.join docPath "index.md" in
  let filePath :=
    if negb (Fs.existsSync fs bodyPath) && Fs.existsSync fs indexPath
    then indexPath else bodyPath in
  if Fs.existsSync fs filePath then
    fileContent <- Fs.readFileSync fs filePath ;;
    m <- matter fileContent ;;
    Ok (mkBodyContent (snd m) (fst m))
  else if Js.endsWith docPath ".md" && Fs.existsSync fs docPath then
    fileContent <- Fs.readFileSync fs docPath ;;
    m <- matter fileContent ;;
    Ok (mkBodyContent (snd m) (fst m))
  else Ok (mkBodyContent "" (Obj [])).

(** One iteration of the loop over [subEntries] of a category folder.  The
    fields of the pushed object are evaluated in the order they are
    written. *)
Definition subEntryDocuments (type entryName entryPath : string)
    (subEntry : Dirent) : result (list DocumentMeta) :=
  let subPath := Path.join entryPath (name subEntry) in
  if isDirectory subEntry then
    meta <- getMetaFromFile (Path.join subPath "meta.json") ;;
    bc <- getBodyContent subPath ;;
    let frontmatter := frontmatter bc in
    title <- or (or (get frontmatter "title") (get meta "title"))
                (Ok (Str (Js.hyphens_to_spaces (name subEntry)))) ;;
    date <- or (get frontmatter "date") (get meta "date") ;;
    tags <- or (or (get frontmatter "tags") (get meta "tags"))
               (Ok (Arr [])) ;;
    summary <- or (get frontmatter "summary") (get meta "summary") ;;
    Ok [ {| id := type ++ "/" ++ entryName ++ "/" ++ name subEntry;
            title := title;
            type := Js.drop_last type;
            category := Some entryName;
            date := date;
            tags := tags;
            summary := summary |} ]
  else if Js.endsWith (name subEntry) ".md" then
    bc <- getBodyContent subPath ;;
    let frontmatter := frontmatter bc in
    let name := Js.remove_first ".md" (name subEntry) in
    title <- or (get frontmatter "title")
                (Ok (Str (Js.hyphens_to_spaces name))) ;;
    date <- get frontmatter "date" ;;
    tags <- or (get frontmatter "tags") (Ok (Arr [])) ;;
    summary <- get frontmatter "summary" ;;
    Ok [ {| id := type ++ "/" ++ entryName ++ "/" ++ name;
            title := title;
            type := Js.drop_last type;
            category := Some entryName;
            date := date;
            tags := tags;
            summary := summary |} ]
  else Ok [].

(** One iteration of the loop over the [entries] of a type folder. *)
Definition entryDocuments (type typePath : string) (entry : Dirent)
  : result (list DocumentMeta) :=
  let entryPath := Path.join typePath (name entry) in
  if isDirectory entry then
    subEntries <- Fs.readdirSync fs entryPath ;;
    if hasBody subEntries then
      meta <- getMetaFromFile (Path.join entryPath "meta.json") ;;
      bc <- getBodyContent entryPath ;;
      let frontmatter := frontmatter bc in
      title <- or (or (get frontmatter "title") (get meta "title"))
                  (Ok (Str (Js.hyphens_to_spaces (name entry)))) ;;
      date <- or (get frontmatter "date") (get meta "date") ;;
      tags <- or (or (get frontmatter "tags") (get meta "tags"))
                 (Ok (Arr [])) ;;
      summary <- or (get frontmatter "summary") (get meta "summary") ;;
      Ok [ {| id := type ++ "/" ++ name entry;
              title := title;
              type := Js.drop_last type;
              category :=
                if type =? "projects" then Some (name entry) else None;
              date := date;
              tags := tags;
              summary := summary |} ]
    else
      for_each (subEntryDocuments type (name entry) entryPath) subEntries
  else if Js.endsWith (name entry) ".md" then
    bc <- getBodyContent entryPath ;;
    let frontmatter := frontmatter bc in
    let name := Js.remove_first ".md" (name entry) in
    title <- or (get frontmatter "title") (Ok (Str name)) ;;
    date <- or (get frontmatter "date") (Ok (Str name)) ;;
    tags <- or (get frontmatter "tags") (Ok (Arr [])) ;;
    summary <- get frontmatter "summary" ;;
    Ok [ {| id := type ++ "/" ++ name;
            title := title;
            type := Js.drop_last type;
            category := None;
            date := date;
            tags := tags;
            summary := summary |} ]
  else Ok [].

(** One iteration of the loop over [types]. *)
Definition typeDocuments (type : string) : result (list DocumentMeta) :=
  let typePath := Path.join BRAIN_PATH type in
  if negb (Fs.existsSync fs typePath) then Ok []
  else
    entries <- Fs.readdirSync fs typePath ;;
    for_each (entryDocuments type typePath) entries.

(** The text a value is converted to when it is passed as an argument. *)
Definition text (v : value) : string :=
  match v with
  | Str s => s
  | _ => ToString v
  end.

(** [a.localeCompare(b)]: only a text has the method; the argument is
    converted to text. *)
Definition localeCompareOf (a b : value) : result Z :=
  match a with
  | Str s => Ok (localeCompare s (text b))
  | _ => Throw TypeError
  end.

(** The comparator handed to [documents.sort]. *)
Definition compareDocuments (a b : DocumentMeta) : result Z :=
  if truthy (date a) && truthy (date b) then
    localeCompareOf (date b) (date a)
  else if truthy (date a) then Ok (-1)%Z
  else if truthy (date b) then Ok 1%Z
  else localeCompareOf (title a) (title b).

(** The documents pushed by the loops, before the sort. *)
Definition collectDocuments : result (list DocumentMeta) :=
  for_each typeDocuments types.

Definition getAllDocuments : result (list DocumentMeta) :=
  documents <- collectDocuments ;;
  sort compareDocuments documents.

Definition getDocument (id : string) : result (option Document) :=
  let docPath := Path.join BRAIN_PATH id in
  if negb (Fs.existsSync fs docPath)
     && negb (Fs.existsSync fs (docPath ++ ".md"))
  then Ok None
  else
    let actualPath := actualPath BRAIN_PATH fs id in
    isDirectory <- Fs.statSync_isDirectory fs actualPath ;;
    if isDirectory : bool then
      meta <- getMetaFromFile (Path.join actualPath "meta.json") ;;
      bc <- getBodyContent actualPath ;;
      let frontmatter := frontmatter bc in
      sections <- readSections fs actualPath ;;
      let parts := Js.split Js.slash id in
      let type := Js.drop_last (hd "" parts) in
      title <- or (or (get frontmatter "title") (get meta "title"))
                  (Ok (Str (Js.hyphens_to_spaces (last parts "")))) ;;
      date <- or (get frontmatter "date") (get meta "date") ;;
      tags <- or (or (get frontmatter "tags") (get meta "tags"))
                 (Ok (Arr [])) ;;
      summary <- or (get frontmatter "summary") (get meta "summary") ;;
      Ok (Some
        {| meta :=
             {| id := id;
                title := title;
                type := type;
                category :=
                  if (2 <? List.length parts)%nat
                  then Some (nth 1 parts "") else None;
                date := date;
                tags := tags;
                summary := summary |};
           content := bc_content bc;
           sections := Some sections |})
    else
      bc <- getBodyContent actualPath ;;
      let frontmatter := frontmatter bc in
      let parts := Js.split Js.slash id in
      let name := last parts "" in
      let type := Js.drop_last (hd "" parts) in
      title <- or (get frontmatter "title")
                  (Ok (Str (Js.hyphens_to_spaces name))) ;;
      date <- or (get frontmatter "date") (Ok (Str name)) ;;
      tags <- or (get frontmatter "tags") (Ok (Arr [])) ;;
      summary <- get frontmatter "summary" ;;
      Ok (Some
        {| meta :=
             {| id := id;
                title := title;
                type := type;
                category :=
                  if (2 <? List.length parts)%nat
                  then Some (nth 1 parts "") else None;
                date := date;
                tags := tags;
                summary := summary |};
           content := bc_content bc;
           sections := None |}).

End Documents.

End Any.

(* ================================================================= *)
(** ** Notions used to state the properties on run-time values *)

Module Rules.

Import Any.

(** [v.k] as a value: [undefined] where the read raises. *)
Definition field (v : value) (k : string) : value :=
  match get v k with
  | Ok x => x
  | Throw _ => Undefined
  end.

(** The first truthy candidate, the default without one. *)
Fixpoint pick (candidates : list value) (default : value) : value :=
  match candidates with
  | [] => default
  | c :: rest => if truthy c then c else pick rest default
  end.

Definition nullish (v : value) : bool :=
  match v with
  | Undefined | Null => true
  | _ => false
  end.

Definition is_array (v : value) : Prop := exists items, v = Arr items.

Definition is_text (v : value) : Prop := exists s, v = Str s.

(** The object literal of a document backed by a folder can be evaluated:
    the frontmatter is not [null], and neither is the sidecar unless the
    frontmatter supplies the four fields, in which case the sidecar is not
    read. *)
Definition folder_readable (fm m : value) : bool :=
  negb (nullish fm)
  && (negb (nullish m)
      || (truthy (field fm "title") && truthy (field fm "date")
          && truthy (field fm "tags") && truthy (field fm "summary"))).

(** The text of a value that is a text. *)
Definition text_of (v : value) : string :=
  match v with
  | Str s => s
  | _ => ""
  end.

(** A record has a date when its date is truthy. *)
Definition has_date (d : DocumentMeta) : Prop := truthy (date d) = true.

(** The key the comparator reads is a text: the date of a record that has
    one, the title of a record without. *)
Definition sortable (d : DocumentMeta) : Prop :=
  if truthy (date d) then is_text (date d) else is_text (title d).

(** The order of the listing on records with text keys. *)
Definition order (localeCompare : string -> string -> Z)
    (a b : DocumentMeta) : Z :=
  if truthy (date a) && truthy (date b)
  then localeCompare (text_of (date b)) (text_of (date a))
  else if truthy (date a) then (-1)%Z
  else if truthy (date b) then 1%Z
  else localeCompare (text_of (title a)) (text_of (title b)).

(** The identifier and the category of a record. *)
Definition place (d : DocumentMeta) : string * option string :=
  (id d, category d).

(** The classification of the entries of a type folder, read off the tree
    alone.  A directory that lists [body.md] or [index.md] is a document
    folder; any other directory is a category folder, whose directories
    and markdown files are documents; a markdown file is a document. *)
Section Tree.
Variable BRAIN_PATH : string.
Variable fs : node.

Definition entry_places (type typePath : string) (entry : Dirent)
  : list (string * option string) :=
  if isDirectory entry then
    match Fs.readdirSync fs (Path.join typePath (name entry)) with
    | Ok subEntries =>
        if hasBody subEntries then
          [(type ++ "/" ++ name entry,
            if type =? "projects" then Some (name entry) else None)]
        else
          map (fun s => (type ++ "/" ++ name entry ++ "/" ++ Spec.segment s,
                         Some (name entry)))
              (filter Spec.listed subEntries)
    | Throw _ => []
    end
  else if Js.endsWith (name entry) ".md" then
    [(type ++ "/" ++ Spec.segment entry, None)]
  else [].

Definition type_places (type : string) : list (string * option string) :=
  let typePath := Path.join BRAIN_PATH type in
  if Fs.existsSync fs typePath then
    match Fs.readdirSync fs typePath with
    | Ok entries => concat (map (entry_places type typePath) entries)
    | Throw _ => []
    end
  else [].

(** The identifiers and categories of the documents of the tree, in the
    order of the folders. *)
Definition placements : list (string * option string) :=
  concat (map type_places types).

Definition identifiers : list string := map fst placements.

(** An identifier built from the location of an entry: the type folder,
    then the segment of an entry of that folder, or the name of a folder
    of it and the segment of an entry of that one. *)
Definition located (i : string) : Prop :=
  exists type entries entry,
    In type types
    /\ Fs.readdirSync fs (Path.join BRAIN_PATH type) = Ok entries
    /\ In entry entries
    /\ (i = type ++ "/" ++ Spec.segment entry
        \/ exists subEntries subEntry,
             isDirectory entry = true
             /\ Fs.readdirSync fs
                  (Path.join (Path.join BRAIN_PATH type) (name entry))
                = Ok subEntries
             /\ In subEntry subEntries
             /\ i = type ++ "/" ++ name entry ++ "/"
                      ++ Spec.segment subEntry).

(** The entry of a type folder is a document itself: a document folder
    or a markdown file. *)
Definition yields (typePath : string) (e : Dirent) : bool :=
  if isDirectory e then
    match Fs.readdirSync fs (Path.join typePath (name e)) with
    | Ok subEntries => hasBody subEntries
    | Throw _ => false
    end
  else Js.endsWith (name e) ".md".

(** No two documents of a type folder, and no two documents of a category
    folder, contribute the same segment. *)
Definition unambiguous : Prop :=
  forall type entries,
    In type types ->
    Fs.readdirSync fs (Path.join BRAIN_PATH type) = Ok entries ->
    NoDup (map Spec.segment
             (filter (yields (Path.join BRAIN_PATH type)) entries))
    /\ forall entry subEntries,
        In entry entries -> isDirectory entry = true ->
        Fs.readdirSync fs
          (Path.join (Path.join BRAIN_PATH type) (name entry))
          = Ok subEntries ->
        hasBody subEntries = false ->
        NoDup (map Spec.segment (filter Spec.listed subEntries)).

(** The listing of a type folder holds each name once, and no name holds
    a separator (as in every directory). *)
Definition proper : Prop :=
  forall type entries,
    In type types ->
    Fs.readdirSync fs (Path.join BRAIN_PATH type) = Ok entries ->
    NoDup (map name entries)
    /\ Forall (fun e => Spec.no_slash (name e) = true) entries.

End Tree.

End Rules.

(* ================================================================= *)
(** ** A concrete platform on run-time values *)

Module World.

(** The run-time value of metadata of the declared types: an absent field
    is no property. *)
Definition of_text (o : option string) : Any.value :=
  match o with
  | Some s => Any.Str s
  | None => Any.Undefined
  end.

Definition of_tags (o : option (list string)) : Any.value :=
  match o with
  | Some l => Any.Arr (map Any.Str l)
  | None => Any.Undefined
  end.

Definition property (k : string) (v : Any.value)
  : list (string * Any.value) :=
  match v with
  | Any.Undefined => []
  | _ => [(k, v)]
  end.

Definition of_partial (p : Partial.t) : Any.value :=
  Any.Obj (property "title" (of_text (Partial.title p))
           ++ property "date" (of_text (Partial.date p))
           ++ property "tags" (of_tags (Partial.tags p))
           ++ property "summary" (of_text (Partial.summary p)))%list.

Definition of_meta (d : DocumentMeta) : Any.DocumentMeta :=
  {| Any.id := id d;
     Any.title := Any.Str (title d);
     Any.type := type d;
     Any.category := category d;
     Any.date := of_text (date d);
     Any.tags := of_tags (tags d);
     Any.summary := of_text (summary d) |}.

Definition of_document (D : Document) : Any.Document :=
  {| Any.meta := of_meta (meta D);
     Any.content := content D;
     Any.sections := sections D |}.

Definition of_body (bc : BodyContent) : Any.BodyContent :=
  {| Any.bc_content := bc_content bc;
     Any.frontmatter := of_partial (frontmatter bc) |}.

(** The image of a result. *)
Definition image {A B : Type} (f : A -> B) (r : result A) : result B :=
  x <- r ;; Ok (f x).

(** A parser of the declared types as a parser of values. *)
Definition typed_json (parse : string -> result Partial.t) (s : string)
  : result Any.value :=
  m <- parse s ;; Ok (of_partial m).

Definition typed_matter (parse : string -> result (Partial.t * string))
    (s : string) : result (Any.value * string) :=
  m <- parse s ;; Ok (of_partial (fst m), snd m).

(** The sidecar [{"tags": "x"}]. *)
Definition json_tags_text : string :=
  "{" ++ Demo.dq ++ "tags" ++ Demo.dq ++ ": "
      ++ Demo.dq ++ "x" ++ Demo.dq ++ "}".

(** [JSON.parse] on the texts of this module and of [Demo]. *)
Definition JSON_parse (s : string) : result Any.value :=
  if s =? "null" then Ok Any.Null
  else if s =? json_tags_text then Ok (Any.Obj [("tags", Any.Str "x")])
  else typed_json Demo.JSON_parse s.

(** Frontmatter with an unquoted date, which YAML reads as a timestamp. *)
Definition text_date (day : string) : string :=
  "---" ++ Demo.nl ++ "date: " ++ day ++ Demo.nl ++ "---" ++ Demo.nl
        ++ "Hello".

(** gray-matter on the texts of this module and of [Demo]. *)
Definition matter (s : string) : result (Any.value * string) :=
  if s =? text_date "2024-01-01" then
    Ok (Any.Obj [("date", Any.Date "2024-01-01T00:00:00.000Z")],
        "Hello")
  else if s =? text_date "2024-06-01" then
    Ok (Any.Obj [("date", Any.Date "2024-06-01T00:00:00.000Z")],
        "Hello")
  else typed_matter Demo.matter s.

(** The conversion to text of [undefined], [null] and the booleans; no
    other value is converted below. *)
Definition ToString (v : Any.value) : string :=
  match v with
  | Any.Undefined => "undefined"
  | Any.Null => "null"
  | Any.Bool true => "true"
  | Any.Bool false => "false"
  | Any.Str s => s
  | _ => ""
  end.

(** [projects/foo/] with the sidecar [{"tags": "x"}]. *)
Definition fs_tags_text : node :=
  Demo.brain [("projects",
               Dir [("foo", Dir [("body.md", File "Hello");
                                 ("meta.json", File json_tags_text)])])].

(** [projects/foo/] with the sidecar [null]. *)
Definition fs_null_sidecar : node :=
  Demo.brain [("projects",
               Dir [("foo", Dir [("body.md", File "Hello");
                                 ("meta.json", File "null")])])].

(** [projects/foo/body.md] with malformed frontmatter. *)
Definition fs_broken_folder : node :=
  Demo.brain [("projects",
               Dir [("foo", Dir [("body.md", File Cases.text_broken)])])].

(** Two journals with unquoted dates. *)
Definition fs_unquoted_dates : node :=
  Demo.brain [("journals",
               Dir [("a.md", File (text_date "2024-01-01"));
                    ("b.md", File (text_date "2024-06-01"))])].

(** The undated concepts [B] and [a]. *)
Definition fs_case : node :=
  Demo.brain [("concepts", Dir [("B", Dir [("body.md", File "Hello")]);
                                ("a", Dir [("body.md", File "Hello")])])].

(** The journals [B.md] and [a.md], dated by their names. *)
Definition fs_case_dates : node :=
  Demo.brain [("journals", Dir [("B.md", File "Hello");
                                ("a.md", File "Hello")])].

(** The category folder [projects/foo/] next to [projects/foo.md]. *)
Definition fs_category_and_file : node :=
  Demo.brain
    [("projects", Dir [("foo", Dir [("bar", Dir [("body.md", File "Hello")])]);
                       ("foo.md", File "Flat")])].

End World.

(* ================================================================= *)
(** ** Facts about the string operations *)

Section StringFacts.

Lemma length_append (a b : string) :
  String.length (a ++ b) = String.length a + String.length b.
Proof. induction a as [|c a IH]; simpl; congruence. Qed.

Lemma substring_suffix (a b : string) :
  substring (String.length a) (String.length b) (a ++ b) = b.
Proof.
  induction a as [|c a IH]; simpl; [|exact IH].
  induction b as [|c b IH]; simpl; congruence.
Qed.

Lemma endsWith_append (a suffix : string) :
  Js.endsWith (a ++ suffix) suffix = true.
Proof.
  unfold Js.endsWith. rewrite length_append.
  replace (String.length a + String.length suffix - String.length suffix)
    with (String.length a) by lia.
  rewrite substring_suffix, String.eqb_refl.
  rewrite andb_true_r. apply Nat.leb_le. lia.
Qed.

Lemma strip_prefix_sound (pat s rest : string) :
  Js.strip_prefix pat s = Some rest -> s = pat ++ rest.
Proof.
  revert s. induction pat as [|p pat IH]; intros s; simpl.
  - congruence.
  - destruct s as [|c s]; [discriminate|].
    destruct (Ascii.eqb_spec p c) as [->|]; [|discriminate].
    intros H. now rewrite (IH _ H).
Qed.

Lemma no_slash_append (a b : string) :
  Spec.no_slash (a ++ b) = Spec.no_slash a && Spec.no_slash b.
Proof.
  induction a as [|c a IH]; simpl; [reflexivity|].
  now rewrite IH, andb_assoc.
Qed.

Lemma no_slash_remove_first (pat s : string) :
  Spec.no_slash s = true -> Spec.no_slash (Js.remove_first pat s) = true.
Proof.
  induction s as [|c s IH]; simpl; intros H.
  - destruct (Js.strip_prefix pat "") as [r|] eqn:E; [|reflexivity].
    apply strip_prefix_sound in E.
    assert (Hn : Spec.no_slash (pat ++ r) = true) by now rewrite <- E.
    rewrite no_slash_append in Hn. now apply andb_true_iff in Hn.
  - destruct (Js.strip_prefix pat (String c s)) as [r|] eqn:E.
    + apply strip_prefix_sound in E.
      assert (Hn : Spec.no_slash (pat ++ r) = true) by now rewrite <- E.
      rewrite no_slash_append in Hn. now apply andb_true_iff in Hn.
    + apply andb_true_iff in H as [Hc Hs]. simpl.
      now rewrite Hc, (IH Hs).
Qed.

Lemma split_no_slash (s : string) :
  Spec.no_slash s = true -> Js.split Js.slash s = [s].
Proof.
  induction s as [|c s IH]; simpl; [reflexivity|].
  intros H. apply andb_true_iff in H as [Hc Hs].
  apply negb_true_iff in Hc. rewrite Hc, (IH Hs). reflexivity.
Qed.

Lemma split_cons (a rest : string) :
  Spec.no_slash a = true ->
  Js.split Js.slash (a ++ "/" ++ rest) = a :: Js.split Js.slash rest.
Proof.
  induction a as [|c a IH]; simpl in *; [reflexivity|].
  intros H. apply andb_true_iff in H as [Hc Hs].
  apply negb_true_iff in Hc. rewrite Hc, (IH Hs). reflexivity.
Qed.

Lemma split_2 (a b : string) :
  Spec.no_slash a = true -> Spec.no_slash b = true ->
  Js.split Js.slash (a ++ "/" ++ b) = [a; b].
Proof. intros Ha Hb. now rewrite split_cons, split_no_slash. Qed.

Lemma split_3 (a b c : string) :
  Spec.no_slash a = true -> Spec.no_slash b = true ->
  Spec.no_slash c = true ->
  Js.split Js.slash (a ++ "/" ++ b ++ "/" ++ c) = [a; b; c].
Proof. intros Ha Hb Hc. now rewrite split_cons, split_2. Qed.

(** Where [.md] occurs only as the extension, [replace('.md', '')] strips
    the extension. *)
Lemma remove_first_extension (stem : string) :
  Spec.occurs ".md" stem = false ->
  Js.remove_first ".md" (stem ++ ".md") = stem.
Proof.
  induction stem as [|c stem IH]; [reflexivity|].
  intros H. cbn [Spec.occurs] in H. apply orb_false_iff in H as [Hp Ho].
  cbn [append Js.remove_first].
  assert (E : Js.strip_prefix ".md" (String c (stem ++ ".md")) = None).
  { unfold Js.startsWith in Hp.
    destruct stem as [|c1 [|c2 stem]];
      cbn [Js.strip_prefix append] in Hp |- *.
    - destruct (Ascii.eqb "." c); reflexivity.
    - destruct (Ascii.eqb "." c); [|reflexivity].
      destruct (Ascii.eqb "m" c1); reflexivity.
    - destruct (Ascii.eqb "." c); [|reflexivity].
      destruct (Ascii.eqb "m" c1); [|reflexivity].
      destruct (Ascii.eqb "d" c2); [discriminate|reflexivity]. }
  rewrite E. now rewrite (IH Ho).
Qed.

End StringFacts.

(* ================================================================= *)
(** ** Facts about the loop and the sort *)

Section LoopFacts.

Context {A B : Type}.

Lemma bind_Ok_inv {X Y : Type} (r : result X) (k : X -> result Y) (y : Y) :
  bind r k = Ok y -> exists x, r = Ok x /\ k x = Ok y.
Proof. destruct r as [x|e]; simpl; [eauto|discriminate]. Qed.

Lemma for_each_cons_inv (f : A -> result (list B)) x l out :
  for_each f (x :: l) = Ok out ->
  exists ds more,
    f x = Ok ds /\ for_each f l = Ok more /\ out = (ds ++ more)%list.
Proof.
  cbn [for_each]. intros H.
  apply bind_Ok_inv in H as (ds & Hx & H).
  apply bind_Ok_inv in H as (more & Hl & H).
  injection H as <-. eauto.
Qed.

Lemma for_each_ext (f g : A -> result (list B)) l :
  (forall x, f x = g x) -> for_each f l = for_each g l.
Proof.
  intros E. induction l as [|x l IH]; cbn [for_each]; [reflexivity|].
  now rewrite E, IH.
Qed.

Lemma for_each_In (f : A -> result (list B)) l out d :
  for_each f l = Ok out -> In d out ->
  exists x ds, In x l /\ f x = Ok ds /\ In d ds.
Proof.
  revert out. induction l as [|x l IH]; intros out H Hd.
  - injection H as <-. destruct Hd.
  - apply for_each_cons_inv in H as (ds & more & Hx & Hl & ->).
    apply in_app_or in Hd as [Hd|Hd].
    + exists x, ds. auto using in_eq.
    + destruct (IH _ Hl Hd) as (y & ds' & Hy & Hfy & Hin).
      exists y, ds'. auto using in_cons.
Qed.

Lemma for_each_Forall (P : B -> Prop) (f : A -> result (list B)) l out :
  for_each f l = Ok out ->
  (forall x ds, In x l -> f x = Ok ds -> Forall P ds) ->
  Forall P out.
Proof.
  intros H HP. apply Forall_forall. intros d Hd.
  destruct (for_each_In _ _ _ _ H Hd) as (x & ds & Hx & Hfx & Hin).
  exact (proj1 (Forall_forall P ds) (HP x ds Hx Hfx) d Hin).
Qed.

End LoopFacts.

Section SortFacts.

Context {A : Type} (cmp : A -> A -> Z).

Let le (a b : A) : Prop := (cmp a b <= 0)%Z.

Lemma insert_Permutation x l : Permutation (x :: l) (insert cmp x l).
Proof.
  induction l as [|y l IH]; cbn [insert]; [reflexivity|].
  destruct (cmp x y <=? 0)%Z; [reflexivity|].
  rewrite perm_swap. now constructor.
Qed.

Lemma sort_Permutation l : Permutation l (sort cmp l).
Proof.
  induction l as [|x l IH]; cbn; [constructor|].
  rewrite <- insert_Permutation. now constructor.
Qed.

Hypothesis le_total : forall a b, le a b \/ le b a.
Hypothesis le_trans : forall a b c, le a b -> le b c -> le a c.

Lemma insert_sorted x l :
  StronglySorted le l -> StronglySorted le (insert cmp x l).
Proof.
  induction 1 as [|y l Hs IH Hy]; cbn [insert].
  - repeat constructor.
  - destruct (cmp x y <=? 0)%Z eqn:E.
    + apply Z.leb_le in E. constructor; [now constructor|].
      constructor; [exact E|].
      eapply Forall_impl; [|exact Hy]. intros z Hz. now apply (le_trans x y z).
    + apply Z.leb_gt in E. constructor; [exact IH|].
      eapply Permutation_Forall; [apply insert_Permutation|].
      constructor; [|exact Hy].
      destruct (le_total x y) as [H|H]; [unfold le in H; lia|exact H].
Qed.

Lemma sort_sorted l : StronglySorted le (sort cmp l).
Proof.
  induction l as [|x l IH]; cbn; [constructor|]. now apply insert_sorted.
Qed.

Lemma StronglySorted_nth_error (R : A -> A -> Prop) l i j a b :
  StronglySorted R l -> i < j ->
  nth_error l i = Some a -> nth_error l j = Some b -> R a b.
Proof.
  intros Hs. revert i j. induction Hs as [|x l Hs IH Hx]; intros i j Hij Hi Hj.
  - destruct i; discriminate.
  - destruct j as [|j]; [lia|]. cbn in Hj.
    destruct i as [|i]; cbn in Hi.
    + injection Hi as ->.
      exact (proj1 (Forall_forall _ _) Hx b (nth_error_In _ _ Hj)).
    + apply (IH i j); [lia|assumption..].
Qed.

End SortFacts.

(* ================================================================= *)
(** ** Properties of the indexer and of the loader *)

Section Properties.

Variable matter : string -> result (Partial.t * string).
Variable JSON_parse : string -> result Partial.t.
Variable localeCompare : string -> string -> Z.
Variable BRAIN_PATH : string.
Variable fs : node.

Local Abbreviation getMeta := (getMetaFromFile JSON_parse fs).
Local Abbreviation getBody := (getBodyContent matter fs).
Local Abbreviation subEntryDocs := (subEntryDocuments matter JSON_parse fs).
Local Abbreviation entryDocs := (entryDocuments matter JSON_parse fs).
Local Abbreviation typeDocs := (typeDocuments matter JSON_parse BRAIN_PATH fs).
Local Abbreviation collect := (collectDocuments matter JSON_parse BRAIN_PATH fs).
Local Abbreviation listing :=
  (getAllDocuments matter JSON_parse localeCompare BRAIN_PATH fs).
Local Abbreviation load := (getDocument matter JSON_parse BRAIN_PATH fs).
Local Abbreviation resolved := (actualPath BRAIN_PATH fs).

Ltac bind_inv H :=
  let x := fresh "x" in
  let Hx := fresh "Hx" in
  apply bind_Ok_inv in H as (x & Hx & H).

Lemma getMetaFromFile_total (metaPath : string) :
  exists m, getMeta metaPath = Ok m.
Proof.
  unfold getMetaFromFile.
  destruct (Fs.existsSync fs metaPath); [|eauto].
  destruct (Fs.readFileSync fs metaPath) as [s|e]; cbn; [|eauto].
  destruct (JSON_parse s); eauto.
Qed.

Lemma or_title_precedence (fm sc : option string) (fallback : string) :
  Js.or_else_str (Js.or_str fm sc) fallback
  = match Spec.precedence Spec.nonempty_string fm
            (Spec.precedence Spec.nonempty_string sc None) with
    | Some t => t
    | None => fallback
    end.
Proof.
  unfold Js.or_else_str, Js.or_str, Js.truthy, Spec.precedence,
    Spec.nonempty_string.
  destruct fm as [a|], sc as [b|]; cbn;
    repeat match goal with
           | |- context [(?s =? "")] => destruct (s =? "") eqn:?; cbn
           end; congruence.
Qed.

Lemma or_str_precedence (fm sc : option string) :
  Js.or_str fm sc = Spec.precedence Spec.nonempty_string fm sc.
Proof.
  unfold Js.or_str, Js.truthy, Spec.precedence, Spec.nonempty_string.
  destruct fm as [a|]; [|reflexivity]. now destruct (a =? "").
Qed.

Lemma or_else_precedence (fm : option string) (fallback : string) :
  Js.or_else_str fm fallback
  = match Spec.precedence Spec.nonempty_string fm None with
    | Some t => t
    | None => fallback
    end.
Proof.
  unfold Js.or_else_str, Spec.precedence, Spec.nonempty_string.
  destruct fm as [a|]; [|reflexivity]. now destruct (a =? "").
Qed.

(** The two shapes [getDocument] distinguishes. *)
Lemma getDocument_directory (id : string) :
  Fs.existsSync fs (Path.join BRAIN_PATH id)
    || Fs.existsSync fs (Path.join BRAIN_PATH id ++ ".md") = true ->
  Fs.statSync_isDirectory fs (resolved id) = Ok true ->
  load id =
    (m <- getMeta (Path.join (resolved id) "meta.json") ;;
     bc <- getBody (resolved id) ;;
     sections <- readSections fs (resolved id) ;;
     let parts := Js.split Js.slash id in
     Ok (Some
       {| meta :=
            {| id := id;
               title :=
                 Js.or_else_str
                   (Js.or_str (Partial.title (frontmatter bc))
                              (Partial.title m))
                   (Js.hyphens_to_spaces (last parts ""));
               type := Js.drop_last (hd "" parts);
               category :=
                 if (2 <? List.length parts)%nat
                 then Some (nth 1 parts "") else None;
               date :=
                 Js.or_str (Partial.date (frontmatter bc)) (Partial.date m);
               tags :=
                 Some (Js.or_else_tags
                         (Js.or_tags (Partial.tags (frontmatter bc))
                                     (Partial.tags m)) []);
               summary :=
                 Js.or_str (Partial.summary (frontmatter bc))
                           (Partial.summary m)
            |};
          content := bc_content bc;
          sections := Some sections |})).
Proof.
  intros Hex Hdir. unfold getDocument.
  rewrite <- negb_orb, Hex. cbn [negb]. now rewrite Hdir.
Qed.

Lemma getDocument_file (id : string) :
  Fs.existsSync fs (Path.join BRAIN_PATH id)
    || Fs.existsSync fs (Path.join BRAIN_PATH id ++ ".md") = true ->
  Fs.statSync_isDirectory fs (resolved id) = Ok false ->
  load id =
    (bc <- getBody (resolved id) ;;
     let parts := Js.split Js.slash id in
     let name := last parts "" in
     Ok (Some
       {| meta :=
            {| id := id;
               title :=
                 Js.or_else_str (Partial.title (frontmatter bc))
                                (Js.hyphens_to_spaces name);
               type := Js.drop_last (hd "" parts);
               category :=
                 if (2 <? List.length parts)%nat
                 then Some (nth 1 parts "") else None;
               date :=
                 Some (Js.or_else_str (Partial.date (frontmatter bc)) name);
               tags :=
                 Some (Js.or_else_tags (Partial.tags (frontmatter bc)) []);
               summary := Partial.summary (frontmatter bc)
            |};
          content := bc_content bc;
          sections := None |})).
Proof.
  intros Hex Hdir. unfold getDocument.
  rewrite <- negb_orb, Hex. cbn [negb]. now rewrite Hdir.
Qed.

Lemma existsSync_statSync (p : string) :
  Fs.existsSync fs p = true ->
  exists b, Fs.statSync_isDirectory fs p = Ok b.
Proof.
  unfold Fs.existsSync, Fs.statSync_isDirectory.
  destruct (Fs.lookup fs p) as [[d|es]|]; eauto. discriminate.
Qed.

Lemma resolved_exists (id : string) :
  Fs.existsSync fs (Path.join BRAIN_PATH id)
    || Fs.existsSync fs (Path.join BRAIN_PATH id ++ ".md") = true ->
  Fs.existsSync fs (resolved id) = true.
Proof.
  unfold actualPath.
  destruct (Fs.existsSync fs (Path.join BRAIN_PATH id)) eqn:E; cbn; auto.
Qed.

Lemma getDocument_found (id : string) (D : Document) :
  load id = Ok (Some D) ->
  Fs.existsSync fs (Path.join BRAIN_PATH id)
    || Fs.existsSync fs (Path.join BRAIN_PATH id ++ ".md") = true.
Proof.
  unfold getDocument. rewrite <- negb_orb.
  destruct (_ || _); [reflexivity|discriminate].
Qed.

(* ----------------------------------------------------------------- *)
(** *** The shapes the indexer recognises *)

Lemma entryDocuments_document_folder type typePath entry subEntries m bc :
  isDirectory entry = true ->
  Fs.readdirSync fs (Path.join typePath (name entry)) = Ok subEntries ->
  hasBody subEntries = true ->
  getMeta (Path.join (Path.join typePath (name entry)) "meta.json") = Ok m ->
  getBody (Path.join typePath (name entry)) = Ok bc ->
  entryDocs type typePath entry =
    Ok [ {| id := type ++ "/" ++ name entry;
            title :=
              Js.or_else_str
                (Js.or_str (Partial.title (frontmatter bc)) (Partial.title m))
                (Js.hyphens_to_spaces (name entry));
            type := Js.drop_last type;
            category :=
              if type =? "projects" then Some (name entry) else None;
            date := Js.or_str (Partial.date (frontmatter bc)) (Partial.date m);
            tags :=
              Some (Js.or_else_tags
                      (Js.or_tags (Partial.tags (frontmatter bc))
                                  (Partial.tags m)) []);
            summary :=
              Js.or_str (Partial.summary (frontmatter bc)) (Partial.summary m)
         |} ].
Proof.
  intros Hdir Hls Hbody Hm Hbc. unfold entryDocuments.
  rewrite Hdir, Hls. cbn [bind]. rewrite Hbody, Hm. cbn [bind].
  now rewrite Hbc.
Qed.

Lemma entryDocuments_category_folder type typePath entry subEntries :
  isDirectory entry = true ->
  Fs.readdirSync fs (Path.join typePath (name entry)) = Ok subEntries ->
  hasBody subEntries = false ->
  entryDocs type typePath entry =
    for_each
      (subEntryDocs type (name entry) (Path.join typePath (name entry)))
      subEntries.
Proof.
  intros Hdir Hls Hbody. unfold entryDocuments.
  rewrite Hdir, Hls. cbn [bind]. now rewrite Hbody.
Qed.

Lemma entryDocuments_flat_file type typePath entry bc :
  isDirectory entry = false ->
  Js.endsWith (name entry) ".md" = true ->
  getBody (Path.join typePath (name entry)) = Ok bc ->
  entryDocs type typePath entry =
    Ok [ {| id := type ++ "/" ++ Js.remove_first ".md" (name entry);
            title :=
              Js.or_else_str (Partial.title (frontmatter bc))
                             (Js.remove_first ".md" (name entry));
            type := Js.drop_last type;
            category := None;
            date :=
              Some (Js.or_else_str (Partial.date (frontmatter bc))
                                   (Js.remove_first ".md" (name entry)));
            tags := Some (Js.or_else_tags (Partial.tags (frontmatter bc)) []);
            summary := Partial.summary (frontmatter bc)
         |} ].
Proof.
  intros Hdir Hmd Hbc. unfold entryDocuments.
  rewrite Hdir, Hmd, Hbc. reflexivity.
Qed.

Lemma subEntryDocuments_folder type entryName entryPath subEntry m bc :
  isDirectory subEntry = true ->
  getMeta (Path.join (Path.join entryPath (name subEntry)) "meta.json")
    = Ok m ->
  getBody (Path.join entryPath (name subEntry)) = Ok bc ->
  subEntryDocs type entryName entryPath subEntry =
    Ok [ {| id := type ++ "/" ++ entryName ++ "/" ++ name subEntry;
            title :=
              Js.or_else_str
                (Js.or_str (Partial.title (frontmatter bc)) (Partial.title m))
                (Js.hyphens_to_spaces (name subEntry));
            type := Js.drop_last type;
            category := Some entryName;
            date := Js.or_str (Partial.date (frontmatter bc)) (Partial.date m);
            tags :=
              Some (Js.or_else_tags
                      (Js.or_tags (Partial.tags (frontmatter bc))
                                  (Partial.tags m)) []);
            summary :=
              Js.or_str (Partial.summary (frontmatter bc)) (Partial.summary m)
         |} ].
Proof.
  intros Hdir Hm Hbc. unfold subEntryDocuments.
  rewrite Hdir, Hm. cbn [bind]. now rewrite Hbc.
Qed.

Lemma subEntryDocuments_file type entryName entryPath subEntry bc :
  isDirectory subEntry = false ->
  Js.endsWith (name subEntry) ".md" = true ->
  getBody (Path.join entryPath (name subEntry)) = Ok bc ->
  subEntryDocs type entryName entryPath subEntry =
    Ok [ {| id :=
              type ++ "/" ++ entryName ++ "/"
                ++ Js.remove_first ".md" (name subEntry);
            title :=
              Js.or_else_str (Partial.title (frontmatter bc))
                (Js.hyphens_to_spaces
                   (Js.remove_first ".md" (name subEntry)));
            type := Js.drop_last type;
            category := Some entryName;
            date := Partial.date (frontmatter bc);
            tags := Some (Js.or_else_tags (Partial.tags (frontmatter bc)) []);
            summary := Partial.summary (frontmatter bc)
         |} ].
Proof.
  intros Hdir Hmd Hbc. unfold subEntryDocuments.
  rewrite Hdir, Hmd, Hbc. reflexivity.
Qed.

Lemma resolved_tags_eq (fm sc : option (list string)) :
  Js.or_else_tags (Js.or_tags fm sc) [] = Spec.resolved_tags fm sc.
Proof. now destruct fm, sc. Qed.

Lemma folder_fields_intro fallback fm m i ty c :
  Spec.folder_fields fallback fm m
    {| id := i;
       title :=
         Js.or_else_str (Js.or_str (Partial.title fm) (Partial.title m))
                        fallback;
       type := ty;
       category := c;
       date := Js.or_str (Partial.date fm) (Partial.date m);
       tags :=
         Some (Js.or_else_tags (Js.or_tags (Partial.tags fm) (Partial.tags m))
                               []);
       summary := Js.or_str (Partial.summary fm) (Partial.summary m) |}.
Proof.
  unfold Spec.folder_fields, Spec.resolved_title. cbn.
  now rewrite or_title_precedence, !or_str_precedence, resolved_tags_eq.
Qed.


Lemma types_no_slash (type : string) :
  In type types -> Spec.no_slash type = true.
Proof.
  unfold types. cbn [In].
  intros [<-|[<-|[<-|[]]]]; reflexivity.
Qed.

Lemma last_segment_2 (a b : string) :
  Spec.no_slash a = true -> Spec.no_slash b = true ->
  Spec.last_segment (a ++ "/" ++ b) = b.
Proof.
  intros Ha Hb. unfold Spec.last_segment. now rewrite split_2.
Qed.

Lemma last_segment_3 (a b c : string) :
  Spec.no_slash a = true -> Spec.no_slash b = true ->
  Spec.no_slash c = true ->
  Spec.last_segment (a ++ "/" ++ b ++ "/" ++ c) = c.
Proof.
  intros Ha Hb Hc. unfold Spec.last_segment. now rewrite split_3.
Qed.

(** C4 (as amended).  For every document the indexer emits for a document
    folder, a subdocument folder or a subdocument file, for every flat
    file whose frontmatter supplies a non-empty title or whose filename
    holds no hyphen, and for every Document the loader returns, the title
    is the frontmatter title when present and non-empty, otherwise (for a
    folder) the sidecar title when present and non-empty, otherwise the
    last path segment of the identifier with hyphens replaced by spaces.
    A file has no sidecar. *)
Theorem title_fallback_chain :
  (forall type typePath entry subEntries m bc,
      In type types -> Spec.no_slash (name entry) = true ->
      isDirectory entry = true ->
      Fs.readdirSync fs (Path.join typePath (name entry)) = Ok subEntries ->
      hasBody subEntries = true ->
      getMeta (Path.join (Path.join typePath (name entry)) "meta.json")
        = Ok m ->
      getBody (Path.join typePath (name entry)) = Ok bc ->
      exists d,
        entryDocs type typePath entry = Ok [d]
        /\ title d
           = Spec.resolved_title (Partial.title (frontmatter bc))
               (Partial.title m)
               (Js.hyphens_to_spaces (Spec.last_segment (id d))))
  /\ (forall type entryName entryPath subEntry m bc,
      In type types -> Spec.no_slash entryName = true ->
      Spec.no_slash (name subEntry) = true ->
      isDirectory subEntry = true ->
      getMeta (Path.join (Path.join entryPath (name subEntry)) "meta.json")
        = Ok m ->
      getBody (Path.join entryPath (name subEntry)) = Ok bc ->
      exists d,
        subEntryDocs type entryName entryPath subEntry = Ok [d]
        /\ title d
           = Spec.resolved_title (Partial.title (frontmatter bc))
               (Partial.title m)
               (Js.hyphens_to_spaces (Spec.last_segment (id d))))
  /\ (forall type entryName entryPath subEntry bc,
      In type types -> Spec.no_slash entryName = true ->
      Spec.no_slash (name subEntry) = true ->
      isDirectory subEntry = false ->
      Js.endsWith (name subEntry) ".md" = true ->
      getBody (Path.join entryPath (name subEntry)) = Ok bc ->
      exists d,
        subEntryDocs type entryName entryPath subEntry = Ok [d]
        /\ title d
           = Spec.resolved_title (Partial.title (frontmatter bc)) None
               (Js.hyphens_to_spaces (Spec.last_segment (id d))))
  /\ (forall id D,
      load id = Ok (Some D) ->
      Fs.statSync_isDirectory fs (resolved id) = Ok true ->
      exists m bc,
        getMeta (Path.join (resolved id) "meta.json") = Ok m
        /\ getBody (resolved id) = Ok bc
        /\ title (meta D)
           = Spec.resolved_title (Partial.title (frontmatter bc))
               (Partial.title m)
               (Js.hyphens_to_spaces (Spec.last_segment id)))
  /\ (forall id D,
      load id = Ok (Some D) ->
      Fs.statSync_isDirectory fs (resolved id) = Ok false ->
      exists bc,
        getBody (resolved id) = Ok bc
        /\ title (meta D)
           = Spec.resolved_title (Partial.title (frontmatter bc)) None
               (Js.hyphens_to_spaces (Spec.last_segment id)))
  /\ (forall type typePath entry bc,
      In type types -> Spec.no_slash (name entry) = true ->
      isDirectory entry = false ->
      Js.endsWith (name entry) ".md" = true ->
      getBody (Path.join typePath (name entry)) = Ok bc ->
      Js.truthy (Partial.title (frontmatter bc)) = true
      \/ Laws.no_hyphen (Js.remove_first ".md" (name entry)) ->
      exists d,
        entryDocs type typePath entry = Ok [d]
        /\ title d
           = Spec.resolved_title (Partial.title (frontmatter bc)) None
               (Js.hyphens_to_spaces (Spec.last_segment (id d)))).
Proof.
  repeat apply conj.
  - intros type typePath entry subEntries m bc Ht Hn Hdir Hls Hbody Hm Hbc.
    rewrite (entryDocuments_document_folder _ _ _ _ _ _ Hdir Hls Hbody Hm Hbc).
    eexists. split; [reflexivity|]. cbn [title id].
    rewrite last_segment_2 by auto using types_no_slash.
    apply or_title_precedence.
  - intros type entryName entryPath subEntry m bc Ht He Hn Hdir Hm Hbc.
    rewrite (subEntryDocuments_folder _ _ _ _ _ _ Hdir Hm Hbc).
    eexists. split; [reflexivity|]. cbn [title id].
    rewrite last_segment_3 by auto using types_no_slash.
    apply or_title_precedence.
  - intros type entryName entryPath subEntry bc Ht He Hn Hdir Hmd Hbc.
    rewrite (subEntryDocuments_file _ _ _ _ _ Hdir Hmd Hbc).
    eexists. split; [reflexivity|]. cbn [title id].
    rewrite last_segment_3
      by auto using types_no_slash, no_slash_remove_first.
    apply or_else_precedence.
  - intros id D H Hdir.
    rewrite (getDocument_directory id (getDocument_found _ _ H) Hdir) in H.
    bind_inv H. bind_inv H. bind_inv H. cbn zeta in H.
    injection H as <-. exists x, x0.
    split; [assumption|split; [assumption|]]. apply or_title_precedence.
  - intros id D H Hdir.
    rewrite (getDocument_file id (getDocument_found _ _ H) Hdir) in H.
    bind_inv H. cbn zeta in H. injection H as <-. exists x.
    split; [assumption|]. apply or_else_precedence.
  - intros type typePath entry bc Ht Hn Hdir Hmd Hbc Hplain.
    rewrite (entryDocuments_flat_file _ _ _ _ Hdir Hmd Hbc).
    eexists. split; [reflexivity|]. cbn [title id].
    rewrite last_segment_2
      by auto using types_no_slash, no_slash_remove_first.
    transitivity
      (Js.or_else_str (Partial.title (frontmatter bc))
         (Js.hyphens_to_spaces (Js.remove_first ".md" (name entry))));
      [|apply or_else_precedence].
    destruct Hplain as [Htitle|Hplain]; [|now rewrite Hplain].
    unfold Js.or_else_str, Js.truthy in *.
    destruct (Partial.title (frontmatter bc)) as [t|]; [|discriminate].
    now destruct (t =? "").
Qed.


(* ----------------------------------------------------------------- *)
(** *** The sidecar *)

Lemma readFileSync_exists (p s : string) :
  Fs.readFileSync fs p = Ok s -> Fs.existsSync fs p = true.
Proof.
  unfold Fs.readFileSync, Fs.existsSync.
  destruct (Fs.lookup fs p) as [[d|es]|]; [reflexivity|discriminate..].
Qed.

Lemma getMetaFromFile_malformed (metaPath s : string) (e : exn) :
  Fs.readFileSync fs metaPath = Ok s ->
  JSON_parse s = Throw e ->
  getMeta metaPath = Ok Partial.empty.
Proof.
  intros Hs He. unfold getMetaFromFile.
  rewrite (readFileSync_exists _ _ Hs), Hs. cbn [bind]. now rewrite He.
Qed.

Lemma getMetaFromFile_lenient (metaPath : string) :
  getMetaFromFile (Spec.lenient JSON_parse) fs metaPath = getMeta metaPath.
Proof.
  unfold getMetaFromFile, Spec.lenient.
  destruct (Fs.existsSync fs metaPath); [|reflexivity].
  destruct (Fs.readFileSync fs metaPath) as [s|e]; cbn [bind]; [|reflexivity].
  now destruct (JSON_parse s).
Qed.

Lemma subEntryDocuments_lenient type entryName entryPath subEntry :
  subEntryDocuments matter (Spec.lenient JSON_parse) fs
    type entryName entryPath subEntry
  = subEntryDocs type entryName entryPath subEntry.
Proof. unfold subEntryDocuments. now rewrite getMetaFromFile_lenient. Qed.

Lemma entryDocuments_lenient type typePath entry :
  entryDocuments matter (Spec.lenient JSON_parse) fs type typePath entry
  = entryDocs type typePath entry.
Proof.
  unfold entryDocuments. rewrite getMetaFromFile_lenient.
  destruct (isDirectory entry); [|reflexivity].
  destruct (Fs.readdirSync fs _) as [subEntries|e]; cbn [bind]; [|reflexivity].
  destruct (hasBody subEntries); [reflexivity|].
  apply for_each_ext. intros s. apply subEntryDocuments_lenient.
Qed.

Lemma getAllDocuments_lenient :
  getAllDocuments matter (Spec.lenient JSON_parse) localeCompare BRAIN_PATH fs
  = listing.
Proof.
  unfold getAllDocuments, collectDocuments. f_equal.
  apply for_each_ext. intros type. unfold typeDocuments.
  destruct (negb _); [reflexivity|].
  destruct (Fs.readdirSync fs _) as [entries|e]; cbn [bind]; [|reflexivity].
  apply for_each_ext. intros entry. apply entryDocuments_lenient.
Qed.

(** C8.  A sidecar whose content fails to parse never makes the metadata
    resolution raise: [getMetaFromFile] always returns, and returns the
    empty record for such a sidecar.  The listing is the one obtained when
    every sidecar that fails to parse holds the empty record, so it
    succeeds exactly when that one does; and the document of a folder with
    such a sidecar takes its fields from the frontmatter alone, the
    sidecar contributing nothing. *)
Theorem malformed_sidecar_is_empty :
  (forall metaPath, exists m, getMeta metaPath = Ok m)
  /\ (forall metaPath s e,
         Fs.readFileSync fs metaPath = Ok s ->
         JSON_parse s = Throw e ->
         getMeta metaPath = Ok Partial.empty)
  /\ listing
     = getAllDocuments matter (Spec.lenient JSON_parse)
         localeCompare BRAIN_PATH fs
  /\ (forall type typePath entry subEntries s e bc,
         isDirectory entry = true ->
         Fs.readdirSync fs (Path.join typePath (name entry))
           = Ok subEntries ->
         hasBody subEntries = true ->
         Fs.readFileSync fs
           (Path.join (Path.join typePath (name entry)) "meta.json") = Ok s ->
         JSON_parse s = Throw e ->
         getBody (Path.join typePath (name entry)) = Ok bc ->
         exists d,
           entryDocs type typePath entry = Ok [d]
           /\ Spec.folder_fields (Js.hyphens_to_spaces (name entry))
                (frontmatter bc) Partial.empty d).
Proof.
  repeat apply conj.
  - apply getMetaFromFile_total.
  - apply getMetaFromFile_malformed.
  - symmetry. apply getAllDocuments_lenient.
  - intros type typePath entry subEntries s e bc Hdir Hls Hbody Hs He Hbc.
    pose proof (getMetaFromFile_malformed _ _ _ Hs He) as Hm.
    rewrite (entryDocuments_document_folder _ _ _ _ _ _ Hdir Hls Hbody Hm Hbc).
    eexists. split; [reflexivity|apply folder_fields_intro].
Qed.

Lemma getAllDocuments_inv docs :
  listing = Ok docs ->
  exists pushed,
    collect = Ok pushed
    /\ docs = sort (compareDocuments localeCompare) pushed.
Proof.
  unfold getAllDocuments. intros H. bind_inv H. injection H as <-. eauto.
Qed.

Lemma no_slash_segment (e : Dirent) :
  Spec.no_slash (name e) = true -> Spec.no_slash (Spec.segment e) = true.
Proof.
  unfold Spec.segment. destruct (isDirectory e);
    auto using no_slash_remove_first.
Qed.

End Properties.

(* ================================================================= *)
(** ** The concrete platform *)

Section DemoFacts.

Lemma ascii_compare_refl (c : ascii) : Ascii.compare c c = Eq.
Proof. unfold Ascii.compare. apply N.compare_refl. Qed.

Lemma ascii_compare_lt_trans (x y z : ascii) :
  Ascii.compare x y = Lt -> Ascii.compare y z = Lt -> Ascii.compare x z = Lt.
Proof.
  unfold Ascii.compare. rewrite !N.compare_lt_iff. lia.
Qed.

Lemma string_compare_not_gt_trans (a b c : string) :
  String.compare a b <> Gt -> String.compare b c <> Gt ->
  String.compare a c <> Gt.
Proof.
  revert b c. induction a as [|x a IH]; intros [|y b] [|z c]; cbn;
    try congruence.
  destruct (Ascii.compare x y) eqn:Exy; try congruence;
    destruct (Ascii.compare y z) eqn:Eyz; try congruence.
  - apply Ascii.compare_eq_iff in Exy, Eyz. subst.
    rewrite ascii_compare_refl. apply IH.
  - apply Ascii.compare_eq_iff in Exy. subst. rewrite Eyz. congruence.
  - apply Ascii.compare_eq_iff in Eyz. subst. rewrite Exy. congruence.
  - rewrite (ascii_compare_lt_trans _ _ _ Exy Eyz). congruence.
Qed.

Lemma string_compare_refl (a : string) : String.compare a a = Eq.
Proof.
  induction a as [|c a IH]; cbn; [reflexivity|].
  now rewrite ascii_compare_refl.
Qed.

Lemma string_compare_lt_trans (a b c : string) :
  String.compare a b = Lt -> String.compare b c = Lt ->
  String.compare a c = Lt.
Proof.
  intros Hab Hbc.
  destruct (String.compare a c) eqn:Hac; [| reflexivity |].
  - apply String.compare_eq_iff in Hac. subst c.
    rewrite (String.compare_antisym b a), Hab in Hbc. discriminate.
  - exfalso. apply (string_compare_not_gt_trans a b c); congruence.
Qed.

Lemma demo_localeCompare_consistent : Spec.consistent Demo.localeCompare.
Proof.
  split; unfold Demo.localeCompare.
  - intros a b.
    rewrite (String.compare_antisym (Demo.primary b) (Demo.primary a)),
      (String.compare_antisym (Demo.tertiary b) (Demo.tertiary a)).
    destruct (String.compare (Demo.primary a) (Demo.primary b));
      [destruct (String.compare (Demo.tertiary a) (Demo.tertiary b))|..];
      reflexivity.
  - intros a b c.
    destruct (String.compare (Demo.primary a) (Demo.primary b)) eqn:Pab;
      [|intros _|lia];
      (destruct (String.compare (Demo.primary b) (Demo.primary c)) eqn:Pbc;
       [|intros _|lia]).
    + apply String.compare_eq_iff in Pab, Pbc. rewrite Pab, Pbc.
      rewrite string_compare_refl.
      pose proof (string_compare_not_gt_trans (Demo.tertiary a)
                    (Demo.tertiary b) (Demo.tertiary c)) as H.
      destruct (String.compare (Demo.tertiary a) (Demo.tertiary b));
        [| |lia];
        (destruct (String.compare (Demo.tertiary b) (Demo.tertiary c));
         [| |lia]);
        (destruct (String.compare (Demo.tertiary a) (Demo.tertiary c));
         [lia|lia|]);
        intros _ _; exfalso; apply H; congruence.
    + apply String.compare_eq_iff in Pab. rewrite Pab, Pbc. lia.
    + apply String.compare_eq_iff in Pbc. rewrite <- Pbc, Pab. lia.
    + rewrite (string_compare_lt_trans _ _ _ Pab Pbc). lia.
Qed.

End DemoFacts.

(* ================================================================= *)
(** ** The properties on concrete trees *)

Section Examples.

Local Abbreviation listing fs :=
  (getAllDocuments Demo.matter Demo.JSON_parse Demo.localeCompare
     Demo.BRAIN_PATH fs).
Local Abbreviation load fs :=
  (getDocument Demo.matter Demo.JSON_parse Demo.BRAIN_PATH fs).
Local Abbreviation entryDocs fs :=
  (entryDocuments Demo.matter Demo.JSON_parse fs).
Local Abbreviation subEntryDocs fs :=
  (subEntryDocuments Demo.matter Demo.JSON_parse fs).
Local Abbreviation getBody fs := (getBodyContent Demo.matter fs).
Local Abbreviation getMeta fs := (getMetaFromFile Demo.JSON_parse fs).

(** C1 (the code at the failing input).  For the tree that holds only
    [projects/foo/body.md], the indexer lists one record, with identifier
    [projects/foo] and category [foo]; the loader resolves that identifier
    to a Document whose category is absent.  The round trip does not
    preserve the category of a project document folder. *)
Theorem roundtrip_loses_project_category :
  exists d D,
    listing Demo.fs_project_foo = Ok [d]
    /\ id d = "projects/foo"
    /\ load Demo.fs_project_foo (id d) = Ok (Some D)
    /\ category d = Some "foo"
    /\ category (meta D) = None.
Proof.
  eexists. eexists.
  split; [vm_compute; reflexivity|].
  split; [reflexivity|].
  split; [vm_compute; reflexivity|].
  split; reflexivity.
Qed.

(** The same round trip changes the title of a flat file: the indexer keeps
    the hyphens of the filename, the loader replaces them. *)
Lemma roundtrip_changes_flat_file_title :
  exists d D,
    listing Demo.fs_journal = Ok [d]
    /\ load Demo.fs_journal (id d) = Ok (Some D)
    /\ title d = "2026-01-28"
    /\ title (meta D) = "2026 01 28".
Proof.
  eexists. eexists.
  split; [vm_compute; reflexivity|].
  split; [vm_compute; reflexivity|].
  split; reflexivity.
Qed.

(** And the date of a subdocument file: absent in the listing, the filename
    in the loader. *)
Lemma roundtrip_changes_subdocument_file_date :
  exists d D,
    listing Demo.fs_subdoc_file = Ok [d]
    /\ load Demo.fs_subdoc_file (id d) = Ok (Some D)
    /\ date d = None
    /\ date (meta D) = Some "my-note".
Proof.
  eexists. eexists.
  split; [vm_compute; reflexivity|].
  split; [vm_compute; reflexivity|].
  split; reflexivity.
Qed.



(** C4, as stated, fails twice.  A frontmatter title that is present but
    empty does not win: the sidecar title B is taken.  And for a flat file
    the indexer keeps the hyphens of the filename in the title. *)
Lemma title_chain_counterexample :
  (exists d,
      listing Demo.fs_empty_title = Ok [d]
      /\ getBody Demo.fs_empty_title (Path.join Demo.projects_path "foo")
         = Ok (mkBodyContent "Hello" (Partial.mk (Some "") None None None))
      /\ title d = "B"
      /\ title d <> Spec.title_by_chain (Some "") (Some "B") (id d))
  /\ (exists d,
      listing Demo.fs_flat_hyphen = Ok [d]
      /\ getBody Demo.fs_flat_hyphen
           (Path.join Demo.journals_path "my-note.md")
         = Ok (mkBodyContent "Note" Partial.empty)
      /\ title d = "my-note"
      /\ Spec.title_by_chain None None (id d) = "my note"
      /\ title d <> Spec.title_by_chain None None (id d)).
Proof.
  split.
  - eexists.
    split; [vm_compute; reflexivity|].
    split; [vm_compute; reflexivity|].
    split; [reflexivity|]. cbn. discriminate.
  - eexists.
    split; [vm_compute; reflexivity|].
    split; [vm_compute; reflexivity|].
    split; [reflexivity|].
    split; [vm_compute; reflexivity|]. vm_compute. discriminate.
Qed.

(** C4 on concrete trees: the subdocument file [projects/cat/my-note.md]
    is titled by its last segment, hyphens replaced, in the listing and in
    the loader; the folder with an empty frontmatter title takes the
    sidecar title; the flat file [concepts/idea.md] is titled by its last
    segment. *)
Lemma title_fallback_chain_witness :
  (exists d,
      entryDocs Demo.fs_empty_title "projects" Demo.projects_path
        (mkDirent "foo" true) = Ok [d]
      /\ title d = "B")
  /\ (exists d,
      subEntryDocs Demo.fs_project_foo_bar "projects" "foo"
        (Path.join Demo.projects_path "foo") (mkDirent "bar" true) = Ok [d]
      /\ id d = "projects/foo/bar" /\ title d = "bar")
  /\ (exists d,
      subEntryDocs Demo.fs_subdoc_file "projects" "cat"
        (Path.join Demo.projects_path "cat") (mkDirent "my-note.md" false)
        = Ok [d]
      /\ id d = "projects/cat/my-note" /\ title d = "my note")
  /\ (exists D,
      load Demo.fs_empty_title "projects/foo" = Ok (Some D)
      /\ title (meta D) = "B")
  /\ (exists D,
      load Demo.fs_subdoc_file "projects/cat/my-note" = Ok (Some D)
      /\ title (meta D) = "my note")
  /\ (exists d,
      entryDocs Cases.fs_flat_plain "concepts"
        (Path.join Demo.BRAIN_PATH "concepts") (mkDirent "idea.md" false)
        = Ok [d]
      /\ id d = "concepts/idea" /\ title d = "idea").
Proof.
  pose proof (title_fallback_chain Demo.matter Demo.JSON_parse
                Demo.BRAIN_PATH) as T.
  repeat apply conj.
  - destruct (proj1 (T Demo.fs_empty_title)
                "projects" Demo.projects_path (mkDirent "foo" true)
                [mkDirent "body.md" false; mkDirent "meta.json" false]
                (Partial.mk (Some "B") (Some "2024-01-01") None None)
                (mkBodyContent "Hello" (Partial.mk (Some "") None None None))
                (or_introl eq_refl) eq_refl eq_refl eq_refl eq_refl eq_refl
                eq_refl)
      as (d & Hd & Ht).
    exists d. split; [exact Hd|]. rewrite Ht. reflexivity.
  - destruct (proj1 (proj2 (T Demo.fs_project_foo_bar))
                "projects" "foo" (Path.join Demo.projects_path "foo")
                (mkDirent "bar" true) Partial.empty
                (mkBodyContent "Hello" Partial.empty)
                (or_introl eq_refl) eq_refl eq_refl eq_refl eq_refl eq_refl)
      as (d & Hd & Ht).
    exists d. split; [exact Hd|].
    rewrite Ht. vm_compute in Hd. injection Hd as <-.
    split; reflexivity.
  - destruct (proj1 (proj2 (proj2 (T Demo.fs_subdoc_file)))
                "projects" "cat" (Path.join Demo.projects_path "cat")
                (mkDirent "my-note.md" false)
                (mkBodyContent "Note" Partial.empty)
                (or_introl eq_refl) eq_refl eq_refl eq_refl eq_refl eq_refl)
      as (d & Hd & Ht).
    exists d. split; [exact Hd|].
    rewrite Ht. vm_compute in Hd. injection Hd as <-.
    split; reflexivity.
  - assert (E : load Demo.fs_empty_title "projects/foo"
                = Ok (Some
                    (mkDocument
                       (mkDocumentMeta "projects/foo" "B" "project" None
                          (Some "2024-01-01") (Some []) None)
                       "Hello" (Some [])))) by (vm_compute; reflexivity).
    destruct (proj1 (proj2 (proj2 (proj2 (T Demo.fs_empty_title))))
                "projects/foo" _ E eq_refl) as (m & bc & Hm & Hbc & Ht).
    eexists. split; [exact E|]. rewrite Ht.
    vm_compute in Hm. injection Hm as <-.
    vm_compute in Hbc. injection Hbc as <-. reflexivity.
  - assert (E : load Demo.fs_subdoc_file "projects/cat/my-note"
                = Ok (Some
                    (mkDocument
                       (mkDocumentMeta "projects/cat/my-note" "my note"
                          "project" (Some "cat") (Some "my-note")
                          (Some []) None)
                       "Note" None))) by (vm_compute; reflexivity).
    destruct (proj1 (proj2 (proj2 (proj2 (proj2 (T Demo.fs_subdoc_file)))))
                "projects/cat/my-note" _ E eq_refl) as (bc & Hbc & Ht).
    eexists. split; [exact E|]. rewrite Ht.
    vm_compute in Hbc. injection Hbc as <-. reflexivity.
  - destruct (proj2 (proj2 (proj2 (proj2 (proj2 (T Cases.fs_flat_plain)))))
                "concepts" (Path.join Demo.BRAIN_PATH "concepts")
                (mkDirent "idea.md" false)
                (mkBodyContent "Idea" Partial.empty)
                (or_intror (or_intror (or_introl eq_refl)))
                eq_refl eq_refl eq_refl)
      as (d & Hd & Ht); [vm_compute; reflexivity|right; reflexivity|].
    exists d. split; [exact Hd|].
    rewrite Ht. vm_compute in Hd. injection Hd as <-.
    split; reflexivity.
Defined.


(** Where [.md] also occurs inside the filename, the default date is not
    the filename without its extension: [a.md.b.md] gives [a.b.md]. *)
Lemma inner_md_is_removed_first :
  exists d,
    listing Demo.fs_journal_inner_md = Ok [d]
    /\ id d = "journals/a.b.md" /\ date d = Some "a.b.md"
    /\ load Demo.fs_journal_inner_md (id d) = Ok None.
Proof.
  eexists.
  split; [vm_compute; reflexivity|].
  split; [reflexivity|]. split; [reflexivity|].
  vm_compute. reflexivity.
Qed.


(** C8 on a folder whose sidecar is not JSON: the sidecar reads as the
    empty record, and the document is listed with the frontmatter title
    and no date. *)
Lemma malformed_sidecar_is_empty_witness :
  getMeta Demo.fs_bad_sidecar
    (Path.join (Path.join Demo.projects_path "foo") "meta.json")
  = Ok Partial.empty
  /\ (exists d,
      entryDocs Demo.fs_bad_sidecar "projects" Demo.projects_path
        (mkDirent "foo" true) = Ok [d]
      /\ title d = "A" /\ date d = None
      /\ tags d = Some [] /\ summary d = None)
  /\ (exists d, listing Demo.fs_bad_sidecar = Ok [d] /\ title d = "A").
Proof.
  pose proof (malformed_sidecar_is_empty Demo.matter Demo.JSON_parse
                Demo.localeCompare Demo.BRAIN_PATH Demo.fs_bad_sidecar)
    as (_ & Hempty & Hlisting & Hdoc).
  split; [|split].
  - exact (Hempty
             (Path.join (Path.join Demo.projects_path "foo") "meta.json")
             "{oops" SyntaxError eq_refl eq_refl).
  - exact (Hdoc "projects" Demo.projects_path (mkDirent "foo" true)
             [mkDirent "body.md" false; mkDirent "meta.json" false]
             "{oops" SyntaxError
             (mkBodyContent "Hello" (Partial.mk (Some "A") None None None))
             eq_refl eq_refl eq_refl eq_refl eq_refl eq_refl).
  - rewrite Hlisting. eexists. split; [vm_compute; reflexivity|reflexivity].
Defined.

End Examples.

(* ================================================================= *)
(** ** Further properties: the paths of the indexer and of the loader *)

Section Paths.

Lemma append_associative (a b c : string) : (a ++ b) ++ c = a ++ (b ++ c).
Proof. induction a as [|x a IH]; cbn; congruence. Qed.

Lemma split_nonempty (s : string) : Js.split Js.slash s <> [].
Proof.
  destruct s as [|c s]; cbn [Js.split]; [discriminate|].
  destruct (Ascii.eqb c Js.slash); [discriminate|].
  destruct (Js.split Js.slash s); discriminate.
Qed.

Lemma split_no_slash_segments (s : string) :
  Forall (fun seg => Spec.no_slash seg = true) (Js.split Js.slash s).
Proof.
  induction s as [|c s IH]; cbn [Js.split].
  - repeat constructor.
  - destruct (Ascii.eqb c Js.slash) eqn:E.
    + constructor; [reflexivity|exact IH].
    + destruct (Js.split Js.slash s) as [|h t]; [repeat constructor; cbn;
                                                 now rewrite E|].
      inversion IH as [|? ? Hh Ht]. constructor; [|exact Ht].
      cbn. now rewrite E, Hh.
Qed.

Lemma split_append (x y : string) :
  Js.split Js.slash (x ++ "/" ++ y)
  = (Js.split Js.slash x ++ Js.split Js.slash y)%list.
Proof.
  induction x as [|c x IH]; [reflexivity|].
  cbn [append Js.split] in *.
  destruct (Ascii.eqb c Js.slash).
  - now rewrite IH.
  - rewrite IH. pose proof (split_nonempty x) as Hne.
    destruct (Js.split Js.slash x); [contradiction|reflexivity].
Qed.

Lemma norm_segs_app above stack l1 l2 :
  Path.norm_segs above stack (l1 ++ l2)
  = Path.norm_segs above (Path.norm_segs above stack l1) l2.
Proof.
  revert stack. induction l1 as [|s l1 IH]; intros stack; [reflexivity|].
  cbn [app Path.norm_segs].
  destruct ((s =? "") || (s =? ".")); [apply IH|].
  destruct (s =? ".."); [|apply IH].
  destruct stack as [|top below].
  - destruct above; apply IH.
  - destruct (top =? ".."); apply IH.
Qed.

Lemma plain_tests (s : string) :
  Laws.plain s ->
  (s =? "") = false /\ (s =? ".") = false /\ (s =? "..") = false.
Proof.
  intros (_ & H1 & H2 & H3). now rewrite !String.eqb_neq.
Qed.

Lemma norm_segs_plain above stack (l : list string) :
  Forall Laws.plain l ->
  Path.norm_segs above stack l = (rev l ++ stack)%list.
Proof.
  intros H. revert stack.
  induction H as [|s l Hs _ IH]; intros stack; [reflexivity|].
  cbn [Path.norm_segs rev].
  destruct (plain_tests _ Hs) as (-> & -> & ->). cbn [orb].
  now rewrite IH, <- app_assoc.
Qed.

Lemma plain_kept (s : string) : Laws.plain s -> Laws.kept s.
Proof. intros (H0 & H1 & H2 & _). now repeat split. Qed.

Lemma normal_push_plain above stack s :
  Laws.plain s -> Laws.normal above stack -> Laws.normal above (s :: stack).
Proof.
  intros Hs Hn. cbn [Laws.normal]. split; [now apply plain_kept|].
  split; [|exact Hn]. intros ->. now destruct Hs as (_ & _ & _ & []).
Qed.

Lemma normal_app_plain above stack (l : list string) :
  Forall Laws.plain l -> Laws.normal above stack ->
  Laws.normal above (rev l ++ stack).
Proof.
  intros H. revert stack.
  induction H as [|s l Hs _ IH]; intros stack Hn; [exact Hn|].
  cbn [rev]. rewrite <- app_assoc. apply IH. now apply normal_push_plain.
Qed.

Lemma kept_dotdot : Laws.kept "..".
Proof. split; [reflexivity|]. split; discriminate. Qed.

Lemma norm_segs_normal above (segs stack : list string) :
  Forall (fun seg => Spec.no_slash seg = true) segs ->
  Laws.normal above stack ->
  Laws.normal above (Path.norm_segs above stack segs).
Proof.
  intros H. revert stack.
  induction H as [|s segs Hs _ IH]; intros stack Hn; [exact Hn|].
  cbn [Path.norm_segs].
  destruct (String.eqb_spec s "") as [->|He]; cbn [orb]; [now apply IH|].
  destruct (String.eqb_spec s ".") as [->|Hd]; [now apply IH|].
  destruct (String.eqb_spec s "..") as [->|Hdd].
  - destruct stack as [|top below].
    + destruct above eqn:Ea; apply IH; [|exact I].
      cbn [Laws.normal]. split; [exact kept_dotdot|]. now split.
    + destruct (String.eqb_spec top "..") as [->|Ht].
      * apply IH. cbn [Laws.normal] in Hn.
        destruct Hn as (Hk & Hdots & Hb).
        destruct (Hdots eq_refl) as [Ha Hbelow].
        cbn [Laws.normal]. split; [exact kept_dotdot|].
        split; [now split|]. split; [exact Hk|]. now split.
      * apply IH. cbn [Laws.normal] in Hn. now destruct Hn as (_ & _ & Hb).
  - apply IH. cbn [Laws.normal]. split; [now repeat split|].
    split; [contradiction|exact Hn].
Qed.

Lemma norm_segs_rev_normal above (stack : list string) :
  Laws.normal above stack ->
  Path.norm_segs above [] (rev stack) = stack.
Proof.
  induction stack as [|s below IH]; intros Hn; [reflexivity|].
  cbn [Laws.normal] in Hn. destruct Hn as ((Hs & He & Hd) & Hdots & Hb).
  cbn [rev]. rewrite norm_segs_app, (IH Hb). cbn [Path.norm_segs].
  apply String.eqb_neq in He, Hd. rewrite He, Hd. cbn [orb].
  destruct (String.eqb_spec s "..") as [->|Hne]; [|reflexivity].
  destruct (Hdots eq_refl) as [-> Hbelow].
  destruct below as [|b below]; [reflexivity|]. now rewrite Hbelow.
Qed.

Lemma concat_split (l : list string) :
  l <> [] ->
  Forall (fun seg => Spec.no_slash seg = true) l ->
  Js.split Js.slash (String.concat "/" l) = l.
Proof.
  intros Hne H. induction H as [|s l Hs Hl IH]; [contradiction|].
  destruct l as [|s' l'].
  - cbn [String.concat]. now apply split_no_slash.
  - change (String.concat "/" (s :: s' :: l'))
      with (s ++ "/" ++ String.concat "/" (s' :: l')).
    rewrite split_cons by exact Hs. f_equal. apply IH. discriminate.
Qed.

Lemma normal_no_slash above (stack : list string) :
  Laws.normal above stack ->
  Forall (fun seg => Spec.no_slash seg = true) stack.
Proof.
  induction stack as [|s below IH]; intros Hn; constructor.
  - cbn in Hn. now destruct Hn as ((Hs & _) & _).
  - apply IH. cbn in Hn. now destruct Hn as (_ & _ & Hb).
Qed.

Lemma normal_nonempty above (stack : list string) :
  Laws.normal above stack -> Forall (fun seg => seg <> "") stack.
Proof.
  induction stack as [|s below IH]; intros Hn; constructor.
  - cbn in Hn. now destruct Hn as ((_ & Hs & _) & _).
  - apply IH. cbn in Hn. now destruct Hn as (_ & _ & Hb).
Qed.

Lemma concat_head (s : string) (l : list string) :
  exists rest, String.concat "/" (s :: l) = s ++ rest.
Proof.
  destruct l as [|s' l'].
  - exists "". cbn. induction s as [|c s IH]; cbn; congruence.
  - eexists. reflexivity.
Qed.

Lemma startsWith_no_slash (s rest : string) :
  Spec.no_slash s = true -> s <> "" ->
  Js.startsWith (s ++ rest) "/" = false.
Proof.
  intros Hs Hne. destruct s as [|c s]; [contradiction|].
  cbn [Spec.no_slash] in Hs. apply andb_true_iff in Hs as [Hc _].
  apply negb_true_iff in Hc. rewrite Ascii.eqb_sym in Hc.
  unfold Js.startsWith, Js.slash in *. cbn [append Js.strip_prefix].
  now rewrite Hc.
Qed.

Lemma rev_cases {A : Type} (l : list A) :
  l = [] \/ exists x rest, rev l = x :: rest.
Proof.
  destruct (rev l) as [|x rest] eqn:E; [left|right; eauto].
  rewrite <- (rev_involutive l), E. reflexivity.
Qed.

Lemma startsWith_render isAbsolute (stack : list string) :
  Laws.normal (negb isAbsolute) stack ->
  Js.startsWith (Laws.render isAbsolute stack) "/" = isAbsolute.
Proof.
  intros Hn. unfold Laws.render. destruct isAbsolute; [reflexivity|].
  cbn [append].
  destruct (rev_cases stack) as [->|(x & rest & E)]; [reflexivity|].
  rewrite E. destruct (concat_head x rest) as [tail ->].
  assert (Hx : In x stack) by (apply in_rev; rewrite E; now left).
  apply startsWith_no_slash.
  - exact (proj1 (Forall_forall _ _) (normal_no_slash _ _ Hn) x Hx).
  - exact (proj1 (Forall_forall _ _) (normal_nonempty _ _ Hn) x Hx).
Qed.

Lemma norm_segs_render isAbsolute (stack : list string) :
  Laws.normal (negb isAbsolute) stack ->
  Path.norm_segs (negb isAbsolute) []
    (Js.split Js.slash (Laws.render isAbsolute stack)) = stack.
Proof.
  intros Hn. unfold Laws.render.
  assert (Hbody : stack <> [] ->
            Js.split Js.slash (String.concat "/" (rev stack)) = rev stack).
  { intros Hne. apply concat_split.
    - intros E. apply Hne. rewrite <- (rev_involutive stack), E. reflexivity.
    - apply Forall_rev. exact (normal_no_slash _ _ Hn). }
  destruct stack as [|s below].
  - now destruct isAbsolute.
  - destruct isAbsolute.
    + change ("/" ++ String.concat "/" (rev (s :: below)))
        with ("" ++ "/" ++ String.concat "/" (rev (s :: below))).
      rewrite split_append, Hbody by discriminate.
      cbn [Js.split app Path.norm_segs String.eqb orb].
      now apply norm_segs_rev_normal.
    + cbn [append]. rewrite Hbody by discriminate.
      now apply norm_segs_rev_normal.
Qed.

Lemma endsWith_slash_cons (c : ascii) (s : string) :
  s <> "" -> Js.endsWith (String c s) "/" = Js.endsWith s "/".
Proof.
  intros Hne. destruct s as [|c' s]; [contradiction|].
  unfold Js.endsWith. cbn [String.length Nat.leb].
  replace (S (S (String.length s)) - 1) with (S (S (String.length s) - 1))
    by (cbn; lia).
  cbn [substring]. reflexivity.
Qed.

Lemma append_nonempty (x y : string) : y <> "" -> x ++ y <> "".
Proof. destruct x; cbn; [auto|discriminate]. Qed.

Lemma endsWith_slash_append (x y : string) :
  y <> "" -> Js.endsWith (x ++ y) "/" = Js.endsWith y "/".
Proof.
  intros Hy. induction x as [|c x IH]; [reflexivity|].
  cbn [append]. rewrite endsWith_slash_cons by now apply append_nonempty.
  exact IH.
Qed.

Lemma endsWith_slash_no_slash (s : string) :
  Spec.no_slash s = true -> Js.endsWith s "/" = false.
Proof.
  induction s as [|c s IH]; [reflexivity|].
  cbn [Spec.no_slash]. intros H. apply andb_true_iff in H as [Hc Hs].
  destruct s as [|c' s].
  - apply negb_true_iff in Hc. unfold Js.endsWith. cbn.
    destruct (Ascii.eqb_spec c "/"); [|reflexivity].
    subst c. discriminate Hc.
  - rewrite endsWith_slash_cons by discriminate. now apply IH.
Qed.

Lemma concat_last (l : list string) (s : string) :
  exists front, String.concat "/" (l ++ [s]) = front ++ s.
Proof.
  induction l as [|x l IH].
  - exists "". reflexivity.
  - destruct IH as [front E]. cbn [app].
    destruct (l ++ [s])%list as [|y rest] eqn:El.
    + destruct l; discriminate.
    + change (String.concat "/" (x :: y :: rest))
        with (x ++ "/" ++ String.concat "/" (y :: rest)).
      rewrite E. exists (x ++ "/" ++ front).
      now rewrite !append_associative.
Qed.

Lemma concat_cons (x : string) (l : list string) :
  l <> [] -> String.concat "/" (x :: l) = x ++ "/" ++ String.concat "/" l.
Proof. destruct l; [contradiction|reflexivity]. Qed.

Lemma app_last_nonempty {A : Type} (l : list A) (z : A) : (l ++ [z])%list <> [].
Proof. destruct l; discriminate. Qed.

Lemma concat_last_append (l : list string) (s suffix : string) :
  String.concat "/" (l ++ [s]) ++ suffix
  = String.concat "/" (l ++ [s ++ suffix]).
Proof.
  induction l as [|x l IH]; [reflexivity|]. cbn [app].
  rewrite !concat_cons by apply app_last_nonempty.
  now rewrite !append_associative, IH.
Qed.

Lemma append_empty_r (s : string) : s ++ "" = s.
Proof. induction s as [|c s IH]; cbn; congruence. Qed.

Lemma plain_path_facts (l : list string) :
  l <> [] -> Forall Laws.plain l ->
  String.concat "/" l <> ""
  /\ Js.startsWith (String.concat "/" l) "/" = false
  /\ (forall x, Js.endsWith (x ++ String.concat "/" l) "/" = false)
  /\ Js.split Js.slash (String.concat "/" l) = l.
Proof.
  intros Hne Hl.
  assert (Hslash : Forall (fun seg => Spec.no_slash seg = true) l).
  { eapply Forall_impl; [|exact Hl]. now intros s (H & _). }
  destruct l as [|s rest]; [contradiction|].
  assert (Hs : Laws.plain s) by now inversion Hl.
  destruct (concat_head s rest) as [tail Ehead].
  destruct (exists_last Hne) as (front & z & Elast).
  assert (Hz : Laws.plain z).
  { apply (proj1 (Forall_forall _ _) Hl). rewrite Elast.
    apply in_or_app. right. now left. }
  destruct (concat_last front z) as [pre Epre].
  rewrite <- Elast in Epre.
  destruct Hs as (Hs0 & Hs1 & _). destruct Hz as (Hz0 & Hz1 & _).
  repeat split.
  - rewrite Ehead. intros E. destruct s; [contradiction|discriminate].
  - rewrite Ehead. now apply startsWith_no_slash.
  - intros x. rewrite Epre, <- append_associative.
    rewrite endsWith_slash_append by exact Hz1.
    now apply endsWith_slash_no_slash.
  - now apply concat_split.
Qed.

Lemma base_normal (B : string) :
  Laws.normal (negb (Js.startsWith B "/"))
    (Path.norm_segs (negb (Js.startsWith B "/")) [] (Js.split Js.slash B)).
Proof.
  apply norm_segs_normal; [apply split_no_slash_segments|exact I].
Qed.

Lemma render_nonempty (stack l : list string) :
  l <> [] -> Forall Laws.plain l ->
  String.concat "/" (rev (rev l ++ stack)) <> "".
Proof.
  intros Hne Hl. rewrite rev_app_distr, rev_involutive.
  destruct (exists_last Hne) as (front & z & Elast). rewrite Elast.
  rewrite app_assoc. destruct (concat_last (rev stack ++ front) z) as [p ->].
  apply append_nonempty.
  assert (Hz : Laws.plain z).
  { apply (proj1 (Forall_forall _ _) Hl). rewrite Elast.
    apply in_or_app. right. now left. }
  now destruct Hz as (_ & Hz & _).
Qed.

Lemma normalize_segments (p : string) (l : list string) above stack :
  p <> "" ->
  Js.endsWith p "/" = false ->
  above = negb (Js.startsWith p "/") ->
  Path.norm_segs above [] (Js.split Js.slash p) = (rev l ++ stack)%list ->
  l <> [] -> Forall Laws.plain l ->
  Path.normalize p = Laws.render (Js.startsWith p "/") (rev l ++ stack).
Proof.
  intros Hp Hend -> Hsegs Hne Hl. unfold Path.normalize, Laws.render.
  apply String.eqb_neq in Hp. rewrite Hp, Hend, Hsegs.
  pose proof (render_nonempty stack l Hne Hl) as Hbody.
  apply String.eqb_neq in Hbody. rewrite Hbody.
  now rewrite append_empty_r.
Qed.

Lemma startsWith_slash_append (b : ascii) (B rest : string) :
  Js.startsWith (String b B ++ rest) "/" = Js.startsWith (String b B) "/".
Proof.
  unfold Js.startsWith. cbn [append Js.strip_prefix].
  now destruct (Ascii.eqb "/" b).
Qed.

(** [path.join] of a base and a path of plain segments. *)
Lemma join_segments (B : string) (l : list string) :
  l <> [] -> Forall Laws.plain l ->
  Path.join B (String.concat "/" l)
  = Laws.render (Js.startsWith B "/")
      (rev l ++ Path.norm_segs (negb (Js.startsWith B "/")) []
                  (Js.split Js.slash B)).
Proof.
  intros Hne Hl.
  destruct (plain_path_facts l Hne Hl) as (Hx & Hstart & Hend & Hsplit).
  unfold Path.join.
  destruct B as [|b B].
  - cbn [String.eqb]. apply String.eqb_neq in Hx as Hx'. rewrite Hx'.
    rewrite (normalize_segments _ l true []); try assumption.
    + now rewrite Hstart.
    + exact (Hend "").
    + now rewrite Hstart.
    + rewrite Hsplit. now apply norm_segs_plain.
  - cbn [String.eqb]. apply String.eqb_neq in Hx as Hx'. rewrite Hx'.
    rewrite (normalize_segments _ l (negb (Js.startsWith (String b B) "/"))
               (Path.norm_segs (negb (Js.startsWith (String b B) "/")) []
                  (Js.split Js.slash (String b B)))); try assumption.
    + now rewrite startsWith_slash_append.
    + discriminate.
    + rewrite <- append_associative. apply Hend.
    + now rewrite startsWith_slash_append.
    + rewrite split_append, Hsplit, norm_segs_app.
      now apply norm_segs_plain.
Qed.

Lemma join_render isAbsolute (stack l : list string) :
  Laws.normal (negb isAbsolute) stack ->
  l <> [] -> Forall Laws.plain l ->
  Path.join (Laws.render isAbsolute stack) (String.concat "/" l)
  = Laws.render isAbsolute (rev l ++ stack).
Proof.
  intros Hn Hne Hl.
  rewrite join_segments by assumption.
  now rewrite startsWith_render, norm_segs_render.
Qed.

Lemma plain_markdown (stem : string) :
  Laws.plain stem -> Laws.plain (stem ++ ".md").
Proof.
  intros (H0 & H1 & _). repeat split.
  - now rewrite no_slash_append, H0.
  - now apply append_nonempty.
  - destruct stem as [|c [|c' s]]; cbn; congruence.
  - destruct stem as [|c [|c' [|c'' s]]]; cbn; congruence.
Qed.

Lemma render_markdown isAbsolute (stack : list string) (stem : string) :
  Laws.render isAbsolute (stem :: stack) ++ ".md"
  = Laws.render isAbsolute ((stem ++ ".md") :: stack).
Proof.
  unfold Laws.render. cbn [rev].
  now rewrite append_associative, concat_last_append.
Qed.

(** The loader finds the entries the indexer read: for plain names, the
    path the loader builds from an identifier in one [path.join] is the
    path the indexer built folder by folder, for a document directly under
    a type folder and for one under a category folder; and for a markdown
    file, the loader's path with [.md] appended is the path of the file. *)
Lemma indexed_paths_resolve :
  forall BRAIN_PATH type category name,
    Laws.plain type -> Laws.plain category -> Laws.plain name ->
    Path.join BRAIN_PATH (type ++ "/" ++ name)
    = Path.join (Path.join BRAIN_PATH type) name
    /\ Path.join BRAIN_PATH (type ++ "/" ++ category ++ "/" ++ name)
       = Path.join (Path.join (Path.join BRAIN_PATH type) category) name
    /\ Path.join BRAIN_PATH (type ++ "/" ++ name) ++ ".md"
       = Path.join (Path.join BRAIN_PATH type) (name ++ ".md")
    /\ Path.join BRAIN_PATH (type ++ "/" ++ category ++ "/" ++ name) ++ ".md"
       = Path.join (Path.join (Path.join BRAIN_PATH type) category)
           (name ++ ".md").
Proof.
  intros B t c n Ht Hc Hn.
  pose proof (plain_markdown _ Hn) as Hmd.
  pose proof (base_normal B) as Hbase.
  set (abs := Js.startsWith B "/") in *.
  set (S := Path.norm_segs (negb abs) [] (Js.split Js.slash B)) in *.
  assert (E1 : Path.join B t = Laws.render abs (t :: S)).
  { apply (join_segments B [t]); [discriminate|now constructor]. }
  assert (N1 : Laws.normal (negb abs) (t :: S))
    by now apply normal_push_plain.
  assert (E2 : Path.join (Laws.render abs (t :: S)) c
               = Laws.render abs (c :: t :: S)).
  { apply (join_render abs (t :: S) [c]); [exact N1|discriminate|
                                            now constructor]. }
  assert (N2 : Laws.normal (negb abs) (c :: t :: S))
    by now apply normal_push_plain.
  assert (J2 : forall x, Laws.plain x ->
             Path.join B (t ++ "/" ++ x) = Laws.render abs (x :: t :: S)).
  { intros x Hx. apply (join_segments B [t; x]); [discriminate|].
    constructor; [exact Ht|]. constructor; [exact Hx|constructor]. }
  assert (J3 : forall x, Laws.plain x ->
             Path.join B (t ++ "/" ++ c ++ "/" ++ x)
             = Laws.render abs (x :: c :: t :: S)).
  { intros x Hx. apply (join_segments B [t; c; x]); [discriminate|].
    constructor; [exact Ht|]. constructor; [exact Hc|].
    constructor; [exact Hx|constructor]. }
  assert (K1 : forall x, Laws.plain x ->
             Path.join (Laws.render abs (t :: S)) x
             = Laws.render abs (x :: t :: S)).
  { intros x Hx. apply (join_render abs (t :: S) [x]);
      [exact N1|discriminate|now constructor]. }
  assert (K2 : forall x, Laws.plain x ->
             Path.join (Laws.render abs (c :: t :: S)) x
             = Laws.render abs (x :: c :: t :: S)).
  { intros x Hx. apply (join_render abs (c :: t :: S) [x]);
      [exact N2|discriminate|now constructor]. }
  rewrite E1, E2, !J2, !J3, !K1, !K2, !render_markdown by assumption.
  now repeat split.
Qed.

Lemma types_plain (type : string) : In type types -> Laws.plain type.
Proof.
  unfold types. cbn [In].
  intros [<-|[<-|[<-|[]]]]; (split; [reflexivity|repeat split; discriminate]).
Qed.

End Paths.

(* ================================================================= *)
(** ** Further properties: the indexer against the loader *)

Section RoundTrip.

Variable matter : string -> result (Partial.t * string).
Variable JSON_parse : string -> result Partial.t.
Variable localeCompare : string -> string -> Z.
Variable BRAIN_PATH : string.
Variable fs : node.

Local Abbreviation getMeta := (getMetaFromFile JSON_parse fs).
Local Abbreviation getBody := (getBodyContent matter fs).
Local Abbreviation subEntryDocs := (subEntryDocuments matter JSON_parse fs).
Local Abbreviation entryDocs := (entryDocuments matter JSON_parse fs).
Local Abbreviation typeDocs := (typeDocuments matter JSON_parse BRAIN_PATH fs).
Local Abbreviation collect := (collectDocuments matter JSON_parse BRAIN_PATH fs).
Local Abbreviation listing :=
  (getAllDocuments matter JSON_parse localeCompare BRAIN_PATH fs).
Local Abbreviation load := (getDocument matter JSON_parse BRAIN_PATH fs).
Local Abbreviation resolved := (actualPath BRAIN_PATH fs).

Lemma statSync_exists (p : string) (b : bool) :
  Fs.statSync_isDirectory fs p = Ok b -> Fs.existsSync fs p = true.
Proof.
  unfold Fs.statSync_isDirectory, Fs.existsSync.
  destruct (Fs.lookup fs p) as [[d|es]|]; [reflexivity..|discriminate].
Qed.


Lemma resolved_markdown (i : string) :
  Fs.existsSync fs (Path.join BRAIN_PATH i) = false ->
  resolved i = Path.join BRAIN_PATH i ++ ".md".
Proof. intros H. unfold actualPath. now rewrite H. Qed.


Lemma load_file (i p : string) bc :
  Fs.existsSync fs (Path.join BRAIN_PATH i) = false ->
  Path.join BRAIN_PATH i ++ ".md" = p ->
  Fs.statSync_isDirectory fs p = Ok false ->
  getBody p = Ok bc ->
  load i =
    Ok (Some
      {| meta :=
           {| id := i;
              title :=
                Js.or_else_str (Partial.title (frontmatter bc))
                  (Js.hyphens_to_spaces (last (Js.split Js.slash i) ""));
              type := Js.drop_last (hd "" (Js.split Js.slash i));
              category :=
                if (2 <? List.length (Js.split Js.slash i))%nat
                then Some (nth 1 (Js.split Js.slash i) "") else None;
              date :=
                Some (Js.or_else_str (Partial.date (frontmatter bc))
                                     (last (Js.split Js.slash i) ""));
              tags :=
                Some (Js.or_else_tags (Partial.tags (frontmatter bc)) []);
              summary := Partial.summary (frontmatter bc)
           |};
         content := bc_content bc;
         sections := None |}).
Proof.
  intros Hno Hp Hfile Hbc.
  pose proof (statSync_exists _ _ Hfile) as Hex. rewrite <- Hp in Hex.
  assert (Hr : resolved i = p) by (rewrite resolved_markdown; auto).
  rewrite (getDocument_file matter JSON_parse BRAIN_PATH fs i).
  - rewrite Hr, Hbc. reflexivity.
  - rewrite Hex. apply orb_true_r.
  - now rewrite Hr.
Qed.



(** A flat markdown file survives the round trip except for its
    title: the loader returns the indexer's record with the title rebuilt
    from the identifier with hyphens replaced by spaces, so the record is
    unchanged when the frontmatter supplies a title or the filename holds
    no hyphen. *)
Lemma roundtrip_flat_file_at :
  forall type typePath entry bc,
    In type types ->
    Spec.no_slash (name entry) = true ->
    isDirectory entry = false ->
    Js.endsWith (name entry) ".md" = true ->
    getBody (Path.join typePath (name entry)) = Ok bc ->
    Fs.existsSync fs
      (Path.join BRAIN_PATH
         (type ++ "/" ++ Js.remove_first ".md" (name entry))) = false ->
    Path.join BRAIN_PATH (type ++ "/" ++ Js.remove_first ".md" (name entry))
      ++ ".md" = Path.join typePath (name entry) ->
    Fs.statSync_isDirectory fs (Path.join typePath (name entry))
      = Ok false ->
    exists d,
      entryDocs type typePath entry = Ok [d]
      /\ load (id d)
         = Ok (Some
             (mkDocument
                (Laws.with_title
                   (Js.or_else_str (Partial.title (frontmatter bc))
                      (Js.hyphens_to_spaces
                         (Js.remove_first ".md" (name entry))))
                   d)
                (bc_content bc) None))
      /\ (Js.truthy (Partial.title (frontmatter bc)) = true
          \/ Laws.no_hyphen (Js.remove_first ".md" (name entry)) ->
          load (id d) = Ok (Some (mkDocument d (bc_content bc) None))).
Proof.
  intros type typePath entry bc Ht Hn Hdir Hmd Hbc Hno Hp Hstat.
  rewrite (entryDocuments_flat_file matter JSON_parse fs _ _ _ _
             Hdir Hmd Hbc).
  eexists. split; [reflexivity|]. cbn [id].
  assert (Hload := load_file _ _ bc Hno Hp Hstat Hbc).
  rewrite split_2 in Hload
    by auto using types_no_slash, no_slash_remove_first.
  cbn [last hd List.length Nat.ltb Nat.leb] in Hload.
  split; [exact Hload|].
  intros Hsame. rewrite Hload. do 3 f_equal.
  unfold Laws.with_title. cbn. f_equal.
  destruct Hsame as [Htitle|Hplain].
  - unfold Js.or_else_str, Js.truthy in *.
    destruct (Partial.title (frontmatter bc)) as [t|]; [|discriminate].
    now destruct (t =? "").
  - now rewrite Hplain.
Qed.

(** A subdocument file survives the round trip except for its date:
    the loader returns the indexer's record with the date defaulted to the
    filename, so the record is unchanged exactly when the frontmatter
    supplies a non-empty date. *)
Lemma roundtrip_subdocument_file_at :
  forall type entryName entryPath subEntry bc,
    In type types ->
    Spec.no_slash entryName = true ->
    Spec.no_slash (name subEntry) = true ->
    isDirectory subEntry = false ->
    Js.endsWith (name subEntry) ".md" = true ->
    getBody (Path.join entryPath (name subEntry)) = Ok bc ->
    Fs.existsSync fs
      (Path.join BRAIN_PATH
         (type ++ "/" ++ entryName ++ "/"
            ++ Js.remove_first ".md" (name subEntry))) = false ->
    Path.join BRAIN_PATH
      (type ++ "/" ++ entryName ++ "/"
         ++ Js.remove_first ".md" (name subEntry)) ++ ".md"
      = Path.join entryPath (name subEntry) ->
    Fs.statSync_isDirectory fs (Path.join entryPath (name subEntry))
      = Ok false ->
    exists d,
      subEntryDocs type entryName entryPath subEntry = Ok [d]
      /\ load (id d)
         = Ok (Some
             (mkDocument
                (Laws.with_date
                   (Some (Js.or_else_str (Partial.date (frontmatter bc))
                            (Js.remove_first ".md" (name subEntry))))
                   d)
                (bc_content bc) None))
      /\ (Js.truthy (Partial.date (frontmatter bc)) = true ->
          load (id d) = Ok (Some (mkDocument d (bc_content bc) None)))
      /\ (Js.truthy (Partial.date (frontmatter bc)) = false ->
          Js.remove_first ".md" (name subEntry) <> "" ->
          load (id d) <> Ok (Some (mkDocument d (bc_content bc) None))).
Proof.
  intros type entryName entryPath subEntry bc Ht He Hn Hdir Hmd Hbc Hno Hp
    Hstat.
  rewrite (subEntryDocuments_file matter JSON_parse fs _ _ _ _ _
             Hdir Hmd Hbc).
  eexists. split; [reflexivity|]. cbn [id].
  assert (Hload := load_file _ _ bc Hno Hp Hstat Hbc).
  rewrite split_3 in Hload
    by auto using types_no_slash, no_slash_remove_first.
  cbn [last hd nth List.length Nat.ltb Nat.leb] in Hload.
  split; [exact Hload|]. split.
  - intros Hdate. rewrite Hload. do 3 f_equal.
    unfold Laws.with_date. cbn. f_equal.
    unfold Js.or_else_str, Js.truthy in *.
    destruct (Partial.date (frontmatter bc)) as [t|]; [|discriminate].
    now destruct (t =? "").
  - intros Hdate Hstem. rewrite Hload. intros E.
    injection E as E. apply Hstem.
    unfold Js.or_else_str, Js.truthy in *.
    destruct (Partial.date (frontmatter bc)) as [t|].
    + destruct (t =? "") eqn:Et; [|discriminate].
      apply String.eqb_eq in Et. subst t. now injection E.
    + discriminate E.
Qed.



(** X3.  A flat markdown file survives the round trip except for its
    title: for a plain name that holds [.md] only as its extension and
    that no sibling entry bears without the extension, the loader returns
    the indexer's record with the title rebuilt from the identifier with
    hyphens replaced by spaces, so the record is unchanged when the
    frontmatter supplies a title or the filename holds no hyphen. *)
Theorem roundtrip_flat_file :
  forall type entry stem bc,
    In type types ->
    Laws.plain stem ->
    Spec.occurs ".md" stem = false ->
    name entry = stem ++ ".md" ->
    isDirectory entry = false ->
    let typePath := Path.join BRAIN_PATH type in
    getBody (Path.join typePath (name entry)) = Ok bc ->
    Fs.existsSync fs (Path.join BRAIN_PATH (type ++ "/" ++ stem)) = false ->
    Fs.statSync_isDirectory fs (Path.join typePath (name entry))
      = Ok false ->
    exists d,
      entryDocs type typePath entry = Ok [d]
      /\ id d = type ++ "/" ++ stem
      /\ load (id d)
         = Ok (Some
             (mkDocument
                (Laws.with_title
                   (Js.or_else_str (Partial.title (frontmatter bc))
                      (Js.hyphens_to_spaces stem))
                   d)
                (bc_content bc) None))
      /\ (Js.truthy (Partial.title (frontmatter bc)) = true
          \/ Laws.no_hyphen stem ->
          load (id d) = Ok (Some (mkDocument d (bc_content bc) None))).
Proof.
  intros type entry stem bc Ht Hstem Hocc Hname Hdir typePath Hbc Hno Hstat.
  destruct (indexed_paths_resolve BRAIN_PATH type stem stem
              (types_plain _ Ht) Hstem Hstem) as (_ & _ & Hp & _).
  assert (Hrm : Js.remove_first ".md" (name entry) = stem).
  { rewrite Hname. now apply remove_first_extension. }
  assert (Hmd : Js.endsWith (name entry) ".md" = true).
  { rewrite Hname. apply endsWith_append. }
  assert (Hns : Spec.no_slash (name entry) = true).
  { rewrite Hname, no_slash_append. destruct Hstem as (-> & _).
    reflexivity. }
  rewrite <- Hname in Hp. rewrite <- Hrm in Hp, Hno.
  destruct (roundtrip_flat_file_at type typePath entry bc Ht Hns Hdir Hmd
              Hbc Hno Hp Hstat) as (d & Hd & Hload & Hsame).
  rewrite Hrm in Hload, Hsame.
  exists d. split; [exact Hd|]. split; [|split; assumption].
  rewrite (entryDocuments_flat_file matter JSON_parse fs _ _ _ _
             Hdir Hmd Hbc) in Hd.
  injection Hd as <-. cbn [id]. now rewrite Hrm.
Qed.

(** X4.  A subdocument file survives the round trip except for its date:
    for a plain name that holds [.md] only as its extension and that no
    sibling entry bears without the extension, the loader returns the
    indexer's record with the date defaulted to the filename, so the
    record is unchanged exactly when the frontmatter supplies a non-empty
    date. *)
Theorem roundtrip_subdocument_file :
  forall type entryName subEntry stem bc,
    In type types ->
    Laws.plain entryName ->
    Laws.plain stem ->
    Spec.occurs ".md" stem = false ->
    name subEntry = stem ++ ".md" ->
    isDirectory subEntry = false ->
    let entryPath := Path.join (Path.join BRAIN_PATH type) entryName in
    getBody (Path.join entryPath (name subEntry)) = Ok bc ->
    Fs.existsSync fs
      (Path.join BRAIN_PATH (type ++ "/" ++ entryName ++ "/" ++ stem))
      = false ->
    Fs.statSync_isDirectory fs (Path.join entryPath (name subEntry))
      = Ok false ->
    exists d,
      subEntryDocs type entryName entryPath subEntry = Ok [d]
      /\ id d = type ++ "/" ++ entryName ++ "/" ++ stem
      /\ load (id d)
         = Ok (Some
             (mkDocument
                (Laws.with_date
                   (Some (Js.or_else_str (Partial.date (frontmatter bc))
                            stem))
                   d)
                (bc_content bc) None))
      /\ (Js.truthy (Partial.date (frontmatter bc)) = true ->
          load (id d) = Ok (Some (mkDocument d (bc_content bc) None)))
      /\ (Js.truthy (Partial.date (frontmatter bc)) = false ->
          load (id d) <> Ok (Some (mkDocument d (bc_content bc) None))).
Proof.
  intros type entryName subEntry stem bc Ht He Hstem Hocc Hname Hdir
    entryPath Hbc Hno Hstat.
  destruct (indexed_paths_resolve BRAIN_PATH type entryName stem
              (types_plain _ Ht) He Hstem) as (_ & _ & _ & Hp).
  assert (Hrm : Js.remove_first ".md" (name subEntry) = stem).
  { rewrite Hname. now apply remove_first_extension. }
  assert (Hmd : Js.endsWith (name subEntry) ".md" = true).
  { rewrite Hname. apply endsWith_append. }
  assert (Hns : Spec.no_slash (name subEntry) = true).
  { rewrite Hname, no_slash_append. destruct Hstem as (-> & _).
    reflexivity. }
  assert (Hne : stem <> "") by now destruct Hstem as (_ & H & _).
  rewrite <- Hname in Hp. rewrite <- Hrm in Hp, Hno.
  destruct He as (He & _).
  destruct (roundtrip_subdocument_file_at type entryName entryPath subEntry
              bc Ht He Hns Hdir Hmd Hbc Hno Hp Hstat)
    as (d & Hd & Hload & Hsame & Hdiff).
  rewrite Hrm in Hload, Hdiff.
  exists d. split; [exact Hd|]. split; [|split; [|split]]; auto.
  rewrite (subEntryDocuments_file matter JSON_parse fs _ _ _ _ _
             Hdir Hmd Hbc) in Hd.
  injection Hd as <-. cbn [id]. now rewrite Hrm.
Qed.

End RoundTrip.

(* ================================================================= *)
(** ** Further properties: the listing, the categories, the endpoint *)

Section Listing.

Variable matter : string -> result (Partial.t * string).
Variable JSON_parse : string -> result Partial.t.
Variable localeCompare : string -> string -> Z.
Variable BRAIN_PATH : string.
Variable fs : node.

Local Abbreviation getMeta := (getMetaFromFile JSON_parse fs).
Local Abbreviation getBody := (getBodyContent matter fs).
Local Abbreviation subEntryDocs := (subEntryDocuments matter JSON_parse fs).
Local Abbreviation entryDocs := (entryDocuments matter JSON_parse fs).
Local Abbreviation typeDocs := (typeDocuments matter JSON_parse BRAIN_PATH fs).
Local Abbreviation collect := (collectDocuments matter JSON_parse BRAIN_PATH fs).
Local Abbreviation listing :=
  (getAllDocuments matter JSON_parse localeCompare BRAIN_PATH fs).
Local Abbreviation categoriesOf := (typeCategories BRAIN_PATH fs).

Ltac bind_inv H :=
  let x := fresh "x" in
  let Hx := fresh "Hx" in
  apply bind_Ok_inv in H as (x & Hx & H).

Lemma strip_prefix_append (a b : string) :
  Js.strip_prefix a (a ++ b) = Some b.
Proof.
  induction a as [|c a IH]; cbn [append Js.strip_prefix]; [reflexivity|].
  now rewrite Ascii.eqb_refl.
Qed.

Lemma startsWith_append (a b : string) : Js.startsWith (a ++ b) a = true.
Proof. unfold Js.startsWith. now rewrite strip_prefix_append. Qed.

Lemma startsWith_folder (t rest : string) :
  Js.startsWith (t ++ "/" ++ rest) (t ++ "/") = true.
Proof.
  replace (t ++ "/" ++ rest) with ((t ++ "/") ++ rest).
  - apply startsWith_append.
  - induction t as [|c t IH]; cbn; [reflexivity|]. now rewrite IH.
Qed.

Lemma subEntryDocuments_placed folder entryName entryPath subEntry ds :
  subEntryDocs folder entryName entryPath subEntry = Ok ds ->
  Forall (fun d =>
            type d = Js.drop_last folder
            /\ category d = Some entryName
            /\ exists seg, id d = folder ++ "/" ++ entryName ++ "/" ++ seg) ds.
Proof.
  unfold subEntryDocuments. intros H.
  destruct (isDirectory subEntry).
  - bind_inv H. bind_inv H. injection H as <-.
    repeat constructor. eexists. reflexivity.
  - destruct (Js.endsWith (name subEntry) ".md").
    + bind_inv H. injection H as <-.
      repeat constructor. eexists. reflexivity.
    + injection H as <-. constructor.
Qed.

Lemma entryDocuments_from_entry folder typePath entry ds :
  entryDocs folder typePath entry = Ok ds ->
  Forall (Laws.from_entry folder entry) ds.
Proof.
  unfold entryDocuments. intros H.
  destruct (isDirectory entry) eqn:Hdir.
  - bind_inv H. destruct (hasBody x).
    + bind_inv H. bind_inv H. injection H as <-.
      constructor; [|constructor].
      split; [split; [|split]|]; cbn [type id category].
      * reflexivity.
      * apply startsWith_folder.
      * intros c Hc. destruct (folder =? "projects") eqn:Et; [|discriminate].
        apply String.eqb_eq in Et. injection Hc as <-. left. now subst.
      * intros c Hc. destruct (folder =? "projects"); [|discriminate].
        now injection Hc as <-.
    + apply Forall_forall. intros d Hd.
      destruct (for_each_In _ _ _ _ H Hd) as (s & ds' & _ & Hs & Hin).
      pose proof (proj1 (Forall_forall _ _)
                    (subEntryDocuments_placed _ _ _ _ _ Hs) d Hin)
        as (Hty & Hcat & seg & Hid).
      split; [split; [|split]|].
      * exact Hty.
      * rewrite Hid. apply startsWith_folder.
      * intros c Hc. rewrite Hcat in Hc. injection Hc as <-. right. eauto.
      * intros c Hc. rewrite Hcat in Hc. now injection Hc as <-.
  - destruct (Js.endsWith (name entry) ".md").
    + bind_inv H. injection H as <-.
      constructor; [|constructor].
      split; [split; [|split]|]; cbn [type id category].
      * reflexivity.
      * apply startsWith_folder.
      * discriminate.
      * discriminate.
    + injection H as <-. constructor.
Qed.

Lemma collectDocuments_well_placed pushed :
  collect = Ok pushed -> Forall Laws.well_placed pushed.
Proof.
  unfold collectDocuments. intros H.
  apply Forall_forall. intros d Hd.
  destruct (for_each_In _ _ _ _ H Hd) as (t & ds & Ht & Hds & Hin).
  exists t. split; [exact Ht|].
  unfold typeDocuments in Hds.
  destruct (negb _); [injection Hds as <-; destruct Hin|].
  bind_inv Hds.
  destruct (for_each_In _ _ _ _ Hds Hin) as (e & es & _ & He & Hin').
  exact (proj1 (proj1 (Forall_forall _ _)
                  (entryDocuments_from_entry _ _ _ _ He) d Hin')).
Qed.

Lemma sorted_listing_well_placed docs :
  listing = Ok docs -> Forall Laws.well_placed docs.
Proof.
  intros H.
  destruct (getAllDocuments_inv _ _ _ _ _ _ H) as (pushed & Hc & ->).
  eapply Permutation_Forall; [apply sort_Permutation|].
  now apply collectDocuments_well_placed.
Qed.

Lemma well_placed_type (d : DocumentMeta) :
  Laws.well_placed d -> In (type d) ["project"; "journal"; "concept"].
Proof.
  intros (t & Ht & Hty & _). rewrite Hty.
  unfold types in Ht. cbn [In] in Ht.
  destruct Ht as [<-|[<-|[<-|[]]]]; cbn; auto.
Qed.

(** X5.  Every record of the listing sits under one of the three type
    folders: its type is the folder's name without the last letter, its
    identifier starts with the folder, and its category, when present, is
    the segment that follows: the identifier is [projects/category] itself
    for a project document folder and continues [folder/category/...]
    otherwise.  In particular the type is project, journal or concept. *)
Theorem listing_is_well_placed :
  forall docs,
    listing = Ok docs ->
    Forall Laws.well_placed docs
    /\ Forall (fun d => In (type d) ["project"; "journal"; "concept"]) docs.
Proof.
  intros docs H.
  pose proof (sorted_listing_well_placed _ H) as Hw.
  split; [exact Hw|].
  eapply Forall_impl; [|exact Hw].
  exact well_placed_type.
Qed.

(* ----------------------------------------------------------------- *)
(** *** [getCategories] *)

Lemma typeDocuments_categories folder ds :
  typeDocs folder = Ok ds ->
  exists cs,
    categoriesOf folder = Ok cs
    /\ forall d c,
        In d ds -> category d = Some c ->
        exists tc,
          In tc cs /\ tc_type tc = folder
          /\ type d = Js.drop_last folder /\ In c (categories tc).
Proof.
  unfold typeDocuments, typeCategories. intros H.
  destruct (negb _).
  { injection H as <-. exists []. split; [reflexivity|]. intros d c []. }
  bind_inv H. rewrite Hx. cbn [bind]. eexists. split; [reflexivity|].
  intros d c Hd Hc.
  destruct (for_each_In _ _ _ _ H Hd) as (e & es & He & Hes & Hin).
  destruct (proj1 (Forall_forall _ _)
              (entryDocuments_from_entry _ _ _ _ Hes) d Hin)
    as ((Hty & _) & Hcat).
  destruct (Hcat c Hc) as [Hdir ->].
  eexists. split; [left; reflexivity|]. cbn.
  split; [reflexivity|]. split; [exact Hty|].
  apply in_map. apply filter_In. auto.
Qed.

Lemma for_each_categories (l : list string) pushed :
  for_each typeDocs l = Ok pushed ->
  exists cats,
    for_each categoriesOf l = Ok cats
    /\ forall d c,
        In d pushed -> category d = Some c ->
        exists tc,
          In tc cats /\ In (tc_type tc) l
          /\ type d = Js.drop_last (tc_type tc) /\ In c (categories tc).
Proof.
  revert pushed. induction l as [|t l IH]; intros pushed H.
  - injection H as <-. exists []. split; [reflexivity|]. intros d c [].
  - apply for_each_cons_inv in H as (ds & more & Ht & Hl & ->).
    destruct (typeDocuments_categories _ _ Ht) as (cs & Hcs & Hcov).
    destruct (IH _ Hl) as (cats & Hcats & Hcov').
    exists (cs ++ cats)%list. cbn [for_each]. rewrite Hcs, Hcats.
    split; [reflexivity|].
    intros d c Hd Hc. apply in_app_or in Hd as [Hd|Hd].
    + destruct (Hcov d c Hd Hc) as (tc & Hin & Htc & Hty & Hcat).
      exists tc. rewrite Htc. repeat split; auto using in_or_app, in_eq.
    + destruct (Hcov' d c Hd Hc) as (tc & Hin & Htc & Hty & Hcat).
      exists tc. repeat split; auto using in_or_app, in_cons.
Qed.

(** X6.  [getCategories] succeeds whenever the listing does, and covers
    it: every category carried by a record of the listing is listed among
    the categories of the record's type folder. *)
Theorem getCategories_covers_listing :
  forall docs,
    listing = Ok docs ->
    exists cats,
      getCategories BRAIN_PATH fs = Ok cats
      /\ forall d c,
          In d docs -> category d = Some c ->
          exists tc,
            In tc cats
            /\ type d = Js.drop_last (tc_type tc)
            /\ In c (categories tc).
Proof.
  intros docs H.
  destruct (getAllDocuments_inv _ _ _ _ _ _ H) as (pushed & Hc & ->).
  destruct (for_each_categories _ _ Hc) as (cats & Hcats & Hcov).
  exists cats. split; [exact Hcats|].
  intros d c Hd Hcat.
  assert (Hd' : In d pushed).
  { eapply Permutation_in; [|exact Hd].
    apply Permutation_sym, sort_Permutation. }
  destruct (Hcov d c Hd' Hcat) as (tc & Hin & _ & Hty & Hc').
  eauto.
Qed.

(* ----------------------------------------------------------------- *)
(** *** The endpoint *)

Lemma for_each_Throw {A B : Type} (f : A -> result (list B)) l x e :
  In x l -> f x = Throw e -> exists e', for_each f l = Throw e'.
Proof.
  induction l as [|y l IH]; intros Hin Hx; [destruct Hin|].
  cbn [for_each]. destruct Hin as [->|Hin].
  - rewrite Hx. cbn. eauto.
  - destruct (f y) as [ds|e0]; cbn [bind]; [|eauto].
    destruct (IH Hin Hx) as [e' ->]. cbn. eauto.
Qed.

Lemma typeDocuments_Throw type entries entry e :
  Fs.existsSync fs (Path.join BRAIN_PATH type) = true ->
  Fs.readdirSync fs (Path.join BRAIN_PATH type) = Ok entries ->
  In entry entries ->
  entryDocs type (Path.join BRAIN_PATH type) entry = Throw e ->
  exists e', typeDocs type = Throw e'.
Proof.
  intros Hex Hls Hin He. unfold typeDocuments.
  rewrite Hex, Hls. cbn [negb bind]. now apply for_each_Throw with entry e.
Qed.

Lemma getAllDocuments_Throw type e :
  In type types -> typeDocs type = Throw e ->
  exists e', listing = Throw e'.
Proof.
  intros Ht He. unfold getAllDocuments, collectDocuments.
  destruct (for_each_Throw typeDocs types type e Ht He) as [e' ->].
  cbn. eauto.
Qed.

Lemma for_each_Throw_inv {A B : Type} (f : A -> result (list B)) l e :
  for_each f l = Throw e -> exists x, In x l /\ f x = Throw e.
Proof.
  induction l as [|y l IH]; intros H; [discriminate|].
  cbn [for_each] in H. destruct (f y) as [ds|e0] eqn:Hy; cbn [bind] in H.
  - destruct (for_each f l) as [more|e1]; cbn [bind] in H; [discriminate|].
    destruct (IH H) as (x & Hx & Hfx). exists x. auto using in_cons.
  - injection H as <-. exists y. auto using in_eq.
Qed.

(** X7.  [getCategories] has no error handling of its own: it raises
    exactly when one of the three type paths exists but cannot be listed,
    with the error of the first such path, and then the listing raises as
    well. *)
Theorem getCategories_raises_with_listing :
  (forall e,
      getCategories BRAIN_PATH fs = Throw e ->
      exists type,
        In type types
        /\ Fs.existsSync fs (Path.join BRAIN_PATH type) = true
        /\ Fs.readdirSync fs (Path.join BRAIN_PATH type) = Throw e)
  /\ (forall type e,
      In type types ->
      Fs.existsSync fs (Path.join BRAIN_PATH type) = true ->
      Fs.readdirSync fs (Path.join BRAIN_PATH type) = Throw e ->
      (exists e', getCategories BRAIN_PATH fs = Throw e')
      /\ (exists e', listing = Throw e')).
Proof.
  split.
  - intros e H. unfold getCategories in H.
    apply for_each_Throw_inv in H as (t & Ht & H).
    exists t. split; [exact Ht|].
    unfold typeCategories in H.
    destruct (Fs.existsSync fs _); cbn [negb] in H; [|discriminate].
    destruct (Fs.readdirSync fs _); cbn [bind] in H; [discriminate|].
    injection H as <-. split; reflexivity.
  - intros t e Ht Hex Hls. split.
    + apply for_each_Throw with t e; [exact Ht|].
      unfold typeCategories. now rewrite Hex, Hls.
    + apply getAllDocuments_Throw with t e; [exact Ht|].
      unfold typeDocuments. now rewrite Hex, Hls.
Qed.

(** X8.  The endpoint is all or nothing.  It answers 200 with the whole
    sorted listing when the indexer returns; and one entry that cannot be
    read (a markdown file whose frontmatter does not parse, say), or one
    type folder that cannot be listed, makes it answer 500 with the error
    body and none of the other documents. *)
Theorem GET_all_or_nothing :
  (forall docs,
      listing = Ok docs ->
      GET matter JSON_parse localeCompare BRAIN_PATH fs
      = mkResponse 200 (DocumentsBody docs))
  /\ (forall type entries entry e,
      In type types ->
      Fs.existsSync fs (Path.join BRAIN_PATH type) = true ->
      Fs.readdirSync fs (Path.join BRAIN_PATH type) = Ok entries ->
      In entry entries ->
      isDirectory entry = false ->
      Js.endsWith (name entry) ".md" = true ->
      getBody (Path.join (Path.join BRAIN_PATH type) (name entry))
        = Throw e ->
      GET matter JSON_parse localeCompare BRAIN_PATH fs
      = mkResponse 500 (ErrorBody "Failed to fetch documents"))
  /\ (forall type entries entry e,
      In type types ->
      Fs.existsSync fs (Path.join BRAIN_PATH type) = true ->
      Fs.readdirSync fs (Path.join BRAIN_PATH type) = Ok entries ->
      In entry entries ->
      entryDocs type (Path.join BRAIN_PATH type) entry = Throw e ->
      GET matter JSON_parse localeCompare BRAIN_PATH fs
      = mkResponse 500 (ErrorBody "Failed to fetch documents"))
  /\ (forall type e,
      In type types ->
      Fs.existsSync fs (Path.join BRAIN_PATH type) = true ->
      Fs.readdirSync fs (Path.join BRAIN_PATH type) = Throw e ->
      GET matter JSON_parse localeCompare BRAIN_PATH fs
      = mkResponse 500 (ErrorBody "Failed to fetch documents")).
Proof.
  assert (Hentry : forall type entries entry e,
    In type types ->
    Fs.existsSync fs (Path.join BRAIN_PATH type) = true ->
    Fs.readdirSync fs (Path.join BRAIN_PATH type) = Ok entries ->
    In entry entries ->
    entryDocs type (Path.join BRAIN_PATH type) entry = Throw e ->
    GET matter JSON_parse localeCompare BRAIN_PATH fs
    = mkResponse 500 (ErrorBody "Failed to fetch documents")).
  { intros type entries entry e Ht Hex Hls Hin He.
    destruct (typeDocuments_Throw _ _ _ _ Hex Hls Hin He) as [e1 H1].
    destruct (getAllDocuments_Throw _ _ Ht H1) as [e2 H2].
    unfold GET. now rewrite H2. }
  repeat apply conj.
  - intros docs H. unfold GET. now rewrite H.
  - intros type entries entry e Ht Hex Hls Hin Hdir Hmd Hbody.
    apply (Hentry type entries entry e Ht Hex Hls Hin).
    unfold entryDocuments. now rewrite Hdir, Hmd, Hbody.
  - exact Hentry.
  - intros type e Ht Hex Hls.
    assert (H1 : typeDocs type = Throw e).
    { unfold typeDocuments. now rewrite Hex, Hls. }
    destruct (getAllDocuments_Throw _ _ Ht H1) as [e2 H2].
    unfold GET. now rewrite H2.
Qed.

(* ----------------------------------------------------------------- *)
(** *** The primary body file *)

Lemma existsSync_false_read (p : string) :
  Fs.existsSync fs p = false -> Fs.readFileSync fs p = Throw ENOENT.
Proof.
  unfold Fs.existsSync, Fs.readFileSync.
  destruct (Fs.lookup fs p) as [[d|es]|]; [discriminate..|reflexivity].
Qed.

(** X9.  [body.md] has priority over [index.md]: whenever [body.md]
    exists it is the file read, whatever [index.md] holds, and when it
    exists as a directory the read raises even though [index.md] could be
    read; [index.md] is read only when [body.md] does not exist; and with
    neither file, a path that is not itself an existing markdown file
    gives the empty body with empty frontmatter instead of an error. *)
Theorem getBodyContent_priority :
  (forall docPath s,
      Fs.readFileSync fs (Path.join docPath "body.md") = Ok s ->
      getBody docPath
      = (m <- matter s ;; Ok (mkBodyContent (snd m) (fst m))))
  /\ (forall docPath,
      Fs.statSync_isDirectory fs (Path.join docPath "body.md") = Ok true ->
      getBody docPath = Throw EISDIR)
  /\ (forall docPath s,
      Fs.existsSync fs (Path.join docPath "body.md") = false ->
      Fs.readFileSync fs (Path.join docPath "index.md") = Ok s ->
      getBody docPath
      = (m <- matter s ;; Ok (mkBodyContent (snd m) (fst m))))
  /\ (forall docPath,
      Fs.existsSync fs (Path.join docPath "body.md") = false ->
      Fs.existsSync fs (Path.join docPath "index.md") = false ->
      Js.endsWith docPath ".md" && Fs.existsSync fs docPath = false ->
      getBody docPath = Ok (mkBodyContent "" Partial.empty)).
Proof.
  repeat apply conj.
  - intros docPath s Hs. unfold getBodyContent.
    rewrite (readFileSync_exists _ _ _ Hs). cbn [negb andb].
    now rewrite (readFileSync_exists _ _ _ Hs), Hs.
  - intros docPath Hdir. unfold getBodyContent.
    assert (Hex : Fs.existsSync fs (Path.join docPath "body.md") = true).
    { unfold Fs.statSync_isDirectory in Hdir. unfold Fs.existsSync.
      destruct (Fs.lookup fs _) as [[d|es]|]; [reflexivity..|discriminate]. }
    rewrite Hex. cbn [negb andb]. rewrite Hex.
    unfold Fs.readFileSync. unfold Fs.statSync_isDirectory in Hdir.
    destruct (Fs.lookup fs _) as [[d|es]|]; [discriminate|reflexivity|
                                             discriminate].
  - intros docPath s Hno Hs. unfold getBodyContent.
    rewrite Hno, (readFileSync_exists _ _ _ Hs). cbn [negb andb].
    now rewrite (readFileSync_exists _ _ _ Hs), Hs.
  - intros docPath Hb Hi Hmd. unfold getBodyContent.
    rewrite Hb, Hi. cbn [negb andb]. now rewrite Hb, Hmd.
Qed.

End Listing.

(* ================================================================= *)
(** ** Further properties: the list page *)

Section HomePage.

Variable matter : string -> result (Partial.t * string).
Variable JSON_parse : string -> result Partial.t.
Variable localeCompare : string -> string -> Z.
Variable BRAIN_PATH : string.
Variable fs : node.
Variable toLowerCase : string -> string.
Variable inherited : string -> bool.

Local Abbreviation listing :=
  (getAllDocuments matter JSON_parse localeCompare BRAIN_PATH fs).
Local Abbreviation shown := (Home.shown toLowerCase).
Local Abbreviation filteredDocs := (Home.filteredDocs toLowerCase).
Local Abbreviation groupStep := (Home.groupStep inherited).
Local Abbreviation groupFrom := (Home.groupFrom inherited).
Local Abbreviation groupDocuments := (Home.groupDocuments inherited).


Lemma filter_partition3 {A : Type} (p1 p2 p3 : A -> bool) (l : list A) :
  Forall (fun x =>
            (p1 x = true /\ p2 x = false /\ p3 x = false)
            \/ (p1 x = false /\ p2 x = true /\ p3 x = false)
            \/ (p1 x = false /\ p2 x = false /\ p3 x = true)) l ->
  Permutation l (filter p1 l ++ filter p2 l ++ filter p3 l)%list.
Proof.
  induction 1 as [|x l Hx _ IH]; cbn [filter]; [constructor|].
  destruct Hx as [(-> & -> & ->)|[(-> & -> & ->)|(-> & -> & ->)]].
  - cbn. now constructor.
  - now apply Permutation_cons_app.
  - rewrite app_assoc. apply Permutation_cons_app. now rewrite <- app_assoc.
Qed.

Lemma shown_by_type (tab : Home.Tab) (d : DocumentMeta) :
  shown "" tab d
  = match tab with
    | Home.All => true
    | Home.Projects => type d =? "project"
    | Home.Journals => type d =? "journal"
    | Home.Concepts => type d =? "concept"
    end.
Proof. now destruct tab. Qed.

(* ----------------------------------------------------------------- *)
(** *** The grouping *)

Lemma bucket_push cat c doc g j k :
  Laws.bucket cat (Home.mkGroupedDocs (Home.push c doc g) j k)
  = if c =? cat
    then (Laws.bucket cat (Home.mkGroupedDocs g j k) ++ [doc])%list
    else Laws.bucket cat (Home.mkGroupedDocs g j k).
Proof.
  unfold Laws.bucket. cbn [Home.projects].
  induction g as [|[key docs] rest IH]; cbn [Home.push Home.own].
  - destruct (c =? cat); reflexivity.
  - destruct (String.eqb_spec key c) as [->|Hne]; cbn [Home.own].
    + destruct (c =? cat); reflexivity.
    + destruct (String.eqb_spec key cat) as [->|Hne'].
      * apply String.eqb_neq in Hne. rewrite String.eqb_sym in Hne.
        now rewrite Hne.
      * exact IH.
Qed.

Lemma count_push c doc g :
  List.length (List.concat (map snd (Home.push c doc g)))
  = S (List.length (List.concat (map snd g))).
Proof.
  induction g as [|[key docs] rest IH]; cbn [Home.push]; [reflexivity|].
  destruct (key =? c); cbn [map snd List.concat].
  - rewrite !length_app. cbn. lia.
  - rewrite !length_app, IH. lia.
Qed.

Lemma groupStep_Some g0 doc g1 :
  groupStep g0 doc = Some g1 ->
  Home.journals g1
  = (Home.journals g0 ++ filter (Laws.is_type "journal") [doc])%list
  /\ Home.concepts g1
     = (Home.concepts g0 ++ filter (Laws.is_type "concept") [doc])%list
  /\ (forall cat,
         Laws.bucket cat g1
         = (Laws.bucket cat g0
              ++ filter (fun d => Laws.is_type "project" d
                                  && (Laws.group_of d =? cat)) [doc])%list)
  /\ List.length (List.concat (map snd (Home.projects g1)))
     = List.length (List.concat (map snd (Home.projects g0)))
       + List.length (filter (Laws.is_type "project") [doc]).
Proof.
  unfold Home.groupStep, Laws.is_type, Laws.group_of. cbn [filter].
  destruct g0 as [p j k]. cbn [Home.journals Home.concepts Home.projects].
  destruct (String.eqb_spec (type doc) "project") as [Hp|Hp].
  - destruct (inherited _); [discriminate|]. intros [= <-].
    cbn [Home.journals Home.concepts Home.projects andb].
    rewrite Hp. cbn [String.eqb Ascii.eqb Bool.eqb].
    rewrite !app_nil_r, count_push. repeat split; [|cbn; lia].
    intros cat. rewrite bucket_push.
    destruct (_ =? cat); [reflexivity|now rewrite app_nil_r].
  - cbn [andb].
    destruct (String.eqb_spec (type doc) "journal") as [Hj|Hj].
    + intros [= <-]. cbn [Home.journals Home.concepts Home.projects].
      rewrite Hj. cbn [String.eqb Ascii.eqb Bool.eqb].
      rewrite !app_nil_r. repeat split; [|cbn; lia].
      intros cat. now rewrite app_nil_r.
    + destruct (String.eqb_spec (type doc) "concept") as [Hc|Hc].
      * intros [= <-]. cbn [Home.journals Home.concepts Home.projects].
        rewrite !app_nil_r. repeat split; [|cbn; lia].
        intros cat. now rewrite app_nil_r.
      * intros [= <-]. cbn [Home.journals Home.concepts Home.projects].
        rewrite !app_nil_r. repeat split; [|cbn; lia].
        intros cat. now rewrite app_nil_r.
Qed.

Lemma groupFrom_Some g0 data g :
  groupFrom g0 data = Some g ->
  Home.journals g
  = (Home.journals g0 ++ filter (Laws.is_type "journal") data)%list
  /\ Home.concepts g
     = (Home.concepts g0 ++ filter (Laws.is_type "concept") data)%list
  /\ (forall cat,
         Laws.bucket cat g
         = (Laws.bucket cat g0
              ++ filter (fun d => Laws.is_type "project" d
                                  && (Laws.group_of d =? cat)) data)%list)
  /\ List.length (List.concat (map snd (Home.projects g)))
     = List.length (List.concat (map snd (Home.projects g0)))
       + List.length (filter (Laws.is_type "project") data).
Proof.
  revert g0. induction data as [|doc rest IH]; intros g0 H.
  - injection H as <-. cbn [filter]. rewrite !app_nil_r.
    repeat split; [|cbn; lia]. intros cat. now rewrite app_nil_r.
  - cbn [Home.groupFrom] in H.
    destruct (groupStep g0 doc) as [g1|] eqn:Hstep; [|discriminate].
    destruct (IH _ H) as (Hj & Hc & Hb & Hn).
    destruct (groupStep_Some _ _ _ Hstep) as (Hj1 & Hc1 & Hb1 & Hn1).
    change (doc :: rest) with ([doc] ++ rest)%list.
    rewrite !filter_app, !length_app.
    rewrite Hj, Hc, Hn, Hj1, Hc1, Hn1, <- !app_assoc.
    repeat split; [|lia].
    intros cat. now rewrite Hb, Hb1, filter_app, <- app_assoc.
Qed.

(** X12.  When the grouping of the fetched documents completes, the
    journals and the concepts are the documents of that type in fetched
    order, and the bucket of each category holds exactly the projects
    whose category is that one, those without a category going to
    [uncategorized], in fetched order. *)
Theorem grouping_buckets :
  forall data g,
    groupDocuments data = Some g ->
    Home.journals g = filter (Laws.is_type "journal") data
    /\ Home.concepts g = filter (Laws.is_type "concept") data
    /\ forall cat,
        Laws.bucket cat g
        = filter (fun d => Laws.is_type "project" d
                           && (Laws.group_of d =? cat)) data.
Proof.
  intros data g H. unfold Home.groupDocuments in H.
  destruct (groupFrom_Some _ _ _ H) as (Hj & Hc & Hb & _).
  split; [exact Hj|]. split; [exact Hc|]. intros cat. now rewrite Hb.
Qed.

Lemma groupFrom_None g0 data :
  groupFrom g0 data = None <->
  exists d,
    In d data /\ type d = "project" /\ inherited (Laws.group_of d) = true.
Proof.
  revert g0. induction data as [|doc rest IH]; intros g0.
  - cbn. split; [discriminate|]. now intros (d & [] & _).
  - cbn [Home.groupFrom].
    destruct (groupStep g0 doc) as [g1|] eqn:Hstep.
    + rewrite IH. split.
      * intros (d & Hd & H). exists d. split; [now right|exact H].
      * intros (d & [<-|Hd] & Hp & Hi); [|eauto].
        unfold Home.groupStep in Hstep. rewrite Hp in Hstep.
        cbn [String.eqb Ascii.eqb Bool.eqb] in Hstep.
        unfold Laws.group_of in Hi. now rewrite Hi in Hstep.
    + split; [|reflexivity]. intros _. exists doc.
      split; [now left|]. unfold Home.groupStep in Hstep.
      destruct (String.eqb_spec (type doc) "project") as [Hp|Hp].
      * split; [exact Hp|]. unfold Laws.group_of.
        now destruct (inherited _).
      * destruct (type doc =? "journal"); [discriminate|].
        destruct (type doc =? "concept"); discriminate.
Qed.

(** X13.  The grouping of the fetched documents raises exactly when some
    project's category (or [uncategorized] when it has none) is a property
    name that every object inherits, such as [constructor]: the bucket
    looked up is then the inherited member and has no [push]. *)
Theorem grouping_raises_on_inherited_category :
  forall data,
    groupDocuments data = None <->
    exists d,
      In d data /\ type d = "project" /\ inherited (Laws.group_of d) = true.
Proof. intros data. apply groupFrom_None. Qed.

Lemma filter_split {A : Type} (p : A -> bool) (l : list A) :
  Permutation (filter p l ++ filter (fun x => negb (p x)) l) l.
Proof.
  induction l as [|x l IH]; cbn [filter]; [constructor|].
  destruct (p x); cbn [negb app].
  - now constructor.
  - symmetry. apply Permutation_cons_app. now symmetry.
Qed.

Lemma entries_Permutation {A : Type} (o : list (string * A)) :
  Permutation (Home.entries o) o.
Proof.
  unfold Home.entries.
  rewrite <- (sort_Permutation Home.by_index (filter Home.is_index o)).
  apply filter_split.
Qed.

Lemma concat_Permutation {A : Type} (l l' : list (list A)) :
  Permutation l l' -> Permutation (concat l) (concat l').
Proof.
  induction 1; cbn [concat].
  - constructor.
  - now apply Permutation_app_head.
  - rewrite !app_assoc. apply Permutation_app_tail, Permutation_app_comm.
  - etransitivity; eassumption.
Qed.

(** X14.  When the grouping completes, the count shown on each tab is the
    number of documents the tab shows without a search query: the number
    of documents the filter keeps, and the number of cards of the tab. *)
Theorem tab_counts_match_tabs :
  forall data g,
    groupDocuments data = Some g ->
    forall tab,
      Home.tabCount tab data g = List.length (filteredDocs "" tab data)
      /\ Home.tabCount tab data g
         = List.length (Home.cards toLowerCase "" tab data g).
Proof.
  intros data g H tab. unfold Home.groupDocuments in H.
  destruct (groupFrom_Some _ _ _ H) as (Hj & Hc & _ & Hn).
  cbn in Hj, Hc, Hn. unfold Home.cards, Home.filteredDocs.
  destruct tab; cbn [Home.tabCount Home.tab_name String.eqb Ascii.eqb
                     Bool.eqb andb].
  - rewrite forallb_filter_id; [split; reflexivity|].
    apply forallb_forall. intros d _. apply shown_by_type.
  - split; [rewrite Hn; reflexivity|].
    apply Permutation_length, concat_Permutation, Permutation_map.
    symmetry. apply entries_Permutation.
  - rewrite Hj. split; reflexivity.
  - rewrite Hc. split; reflexivity.
Qed.

End HomePage.

(* ================================================================= *)
(** ** Further properties: the tabs of the list page *)

Section Tabs.

Variable matter : string -> result (Partial.t * string).
Variable JSON_parse : string -> result Partial.t.
Variable localeCompare : string -> string -> Z.
Variable BRAIN_PATH : string.
Variable fs : node.
Variable toLowerCase : string -> string.
Variable inherited : string -> bool.

Local Abbreviation listing :=
  (getAllDocuments matter JSON_parse localeCompare BRAIN_PATH fs).
Local Abbreviation filteredDocs := (Home.filteredDocs toLowerCase).
Local Abbreviation groupDocuments := (Home.groupDocuments inherited).
Local Abbreviation groupedAfter := (Home.groupedAfter inherited).
Local Abbreviation cards := (Home.cards toLowerCase).

Lemma push_cards c doc (o : list (string * list DocumentMeta)) :
  Permutation (concat (map snd (Home.push c doc o)))
    (concat (map snd o) ++ [doc]).
Proof.
  induction o as [|[key docs] rest IH]; cbn [Home.push]; [reflexivity|].
  destruct (key =? c); cbn [map snd concat].
  - rewrite <- !app_assoc. apply Permutation_app_head.
    apply Permutation_app_comm.
  - rewrite <- app_assoc. now apply Permutation_app_head.
Qed.

Lemma groupFrom_cards g0 data g :
  Home.groupFrom inherited g0 data = Some g ->
  Permutation (concat (map snd (Home.projects g)))
    (concat (map snd (Home.projects g0))
       ++ filter (Laws.is_type "project") data).
Proof.
  revert g0. induction data as [|doc rest IH]; intros g0 H.
  - injection H as <-. cbn [filter]. now rewrite app_nil_r.
  - cbn [Home.groupFrom] in H.
    destruct (Home.groupStep inherited g0 doc) as [g1|] eqn:Hstep;
      [|discriminate].
    rewrite (IH _ H). cbn [filter]. unfold Laws.is_type at 2.
    unfold Home.groupStep in Hstep.
    destruct (type doc =? "project").
    + destruct (inherited _); [discriminate|]. injection Hstep as <-.
      cbn [Home.projects]. rewrite push_cards, <- app_assoc. reflexivity.
    + destruct (type doc =? "journal"); [injection Hstep as <-; reflexivity|].
      destruct (type doc =? "concept"); injection Hstep as <-; reflexivity.
Qed.

(** X11.  Without a search query, the tab All shows every fetched
    document.  When the grouping of the listing completes, the three type
    tabs split the listing of the indexer between them: every record is
    shown on exactly one of Projects, Journals and Concepts.  When the
    grouping raises, the Projects tab shows no card, although the listing
    holds a project. *)
Theorem tabs_partition_listing :
  forall docs,
    listing = Ok docs ->
    cards "" Home.All docs (groupedAfter docs) = docs
    /\ (groupDocuments docs <> None ->
        Permutation docs
          (cards "" Home.Projects docs (groupedAfter docs)
             ++ cards "" Home.Journals docs (groupedAfter docs)
             ++ cards "" Home.Concepts docs (groupedAfter docs))%list)
    /\ (groupDocuments docs = None ->
        cards "" Home.Projects docs (groupedAfter docs) = []
        /\ exists d, In d docs /\ type d = "project").
Proof.
  intros docs H.
  assert (Hshown : forall tab d,
    Home.shown toLowerCase "" tab d
    = match tab with
      | Home.All => true
      | Home.Projects => type d =? "project"
      | Home.Journals => type d =? "journal"
      | Home.Concepts => type d =? "concept"
      end) by (intros tab d; now destruct tab).
  split; [|split].
  - unfold Home.cards. cbn [Home.tab_name String.eqb Ascii.eqb Bool.eqb andb].
    unfold Home.filteredDocs. apply forallb_filter_id.
    apply forallb_forall. intros d _. apply Hshown.
  - intros Hg. unfold Home.groupedAfter.
    destruct (groupDocuments docs) as [g|] eqn:E; [|now destruct Hg].
    unfold Home.cards.
    cbn [Home.tab_name String.eqb Ascii.eqb Bool.eqb andb].
    unfold Home.groupDocuments in E.
    rewrite (concat_Permutation _ _
               (Permutation_map snd (entries_Permutation (Home.projects g)))).
    rewrite (groupFrom_cards _ _ _ E). cbn [Home.projects map concat app].
    unfold Home.filteredDocs. apply filter_partition3.
    eapply Forall_impl;
      [|exact (sorted_listing_well_placed _ _ _ _ _ _ H)].
    intros d Hd. apply well_placed_type in Hd.
    rewrite !Hshown. unfold Laws.is_type. cbn [In] in Hd.
    destruct Hd as [<-|[<-|[<-|[]]]]; cbn; auto.
  - intros Hg. unfold Home.groupedAfter. rewrite Hg. split; [reflexivity|].
    apply (proj1 (groupFrom_None inherited _ _)) in Hg
      as (d & Hd & Ht & _).
    eauto.
Qed.

End Tabs.

(* ================================================================= *)
(** ** Further properties on concrete trees and a concrete page *)

Section FurtherExamples.

Local Abbreviation listing fs :=
  (getAllDocuments Demo.matter Demo.JSON_parse Demo.localeCompare
     Demo.BRAIN_PATH fs).
Local Abbreviation load fs :=
  (getDocument Demo.matter Demo.JSON_parse Demo.BRAIN_PATH fs).
Local Abbreviation entryDocs fs :=
  (entryDocuments Demo.matter Demo.JSON_parse fs).
Local Abbreviation subEntryDocs fs :=
  (subEntryDocuments Demo.matter Demo.JSON_parse fs).
Local Abbreviation getBody fs := (getBodyContent Demo.matter fs).
Local Abbreviation respond fs :=
  (GET Demo.matter Demo.JSON_parse Demo.localeCompare Demo.BRAIN_PATH fs).
Local Abbreviation fetched := [Cases.doc_plan; Cases.doc_notes;
                               Cases.doc_january].

Ltac plain_name := split; [reflexivity|repeat split; discriminate].
Ltac evaluated := vm_compute; reflexivity.
Ltac a_type := cbn; tauto.



(** X3 on [journals/my-note.md], loaded back with the title [my note], and
    on [concepts/idea.md], loaded back as it was listed. *)
Lemma roundtrip_flat_file_witness :
  (exists d,
      entryDocs Demo.fs_flat_hyphen "journals"
        (Path.join Demo.BRAIN_PATH "journals") (mkDirent "my-note.md" false)
      = Ok [d]
      /\ id d = "journals/my-note"
      /\ title d = "my-note"
      /\ load Demo.fs_flat_hyphen (id d)
         = Ok (Some (mkDocument (Laws.with_title "my note" d) "Note" None)))
  /\ (exists d,
      entryDocs Cases.fs_flat_plain "concepts"
        (Path.join Demo.BRAIN_PATH "concepts") (mkDirent "idea.md" false)
      = Ok [d]
      /\ load Cases.fs_flat_plain (id d)
         = Ok (Some (mkDocument d "Idea" None))).
Proof.
  split.
  - destruct (roundtrip_flat_file Demo.matter Demo.JSON_parse
                Demo.BRAIN_PATH Demo.fs_flat_hyphen "journals"
                (mkDirent "my-note.md" false) "my-note"
                (mkBodyContent "Note" Partial.empty))
      as (d & Hd & Hid & Hload & _);
      [a_type|plain_name|reflexivity|reflexivity|reflexivity|evaluated..|].
    exists d. split; [exact Hd|]. split; [exact Hid|].
    split; [|exact Hload].
    assert (E : Ok [d] = Ok [mkDocumentMeta "journals/my-note" "my-note"
                               "journal" None (Some "my-note") (Some [])
                               None])
      by (rewrite <- Hd; evaluated).
    injection E as ->. reflexivity.
  - destruct (roundtrip_flat_file Demo.matter Demo.JSON_parse
                Demo.BRAIN_PATH Cases.fs_flat_plain "concepts"
                (mkDirent "idea.md" false) "idea"
                (mkBodyContent "Idea" Partial.empty))
      as (d & Hd & _ & _ & Hsame);
      [a_type|plain_name|reflexivity|reflexivity|reflexivity|evaluated..|].
    exists d. split; [exact Hd|]. apply Hsame. right. reflexivity.
Defined.

(** X4 on [projects/cat/my-note.md], which has no frontmatter date: the
    record is loaded back with the date [my-note]. *)
Lemma roundtrip_subdocument_file_witness :
  exists d,
    subEntryDocs Demo.fs_subdoc_file "projects" "cat"
      (Path.join (Path.join Demo.BRAIN_PATH "projects") "cat")
      (mkDirent "my-note.md" false) = Ok [d]
    /\ id d = "projects/cat/my-note"
    /\ load Demo.fs_subdoc_file (id d)
       = Ok (Some (mkDocument (Laws.with_date (Some "my-note") d) "Note"
                     None))
    /\ load Demo.fs_subdoc_file (id d)
       <> Ok (Some (mkDocument d "Note" None)).
Proof.
  destruct (roundtrip_subdocument_file Demo.matter Demo.JSON_parse
              Demo.BRAIN_PATH Demo.fs_subdoc_file "projects" "cat"
              (mkDirent "my-note.md" false) "my-note"
              (mkBodyContent "Note" Partial.empty))
    as (d & Hd & Hid & Hload & _ & Hdiff);
    [a_type|plain_name|plain_name|reflexivity|reflexivity|reflexivity
    |evaluated..|].
  exists d. split; [exact Hd|]. split; [exact Hid|].
  split; [exact Hload|]. exact (Hdiff eq_refl).
Defined.

(** X5 on the tree of two journals and a project category. *)
Lemma listing_is_well_placed_witness :
  exists docs,
    listing Demo.fs_distinct = Ok docs
    /\ List.length docs = 4%nat
    /\ Forall Laws.well_placed docs
    /\ Forall (fun d => In (type d) ["project"; "journal"; "concept"]) docs.
Proof.
  assert (E : exists docs,
             listing Demo.fs_distinct = Ok docs
             /\ List.length docs = 4%nat)
    by (eexists; split; [evaluated|reflexivity]).
  destruct E as (docs & E & Hn).
  exists docs. split; [exact E|]. split; [exact Hn|].
  exact (listing_is_well_placed _ _ _ _ _ docs E).
Defined.

(** X6 on the same tree: both records of the category [quizzydots] find
    it among the categories of [projects]. *)
Lemma getCategories_covers_listing_witness :
  exists docs cats,
    listing Demo.fs_distinct = Ok docs
    /\ getCategories Demo.BRAIN_PATH Demo.fs_distinct = Ok cats
    /\ cats = [mkTypeCategories "projects" ["quizzydots"];
               mkTypeCategories "journals" []]
    /\ forall d c,
        In d docs -> category d = Some c ->
        exists tc,
          In tc cats
          /\ type d = Js.drop_last (tc_type tc)
          /\ In c (categories tc).
Proof.
  assert (E : exists docs, listing Demo.fs_distinct = Ok docs)
    by (eexists; evaluated).
  destruct E as (docs & E).
  destruct (getCategories_covers_listing _ _ _ _ _ docs E)
    as (cats & Hcats & Hcov).
  exists docs, cats. split; [exact E|]. split; [exact Hcats|].
  split; [|exact Hcov].
  assert (E' : Ok cats
               = Ok [mkTypeCategories "projects" ["quizzydots"];
                     mkTypeCategories "journals" []])
    by (rewrite <- Hcats; evaluated).
  now injection E'.
Defined.

(** X7 on the tree where [journals] is a plain file. *)
Lemma getCategories_raises_with_listing_witness :
  (exists e, getCategories Demo.BRAIN_PATH Cases.fs_type_is_file = Throw e)
  /\ (exists e, listing Cases.fs_type_is_file = Throw e).
Proof.
  apply (proj2 (getCategories_raises_with_listing Demo.matter
                  Demo.JSON_parse Demo.localeCompare Demo.BRAIN_PATH
                  Cases.fs_type_is_file) "journals" ENOTDIR).
  - a_type.
  - evaluated.
  - evaluated.
Defined.

(** X8: 200 on the tree of two journals and a project category, 500 when
    one journal has malformed frontmatter, and 500 when [journals] is a
    plain file. *)
Lemma GET_all_or_nothing_witness :
  (exists docs,
      listing Demo.fs_distinct = Ok docs
      /\ respond Demo.fs_distinct = mkResponse 200 (DocumentsBody docs))
  /\ respond Cases.fs_broken_entry
     = mkResponse 500 (ErrorBody "Failed to fetch documents")
  /\ respond Cases.fs_type_is_file
     = mkResponse 500 (ErrorBody "Failed to fetch documents").
Proof.
  split; [|split].
  - assert (E : exists docs, listing Demo.fs_distinct = Ok docs)
      by (eexists; evaluated).
    destruct E as (docs & E). exists docs. split; [exact E|].
    exact (proj1 (GET_all_or_nothing _ _ _ _ _) docs E).
  - apply (proj1 (proj2 (GET_all_or_nothing Demo.matter Demo.JSON_parse
                           Demo.localeCompare Demo.BRAIN_PATH
                           Cases.fs_broken_entry))
             "journals"
             [mkDirent "2024-01-01.md" false; mkDirent "broken.md" false]
             (mkDirent "broken.md" false) YAMLException).
    + a_type.
    + evaluated.
    + evaluated.
    + cbn; tauto.
    + reflexivity.
    + reflexivity.
    + evaluated.
  - apply (proj2 (proj2 (proj2 (GET_all_or_nothing Demo.matter
                                  Demo.JSON_parse Demo.localeCompare
                                  Demo.BRAIN_PATH Cases.fs_type_is_file)))
             "journals" ENOTDIR).
    + a_type.
    + evaluated.
    + evaluated.
Defined.

(** X9 on [projects/foo/] with both files, with [body.md] a directory,
    with [index.md] only, and on a path that does not exist. *)
Lemma getBodyContent_priority_witness :
  getBody Cases.fs_body_and_index (Path.join Demo.projects_path "foo")
  = Ok (mkBodyContent "Body text" Partial.empty)
  /\ getBody Cases.fs_body_is_directory (Path.join Demo.projects_path "foo")
     = Throw EISDIR
  /\ getBody Cases.fs_index_only (Path.join Demo.projects_path "foo")
     = Ok (mkBodyContent "Index text" Partial.empty)
  /\ getBody Cases.fs_index_only (Path.join Demo.projects_path "none")
     = Ok (mkBodyContent "" Partial.empty).
Proof.
  split; [|split; [|split]].
  - rewrite (proj1 (getBodyContent_priority Demo.matter
                      Cases.fs_body_and_index)
               (Path.join Demo.projects_path "foo") "Body text");
      evaluated.
  - apply (proj1 (proj2 (getBodyContent_priority Demo.matter
                           Cases.fs_body_is_directory))).
    evaluated.
  - rewrite (proj1 (proj2 (proj2 (getBodyContent_priority Demo.matter
                                    Cases.fs_index_only)))
               (Path.join Demo.projects_path "foo") "Index text");
      evaluated.
  - apply (proj2 (proj2 (proj2 (getBodyContent_priority Demo.matter
                                  Cases.fs_index_only)))); evaluated.
Defined.


(** X11 on the tree of two journals and a project category, whose grouping
    completes, and on the tree with the project category [constructor],
    whose grouping raises. *)
Lemma tabs_partition_listing_witness :
  (exists docs,
      listing Demo.fs_distinct = Ok docs
      /\ Home.cards Cases.toLowerCase "" Home.All docs
           (Home.groupedAfter Cases.inherited docs) = docs
      /\ Permutation docs
           (Home.cards Cases.toLowerCase "" Home.Projects docs
              (Home.groupedAfter Cases.inherited docs)
              ++ Home.cards Cases.toLowerCase "" Home.Journals docs
                   (Home.groupedAfter Cases.inherited docs)
              ++ Home.cards Cases.toLowerCase "" Home.Concepts docs
                   (Home.groupedAfter Cases.inherited docs))%list)
  /\ listing Cases.fs_inherited_category = Ok [Cases.doc_constructor]
  /\ Home.cards Cases.toLowerCase "" Home.Projects [Cases.doc_constructor]
       (Home.groupedAfter Cases.inherited [Cases.doc_constructor]) = [].
Proof.
  split; [|split].
  - assert (E : exists docs, listing Demo.fs_distinct = Ok docs)
      by (eexists; evaluated).
    destruct E as (docs & E). exists docs. split; [exact E|].
    destruct (tabs_partition_listing _ _ _ _ _ Cases.toLowerCase
                Cases.inherited docs E) as (Hall & Hsplit & _).
    split; [exact Hall|]. apply Hsplit.
    revert E. vm_compute. intros E. injection E as <-. discriminate.
  - evaluated.
  - assert (E : listing Cases.fs_inherited_category
                = Ok [Cases.doc_constructor]) by evaluated.
    destruct (tabs_partition_listing _ _ _ _ _ Cases.toLowerCase
                Cases.inherited _ E) as (_ & _ & Hnone).
    apply Hnone. reflexivity.
Defined.

(** X12 on three fetched records: one journal, no concept, one project
    under [quizzydots] and one under [uncategorized]. *)
Lemma grouping_buckets_witness :
  exists g,
    Home.groupDocuments Cases.inherited fetched = Some g
    /\ Home.journals g = [Cases.doc_january]
    /\ Home.concepts g = []
    /\ Laws.bucket "quizzydots" g = [Cases.doc_plan]
    /\ Laws.bucket "uncategorized" g = [Cases.doc_notes].
Proof.
  assert (E : exists g, Home.groupDocuments Cases.inherited fetched = Some g)
    by (eexists; evaluated).
  destruct E as (g & E).
  destruct (grouping_buckets Cases.inherited fetched g E)
    as (Hj & Hc & Hb).
  exists g. split; [exact E|].
  split; [rewrite Hj; reflexivity|].
  split; [rewrite Hc; reflexivity|].
  split; rewrite Hb; reflexivity.
Defined.

(** X13 on the tree with the project category [constructor]: the listing
    succeeds and the grouping of its records raises. *)
Lemma grouping_raises_on_inherited_category_witness :
  listing Cases.fs_inherited_category = Ok [Cases.doc_constructor]
  /\ Home.groupDocuments Cases.inherited [Cases.doc_constructor] = None.
Proof.
  split; [evaluated|].
  apply (proj2 (grouping_raises_on_inherited_category Cases.inherited
                  [Cases.doc_constructor])).
  exists Cases.doc_constructor.
  split; [cbn; tauto|]. split; reflexivity.
Defined.

(** X14 on three fetched records: the counts are 3, 2, 1 and 0. *)
Lemma tab_counts_match_tabs_witness :
  exists g,
    Home.groupDocuments Cases.inherited fetched = Some g
    /\ Home.tabCount Home.All fetched g = 3%nat
    /\ Home.tabCount Home.Projects fetched g = 2%nat
    /\ Home.tabCount Home.Journals fetched g = 1%nat
    /\ Home.tabCount Home.Concepts fetched g = 0%nat.
Proof.
  assert (E : exists g, Home.groupDocuments Cases.inherited fetched = Some g)
    by (eexists; evaluated).
  destruct E as (g & E).
  pose proof (tab_counts_match_tabs Cases.toLowerCase Cases.inherited
                fetched g E) as H.
  exists g. split; [exact E|].
  split; [rewrite (proj1 (H _)); reflexivity|].
  split; [rewrite (proj1 (H _)); reflexivity|].
  split; rewrite (proj1 (H _)); reflexivity.
Defined.

End FurtherExamples.

(* ================================================================= *)
(** ** Properties on run-time values *)

Section AnyFacts.

(** The sort and the insertion of a comparator that never raises. *)
Local Abbreviation pure_insert := (@insert).
Local Abbreviation pure_sort := (@sort).

Import Any.

Variable matter : string -> result (value * string).
Variable JSON_parse : string -> result value.
Variable localeCompare : string -> string -> Z.
Variable ToString : value -> string.
Variable BRAIN_PATH : string.
Variable fs : node.

Local Abbreviation getMeta := (getMetaFromFile JSON_parse fs).
Local Abbreviation getBody := (getBodyContent matter fs).
Local Abbreviation subEntryDocs := (subEntryDocuments matter JSON_parse fs).
Local Abbreviation entryDocs := (entryDocuments matter JSON_parse fs).
Local Abbreviation typeDocs := (typeDocuments matter JSON_parse BRAIN_PATH fs).
Local Abbreviation collect := (collectDocuments matter JSON_parse BRAIN_PATH fs).
Local Abbreviation compare := (compareDocuments localeCompare ToString).
Local Abbreviation listing :=
  (getAllDocuments matter JSON_parse localeCompare ToString BRAIN_PATH fs).
Local Abbreviation load := (getDocument matter JSON_parse BRAIN_PATH fs).
Local Abbreviation resolved := (actualPath BRAIN_PATH fs).

Ltac bind_inv H :=
  let x := fresh "x" in
  let Hx := fresh "Hx" in
  apply bind_Ok_inv in H as (x & Hx & H).

Lemma or_Ok_inv (a b : result value) (v : value) :
  or a b = Ok v ->
  exists x, a = Ok x /\ (if truthy x then v = x else b = Ok v).
Proof.
  unfold or. destruct a as [x|e]; cbn [bind]; [|discriminate].
  intros H. exists x. split; [reflexivity|].
  destruct (truthy x); [now injection H|exact H].
Qed.

Lemma any_getMetaFromFile_total (metaPath : string) :
  exists m, getMeta metaPath = Ok m.
Proof.
  unfold getMetaFromFile.
  destruct (Fs.existsSync fs metaPath); [|eauto].
  destruct (Fs.readFileSync fs metaPath) as [s|e]; cbn; [|eauto].
  destruct (JSON_parse s); eauto.
Qed.

(* ----------------------------------------------------------------- *)
(** *** The sort *)

Lemma any_insert_Permutation {A : Type} (cmp : A -> A -> result Z) x l l' :
  insert cmp x l = Ok l' -> Permutation (x :: l) l'.
Proof.
  revert l'. induction l as [|y l IH]; intros l' H; cbn [insert] in H.
  - now injection H as <-.
  - bind_inv H. destruct (x0 <=? 0)%Z.
    + now injection H as <-.
    + bind_inv H. injection H as <-.
      rewrite perm_swap. constructor. now apply IH.
Qed.

Lemma any_sort_Permutation {A : Type} (cmp : A -> A -> result Z) l l' :
  sort cmp l = Ok l' -> Permutation l l'.
Proof.
  revert l'. induction l as [|x l IH]; intros l' H; cbn [sort] in H.
  - injection H as <-. constructor.
  - bind_inv H. rewrite <- (any_insert_Permutation _ _ _ _ H).
    constructor. now apply IH.
Qed.

Lemma any_getAllDocuments_inv docs :
  listing = Ok docs ->
  exists pushed, collect = Ok pushed /\ sort compare pushed = Ok docs.
Proof.
  unfold getAllDocuments. intros H. bind_inv H. eauto.
Qed.

(* ----------------------------------------------------------------- *)
(** *** The identifiers and categories of the pushed records *)

Lemma for_each_places {A B C : Type} (f : A -> result (list B))
    (p : B -> C) (q : A -> list C) l out :
  for_each f l = Ok out ->
  (forall x ds, In x l -> f x = Ok ds -> map p ds = q x) ->
  map p out = concat (map q l).
Proof.
  revert out. induction l as [|x l IH]; intros out H Hq.
  - now injection H as <-.
  - apply for_each_cons_inv in H as (ds & more & Hx & Hl & ->).
    rewrite map_app. cbn [map concat]. f_equal.
    + apply Hq; [apply in_eq|exact Hx].
    + apply (IH _ Hl). intros y ds' Hy. apply Hq. now apply in_cons.
Qed.

Lemma subEntryDocuments_places type entryName entryPath subEntry ds :
  subEntryDocs type entryName entryPath subEntry = Ok ds ->
  map Rules.place ds
  = if Spec.listed subEntry
    then [(type ++ "/" ++ entryName ++ "/" ++ Spec.segment subEntry,
           Some entryName)]
    else [].
Proof.
  unfold subEntryDocuments, Spec.listed, Spec.segment. intros H.
  destruct (isDirectory subEntry); cbn [orb].
  - do 6 bind_inv H. now injection H as <-.
  - destruct (Js.endsWith (name subEntry) ".md").
    + do 5 bind_inv H. now injection H as <-.
    + now injection H as <-.
Qed.

Lemma map_filter_concat {A C : Type} (p : A -> bool) (q : A -> C)
    (l : list A) :
  concat (map (fun x => if p x then [q x] else []) l) = map q (filter p l).
Proof.
  induction l as [|x l IH]; [reflexivity|].
  cbn [map concat filter]. rewrite IH. now destruct (p x).
Qed.

Lemma entryDocuments_places type typePath entry ds :
  entryDocs type typePath entry = Ok ds ->
  map Rules.place ds = Rules.entry_places fs type typePath entry.
Proof.
  unfold entryDocuments, Rules.entry_places, Spec.segment. intros H.
  destruct (isDirectory entry).
  - bind_inv H. rewrite Hx. destruct (hasBody x).
    + do 6 bind_inv H. now injection H as <-.
    + rewrite (for_each_places _ Rules.place _ _ _ H
                 (fun s ds' _ => subEntryDocuments_places _ _ _ s ds')).
      apply map_filter_concat.
  - destruct (Js.endsWith (name entry) ".md").
    + do 5 bind_inv H. now injection H as <-.
    + now injection H as <-.
Qed.

Lemma collectDocuments_places pushed :
  collect = Ok pushed ->
  map Rules.place pushed = Rules.placements BRAIN_PATH fs.
Proof.
  unfold collectDocuments, Rules.placements. intros H.
  apply (for_each_places _ _ _ _ _ H).
  intros type ds _ Ht. unfold typeDocuments in Ht. unfold Rules.type_places.
  destruct (Fs.existsSync fs (Path.join BRAIN_PATH type)); cbn [negb] in Ht.
  - bind_inv Ht. rewrite Hx.
    apply (for_each_places _ _ _ _ _ Ht).
    intros entry ds' _. apply entryDocuments_places.
  - now injection Ht as <-.
Qed.

(* ----------------------------------------------------------------- *)
(** *** The object literals *)

Ltac crunch :=
  repeat (cbn [bind andb orb negb Rules.pick];
          match goal with
          | H : truthy ?x = _ |- context [truthy ?x] => rewrite H
          | |- context [truthy ?x] => is_var x; destruct (truthy x) eqn:?
          end);
  cbn [bind andb orb negb Rules.pick]; try reflexivity.

(** The four merged fields of a document backed by a folder: evaluated in
    the order written, they raise exactly when the literal cannot be
    read. *)
Lemma folder_literal {B : Type} (fm m : value) (fallback : string)
    (k : value -> value -> value -> value -> result B) :
  (title <- or (or (get fm "title") (get m "title")) (Ok (Str fallback)) ;;
   date <- or (get fm "date") (get m "date") ;;
   tags <- or (or (get fm "tags") (get m "tags")) (Ok (Arr [])) ;;
   summary <- or (get fm "summary") (get m "summary") ;;
   k title date tags summary)
  = if Rules.folder_readable fm m then
      k (Rules.pick [Rules.field fm "title"; Rules.field m "title"]
           (Str fallback))
        (Rules.pick [Rules.field fm "date"] (Rules.field m "date"))
        (Rules.pick [Rules.field fm "tags"; Rules.field m "tags"] (Arr []))
        (Rules.pick [Rules.field fm "summary"] (Rules.field m "summary"))
    else Throw TypeError.
Proof.
  unfold Rules.folder_readable, Rules.field.
  destruct (Rules.nullish fm) eqn:Hfm.
  { destruct fm; try discriminate; reflexivity. }
  assert (Efm : forall key, exists x, get fm key = Ok x).
  { intros key. destruct fm; try discriminate; cbn; eauto. }
  destruct (Efm "title") as [t Ht], (Efm "date") as [d Hd],
    (Efm "tags") as [g Hg], (Efm "summary") as [u Hu].
  rewrite Ht, Hd, Hg, Hu. cbn [negb andb Rules.pick].
  destruct (Rules.nullish m) eqn:Hm; cbn [negb orb].
  - assert (Em : forall key, get m key = Throw TypeError).
    { intros key. destruct m; try discriminate; reflexivity. }
    rewrite !Em. unfold or. crunch.
  - assert (Em : forall key, exists x, get m key = Ok x).
    { intros key. destruct m; try discriminate; cbn; eauto. }
    destruct (Em "title") as [t' Ht'], (Em "date") as [d' Hd'],
      (Em "tags") as [g' Hg'], (Em "summary") as [u' Hu'].
    rewrite Ht', Hd', Hg', Hu'. unfold or. crunch.
Qed.

(** The fields of a document backed by a file raise exactly when the
    frontmatter is [null]. *)
Lemma file_reads (fm : value) :
  Rules.nullish fm = false ->
  forall key, get fm key = Ok (Rules.field fm key).
Proof.
  intros H key. unfold Rules.field.
  destruct fm; try discriminate; reflexivity.
Qed.

Lemma nullish_reads (fm : value) :
  Rules.nullish fm = true -> forall key, get fm key = Throw TypeError.
Proof. intros H key. destruct fm; try discriminate; reflexivity. Qed.

Lemma or_default (v d : value) :
  or (Ok v) (Ok d) = Ok (Rules.pick [v] d).
Proof. unfold or. cbn. now destruct (truthy v). Qed.

(* ----------------------------------------------------------------- *)
(** *** The shapes on run-time values *)

Lemma any_entryDocuments_document_folder type typePath entry subEntries m bc :
  isDirectory entry = true ->
  Fs.readdirSync fs (Path.join typePath (name entry)) = Ok subEntries ->
  hasBody subEntries = true ->
  getMeta (Path.join (Path.join typePath (name entry)) "meta.json") = Ok m ->
  getBody (Path.join typePath (name entry)) = Ok bc ->
  entryDocs type typePath entry =
    if Rules.folder_readable (frontmatter bc) m then
      Ok [ {| id := type ++ "/" ++ name entry;
              title :=
                Rules.pick [Rules.field (frontmatter bc) "title";
                            Rules.field m "title"]
                  (Str (Js.hyphens_to_spaces (name entry)));
              type := Js.drop_last type;
              category :=
                if type =? "projects" then Some (name entry) else None;
              date :=
                Rules.pick [Rules.field (frontmatter bc) "date"]
                  (Rules.field m "date");
              tags :=
                Rules.pick [Rules.field (frontmatter bc) "tags";
                            Rules.field m "tags"] (Arr []);
              summary :=
                Rules.pick [Rules.field (frontmatter bc) "summary"]
                  (Rules.field m "summary") |} ]
    else Throw TypeError.
Proof.
  intros Hdir Hls Hbody Hm Hbc. unfold entryDocuments.
  rewrite Hdir, Hls. cbn [bind]. rewrite Hbody, Hm. cbn [bind].
  rewrite Hbc. cbn [bind]. cbv zeta. now rewrite folder_literal.
Qed.

Lemma any_entryDocuments_category_folder type typePath entry subEntries :
  isDirectory entry = true ->
  Fs.readdirSync fs (Path.join typePath (name entry)) = Ok subEntries ->
  hasBody subEntries = false ->
  entryDocs type typePath entry =
    for_each
      (subEntryDocs type (name entry) (Path.join typePath (name entry)))
      subEntries.
Proof.
  intros Hdir Hls Hbody. unfold entryDocuments.
  rewrite Hdir, Hls. cbn [bind]. now rewrite Hbody.
Qed.

Lemma any_entryDocuments_flat_file type typePath entry bc :
  isDirectory entry = false ->
  Js.endsWith (name entry) ".md" = true ->
  getBody (Path.join typePath (name entry)) = Ok bc ->
  entryDocs type typePath entry =
    if Rules.nullish (frontmatter bc) then Throw TypeError
    else
      Ok [ {| id := type ++ "/" ++ Js.remove_first ".md" (name entry);
              title :=
                Rules.pick [Rules.field (frontmatter bc) "title"]
                  (Str (Js.remove_first ".md" (name entry)));
              type := Js.drop_last type;
              category := None;
              date :=
                Rules.pick [Rules.field (frontmatter bc) "date"]
                  (Str (Js.remove_first ".md" (name entry)));
              tags :=
                Rules.pick [Rules.field (frontmatter bc) "tags"] (Arr []);
              summary := Rules.field (frontmatter bc) "summary" |} ].
Proof.
  intros Hdir Hmd Hbc. unfold entryDocuments.
  rewrite Hdir, Hmd, Hbc. cbn [bind]. cbv zeta.
  destruct (Rules.nullish (frontmatter bc)) eqn:Hn.
  - now rewrite (nullish_reads _ Hn).
  - rewrite !(file_reads _ Hn), !or_default. reflexivity.
Qed.

Lemma any_subEntryDocuments_folder type entryName entryPath subEntry m bc :
  isDirectory subEntry = true ->
  getMeta (Path.join (Path.join entryPath (name subEntry)) "meta.json")
    = Ok m ->
  getBody (Path.join entryPath (name subEntry)) = Ok bc ->
  subEntryDocs type entryName entryPath subEntry =
    if Rules.folder_readable (frontmatter bc) m then
      Ok [ {| id := type ++ "/" ++ entryName ++ "/" ++ name subEntry;
              title :=
                Rules.pick [Rules.field (frontmatter bc) "title";
                            Rules.field m "title"]
                  (Str (Js.hyphens_to_spaces (name subEntry)));
              type := Js.drop_last type;
              category := Some entryName;
              date :=
                Rules.pick [Rules.field (frontmatter bc) "date"]
                  (Rules.field m "date");
              tags :=
                Rules.pick [Rules.field (frontmatter bc) "tags";
                            Rules.field m "tags"] (Arr []);
              summary :=
                Rules.pick [Rules.field (frontmatter bc) "summary"]
                  (Rules.field m "summary") |} ]
    else Throw TypeError.
Proof.
  intros Hdir Hm Hbc. unfold subEntryDocuments.
  rewrite Hdir, Hm. cbn [bind]. rewrite Hbc. cbn [bind]. cbv zeta.
  now rewrite folder_literal.
Qed.

Lemma any_subEntryDocuments_file type entryName entryPath subEntry bc :
  isDirectory subEntry = false ->
  Js.endsWith (name subEntry) ".md" = true ->
  getBody (Path.join entryPath (name subEntry)) = Ok bc ->
  subEntryDocs type entryName entryPath subEntry =
    if Rules.nullish (frontmatter bc) then Throw TypeError
    else
      Ok [ {| id :=
                type ++ "/" ++ entryName ++ "/"
                  ++ Js.remove_first ".md" (name subEntry);
              title :=
                Rules.pick [Rules.field (frontmatter bc) "title"]
                  (Str (Js.hyphens_to_spaces
                          (Js.remove_first ".md" (name subEntry))));
              type := Js.drop_last type;
              category := Some entryName;
              date := Rules.field (frontmatter bc) "date";
              tags :=
                Rules.pick [Rules.field (frontmatter bc) "tags"] (Arr []);
              summary := Rules.field (frontmatter bc) "summary" |} ].
Proof.
  intros Hdir Hmd Hbc. unfold subEntryDocuments.
  rewrite Hdir, Hmd, Hbc. cbn [bind]. cbv zeta.
  destruct (Rules.nullish (frontmatter bc)) eqn:Hn.
  - now rewrite (nullish_reads _ Hn).
  - rewrite !(file_reads _ Hn), !or_default. reflexivity.
Qed.

Lemma any_getDocument_directory (ident : string) m bc s :
  Fs.existsSync fs (Path.join BRAIN_PATH ident)
    || Fs.existsSync fs (Path.join BRAIN_PATH ident ++ ".md") = true ->
  Fs.statSync_isDirectory fs (resolved ident) = Ok true ->
  getMeta (Path.join (resolved ident) "meta.json") = Ok m ->
  getBody (resolved ident) = Ok bc ->
  readSections fs (resolved ident) = Ok s ->
  load ident =
    if Rules.folder_readable (frontmatter bc) m then
      Ok (Some
        {| meta :=
             {| id := ident;
                title :=
                  Rules.pick [Rules.field (frontmatter bc) "title";
                              Rules.field m "title"]
                    (Str (Js.hyphens_to_spaces (Spec.last_segment ident)));
                type := Js.drop_last (hd "" (Js.split Js.slash ident));
                category :=
                  if (2 <? List.length (Js.split Js.slash ident))%nat
                  then Some (nth 1 (Js.split Js.slash ident) "") else None;
                date :=
                  Rules.pick [Rules.field (frontmatter bc) "date"]
                    (Rules.field m "date");
                tags :=
                  Rules.pick [Rules.field (frontmatter bc) "tags";
                              Rules.field m "tags"] (Arr []);
                summary :=
                  Rules.pick [Rules.field (frontmatter bc) "summary"]
                    (Rules.field m "summary") |};
           content := bc_content bc;
           sections := Some s |})
    else Throw TypeError.
Proof.
  intros Hex Hdir Hm Hbc Hs. unfold getDocument.
  rewrite <- negb_orb, Hex. cbn [negb]. rewrite Hdir. cbn [bind].
  rewrite Hm. cbn [bind]. rewrite Hbc. cbn [bind]. rewrite Hs. cbn [bind].
  cbv zeta. now rewrite folder_literal.
Qed.

Lemma any_getDocument_file (ident : string) bc :
  Fs.existsSync fs (Path.join BRAIN_PATH ident)
    || Fs.existsSync fs (Path.join BRAIN_PATH ident ++ ".md") = true ->
  Fs.statSync_isDirectory fs (resolved ident) = Ok false ->
  getBody (resolved ident) = Ok bc ->
  load ident =
    if Rules.nullish (frontmatter bc) then Throw TypeError
    else
      Ok (Some
        {| meta :=
             {| id := ident;
                title :=
                  Rules.pick [Rules.field (frontmatter bc) "title"]
                    (Str (Js.hyphens_to_spaces (Spec.last_segment ident)));
                type := Js.drop_last (hd "" (Js.split Js.slash ident));
                category :=
                  if (2 <? List.length (Js.split Js.slash ident))%nat
                  then Some (nth 1 (Js.split Js.slash ident) "") else None;
                date :=
                  Rules.pick [Rules.field (frontmatter bc) "date"]
                    (Str (Spec.last_segment ident));
                tags :=
                  Rules.pick [Rules.field (frontmatter bc) "tags"] (Arr []);
                summary := Rules.field (frontmatter bc) "summary" |};
           content := bc_content bc;
           sections := None |}).
Proof.
  intros Hex Hdir Hbc. unfold getDocument.
  rewrite <- negb_orb, Hex. cbn [negb]. rewrite Hdir. cbn [bind].
  rewrite Hbc. cbn [bind]. cbv zeta.
  destruct (Rules.nullish (frontmatter bc)) eqn:Hn.
  - now rewrite (nullish_reads _ Hn).
  - rewrite !(file_reads _ Hn), !or_default. reflexivity.
Qed.

Lemma any_getDocument_raises (ident : string) :
  Fs.existsSync fs (Path.join BRAIN_PATH ident)
    || Fs.existsSync fs (Path.join BRAIN_PATH ident ++ ".md") = true ->
  (Fs.statSync_isDirectory fs (resolved ident) = Ok true ->
   forall e,
     getBody (resolved ident) = Throw e
     \/ ((exists bc, getBody (resolved ident) = Ok bc)
         /\ readSections fs (resolved ident) = Throw e) ->
     load ident = Throw e)
  /\ (Fs.statSync_isDirectory fs (resolved ident) = Ok false ->
      forall e, getBody (resolved ident) = Throw e -> load ident = Throw e).
Proof.
  intros Hex. unfold getDocument. rewrite <- negb_orb, Hex. cbn [negb].
  split; intros Hdir e H; rewrite Hdir; cbn [bind].
  - destruct (any_getMetaFromFile_total
                (Path.join (resolved ident) "meta.json")) as [m ->].
    cbn [bind]. destruct H as [->|[[bc ->] ->]]; reflexivity.
  - now rewrite H.
Qed.

(* ----------------------------------------------------------------- *)
(** *** The outcomes of the loader *)

(** C9 (as amended).  An identifier that resolves to neither an existing
    file nor an existing directory under the root, directly or with the
    markdown extension appended, makes the loader return the not-found
    signal without raising.  Every other identifier never yields the
    not-found signal.  For a directory the loader returns a Document
    carrying the identifier, the body and the sections when the body can
    be read and parsed, [sections] can be listed and the metadata can be
    read (the frontmatter is not [null], nor is the sidecar unless the
    frontmatter supplies all four fields); for a file, when the body can
    be read and parsed and the frontmatter is not [null].  Otherwise it
    raises: the error of the body, else the error of the listing of
    [sections], else a [TypeError]. *)
Theorem getDocument_outcomes :
  (forall ident,
      Fs.existsSync fs (Path.join BRAIN_PATH ident) = false ->
      Fs.existsSync fs (Path.join BRAIN_PATH ident ++ ".md") = false ->
      load ident = Ok None)
  /\ (forall ident,
      Fs.existsSync fs (Path.join BRAIN_PATH ident)
        || Fs.existsSync fs (Path.join BRAIN_PATH ident ++ ".md") = true ->
      load ident <> Ok None)
  /\ (forall ident m bc s,
      Fs.existsSync fs (Path.join BRAIN_PATH ident)
        || Fs.existsSync fs (Path.join BRAIN_PATH ident ++ ".md") = true ->
      Fs.statSync_isDirectory fs (resolved ident) = Ok true ->
      getMeta (Path.join (resolved ident) "meta.json") = Ok m ->
      getBody (resolved ident) = Ok bc ->
      readSections fs (resolved ident) = Ok s ->
      (Rules.folder_readable (frontmatter bc) m = true ->
       exists D,
         load ident = Ok (Some D)
         /\ id (meta D) = ident /\ content D = bc_content bc
         /\ sections D = Some s)
      /\ (Rules.folder_readable (frontmatter bc) m = false ->
          load ident = Throw TypeError))
  /\ (forall ident bc,
      Fs.existsSync fs (Path.join BRAIN_PATH ident)
        || Fs.existsSync fs (Path.join BRAIN_PATH ident ++ ".md") = true ->
      Fs.statSync_isDirectory fs (resolved ident) = Ok false ->
      getBody (resolved ident) = Ok bc ->
      (Rules.nullish (frontmatter bc) = false ->
       exists D,
         load ident = Ok (Some D)
         /\ id (meta D) = ident /\ content D = bc_content bc
         /\ sections D = None)
      /\ (Rules.nullish (frontmatter bc) = true ->
          load ident = Throw TypeError))
  /\ (forall ident e,
      Fs.existsSync fs (Path.join BRAIN_PATH ident)
        || Fs.existsSync fs (Path.join BRAIN_PATH ident ++ ".md") = true ->
      getBody (resolved ident) = Throw e ->
      load ident = Throw e)
  /\ (forall ident bc e,
      Fs.existsSync fs (Path.join BRAIN_PATH ident)
        || Fs.existsSync fs (Path.join BRAIN_PATH ident ++ ".md") = true ->
      Fs.statSync_isDirectory fs (resolved ident) = Ok true ->
      getBody (resolved ident) = Ok bc ->
      readSections fs (resolved ident) = Throw e ->
      load ident = Throw e).
Proof.
  repeat apply conj.
  - intros ident H1 H2. unfold getDocument. now rewrite H1, H2.
  - intros ident Hex Hnone.
    destruct (existsSync_statSync _ _ (resolved_exists _ _ _ Hex))
      as [[|] Hdir].
    + destruct (any_getMetaFromFile_total
                  (Path.join (resolved ident) "meta.json")) as [m Hm].
      destruct (getBody (resolved ident)) as [bc|e] eqn:Hbc.
      * destruct (readSections fs (resolved ident)) as [s|e] eqn:Hs.
        -- rewrite (any_getDocument_directory _ _ _ _ Hex Hdir Hm Hbc Hs)
             in Hnone.
           destruct (Rules.folder_readable _ _); discriminate.
        -- rewrite (proj1 (any_getDocument_raises _ Hex) Hdir e) in Hnone;
             [discriminate|]. right. split; [eauto|exact Hs].
      * rewrite (proj1 (any_getDocument_raises _ Hex) Hdir e) in Hnone;
          [discriminate|now left].
    + destruct (getBody (resolved ident)) as [bc|e] eqn:Hbc.
      * rewrite (any_getDocument_file _ _ Hex Hdir Hbc) in Hnone.
        destruct (Rules.nullish _); discriminate.
      * rewrite (proj2 (any_getDocument_raises _ Hex) Hdir e Hbc) in Hnone.
        discriminate.
  - intros ident m bc s Hex Hdir Hm Hbc Hs.
    rewrite (any_getDocument_directory _ _ _ _ Hex Hdir Hm Hbc Hs).
    split; intros ->; [|reflexivity].
    eexists. split; [reflexivity|]. cbn. auto.
  - intros ident bc Hex Hdir Hbc.
    rewrite (any_getDocument_file _ _ Hex Hdir Hbc).
    split; intros ->; [|reflexivity].
    eexists. split; [reflexivity|]. cbn. auto.
  - intros ident e Hex Hbc.
    destruct (existsSync_statSync _ _ (resolved_exists _ _ _ Hex))
      as [[|] Hdir].
    + apply (proj1 (any_getDocument_raises _ Hex) Hdir). now left.
    + now apply (proj2 (any_getDocument_raises _ Hex) Hdir).
  - intros ident bc e Hex Hdir Hbc Hs.
    apply (proj1 (any_getDocument_raises _ Hex) Hdir).
    right. split; [eauto|exact Hs].
Qed.

(* ----------------------------------------------------------------- *)
(** *** Tags and sections *)

Lemma pick_tags (sources : list value) :
  truthy (Rules.pick sources (Arr [])) = true
  /\ (Forall (fun v => truthy v = false) sources ->
      Rules.pick sources (Arr []) = Arr [])
  /\ (Forall (fun v => truthy v = true -> Rules.is_array v) sources ->
      Rules.is_array (Rules.pick sources (Arr []))).
Proof.
  induction sources as [|v l (IH1 & IH2 & IH3)]; cbn [Rules.pick].
  - repeat split; intros; try reflexivity. now exists [].
  - destruct (truthy v) eqn:E; repeat split.
    + exact E.
    + intros H. inversion H; congruence.
    + intros H. inversion H; auto.
    + exact IH1.
    + intros H. inversion H; auto.
    + intros H. inversion H; auto.
Qed.

Lemma or_tags_truthy (a : result value) (v : value) :
  or a (Ok (Arr [])) = Ok v -> truthy v = true.
Proof.
  intros H. apply or_Ok_inv in H as (x & _ & H).
  destruct (truthy x) eqn:E; [now subst|]. now injection H as <-.
Qed.

Lemma subEntryDocuments_tags type entryName entryPath subEntry ds :
  subEntryDocs type entryName entryPath subEntry = Ok ds ->
  Forall (fun d => truthy (tags d) = true) ds.
Proof.
  unfold subEntryDocuments. intros H.
  destruct (isDirectory subEntry).
  - do 6 bind_inv H. injection H as <-.
    repeat constructor. cbn [tags]. exact (or_tags_truthy _ _ Hx3).
  - destruct (Js.endsWith (name subEntry) ".md").
    + do 5 bind_inv H. injection H as <-.
      repeat constructor. cbn [tags]. exact (or_tags_truthy _ _ Hx2).
    + injection H as <-. constructor.
Qed.

Lemma entryDocuments_tags type typePath entry ds :
  entryDocs type typePath entry = Ok ds ->
  Forall (fun d => truthy (tags d) = true) ds.
Proof.
  unfold entryDocuments. intros H.
  destruct (isDirectory entry).
  - bind_inv H. destruct (hasBody x).
    + do 6 bind_inv H. injection H as <-.
      repeat constructor. cbn [tags]. exact (or_tags_truthy _ _ Hx4).
    + eapply for_each_Forall; [exact H|].
      intros s ds' _. apply subEntryDocuments_tags.
  - destruct (Js.endsWith (name entry) ".md").
    + do 5 bind_inv H. injection H as <-.
      repeat constructor. cbn [tags]. exact (or_tags_truthy _ _ Hx2).
    + injection H as <-. constructor.
Qed.

Lemma collectDocuments_tags pushed :
  collect = Ok pushed -> Forall (fun d => truthy (tags d) = true) pushed.
Proof.
  unfold collectDocuments. intros H.
  eapply for_each_Forall; [exact H|].
  intros type ds _. unfold typeDocuments.
  destruct (negb _); [intros [= <-]; constructor|].
  intros Ht. bind_inv Ht.
  eapply for_each_Forall; [exact Ht|].
  intros entry ds' _. apply entryDocuments_tags.
Qed.

(** C10 (as amended).  Every record of the listing and every Document of
    the loader has its tags present, never absent: they are the
    frontmatter's tags when truthy, otherwise (for a folder) the sidecar's
    tags when truthy, otherwise the empty array.  So the tags are the empty
    array when neither source supplies tags, and an array whenever the
    tags the sources supply are arrays.  Every Document the loader returns
    for a directory has its sections present as an array, empty when there
    is no [sections] entry. *)
Theorem tags_and_sections_present :
  (forall docs,
      listing = Ok docs -> Forall (fun d => truthy (tags d) = true) docs)
  /\ (forall type typePath entry subEntries m bc d,
         isDirectory entry = true ->
         Fs.readdirSync fs (Path.join typePath (name entry))
           = Ok subEntries ->
         hasBody subEntries = true ->
         getMeta (Path.join (Path.join typePath (name entry)) "meta.json")
           = Ok m ->
         getBody (Path.join typePath (name entry)) = Ok bc ->
         entryDocs type typePath entry = Ok [d] ->
         tags d
         = Rules.pick [Rules.field (frontmatter bc) "tags";
                       Rules.field m "tags"] (Arr []))
  /\ (forall type typePath entry bc d,
         isDirectory entry = false ->
         Js.endsWith (name entry) ".md" = true ->
         getBody (Path.join typePath (name entry)) = Ok bc ->
         entryDocs type typePath entry = Ok [d] ->
         tags d = Rules.pick [Rules.field (frontmatter bc) "tags"] (Arr []))
  /\ (forall type entryName entryPath subEntry m bc d,
         isDirectory subEntry = true ->
         getMeta (Path.join (Path.join entryPath (name subEntry)) "meta.json")
           = Ok m ->
         getBody (Path.join entryPath (name subEntry)) = Ok bc ->
         subEntryDocs type entryName entryPath subEntry = Ok [d] ->
         tags d
         = Rules.pick [Rules.field (frontmatter bc) "tags";
                       Rules.field m "tags"] (Arr []))
  /\ (forall type entryName entryPath subEntry bc d,
         isDirectory subEntry = false ->
         Js.endsWith (name subEntry) ".md" = true ->
         getBody (Path.join entryPath (name subEntry)) = Ok bc ->
         subEntryDocs type entryName entryPath subEntry = Ok [d] ->
         tags d = Rules.pick [Rules.field (frontmatter bc) "tags"] (Arr []))
  /\ (forall ident D m bc,
         load ident = Ok (Some D) ->
         Fs.statSync_isDirectory fs (resolved ident) = Ok true ->
         getMeta (Path.join (resolved ident) "meta.json") = Ok m ->
         getBody (resolved ident) = Ok bc ->
         tags (meta D)
         = Rules.pick [Rules.field (frontmatter bc) "tags";
                       Rules.field m "tags"] (Arr [])
         /\ exists s,
             sections D = Some s
             /\ (Fs.existsSync fs (Path.join (resolved ident) "sections")
                 = false -> s = []))
  /\ (forall ident D bc,
         load ident = Ok (Some D) ->
         Fs.statSync_isDirectory fs (resolved ident) = Ok false ->
         getBody (resolved ident) = Ok bc ->
         tags (meta D)
         = Rules.pick [Rules.field (frontmatter bc) "tags"] (Arr []))
  /\ (forall sources,
         truthy (Rules.pick sources (Arr [])) = true
         /\ (Forall (fun v => truthy v = false) sources ->
             Rules.pick sources (Arr []) = Arr [])
         /\ (Forall (fun v => truthy v = true -> Rules.is_array v) sources ->
             Rules.is_array (Rules.pick sources (Arr [])))).
Proof.
  repeat apply conj.
  - intros docs H.
    destruct (any_getAllDocuments_inv _ H) as (pushed & Hc & Hs).
    eapply Permutation_Forall; [exact (any_sort_Permutation _ _ _ Hs)|].
    now apply collectDocuments_tags.
  - intros type typePath entry subEntries m bc d Hdir Hls Hbody Hm Hbc H.
    rewrite (any_entryDocuments_document_folder _ _ _ _ _ _
               Hdir Hls Hbody Hm Hbc) in H.
    destruct (Rules.folder_readable _ _); [|discriminate].
    now injection H as <-.
  - intros type typePath entry bc d Hdir Hmd Hbc H.
    rewrite (any_entryDocuments_flat_file _ _ _ _ Hdir Hmd Hbc) in H.
    destruct (Rules.nullish _); [discriminate|]. now injection H as <-.
  - intros type entryName entryPath subEntry m bc d Hdir Hm Hbc H.
    rewrite (any_subEntryDocuments_folder _ _ _ _ _ _ Hdir Hm Hbc) in H.
    destruct (Rules.folder_readable _ _); [|discriminate].
    now injection H as <-.
  - intros type entryName entryPath subEntry bc d Hdir Hmd Hbc H.
    rewrite (any_subEntryDocuments_file _ _ _ _ _ Hdir Hmd Hbc) in H.
    destruct (Rules.nullish _); [discriminate|]. now injection H as <-.
  - intros ident D m bc H Hdir Hm Hbc.
    assert (Hex : Fs.existsSync fs (Path.join BRAIN_PATH ident)
                  || Fs.existsSync fs (Path.join BRAIN_PATH ident ++ ".md")
                  = true).
    { unfold getDocument in H. rewrite <- negb_orb in H.
      destruct (_ || _); [reflexivity|discriminate]. }
    destruct (readSections fs (resolved ident)) as [s|e] eqn:Hs.
    + rewrite (any_getDocument_directory _ _ _ _ Hex Hdir Hm Hbc Hs) in H.
      destruct (Rules.folder_readable _ _); [|discriminate].
      injection H as <-. split; [reflexivity|].
      exists s. split; [reflexivity|].
      intros Hno. unfold readSections in Hs. rewrite Hno in Hs.
      now injection Hs as <-.
    + rewrite (proj1 (any_getDocument_raises _ Hex) Hdir e) in H;
        [discriminate|]. right. split; [eauto|exact Hs].
  - intros ident D bc H Hdir Hbc.
    assert (Hex : Fs.existsSync fs (Path.join BRAIN_PATH ident)
                  || Fs.existsSync fs (Path.join BRAIN_PATH ident ++ ".md")
                  = true).
    { unfold getDocument in H. rewrite <- negb_orb in H.
      destruct (_ || _); [reflexivity|discriminate]. }
    rewrite (any_getDocument_file _ _ Hex Hdir Hbc) in H.
    destruct (Rules.nullish _); [discriminate|]. now injection H as <-.
  - apply pick_tags.
Qed.

(* ----------------------------------------------------------------- *)
(** *** The classification of the folders *)

Lemma any_listing_raises type entries entry e :
  In type types ->
  Fs.existsSync fs (Path.join BRAIN_PATH type) = true ->
  Fs.readdirSync fs (Path.join BRAIN_PATH type) = Ok entries ->
  In entry entries ->
  entryDocs type (Path.join BRAIN_PATH type) entry = Throw e ->
  exists e', listing = Throw e'.
Proof.
  intros Ht Hex Hls Hin He.
  assert (Htype : exists e1, typeDocs type = Throw e1).
  { unfold typeDocuments. rewrite Hex, Hls. cbn [negb bind].
    now apply for_each_Throw with entry e. }
  destruct Htype as [e1 He1].
  unfold getAllDocuments, collectDocuments.
  destruct (for_each_Throw typeDocs types type e1 Ht He1) as [e' ->].
  cbn. eauto.
Qed.

(** C6 (as amended).  Whenever the indexer returns, its records are, up
    to the order of the sort, one per document of the tree: a directory
    directly under a type folder that lists [body.md] or [index.md] yields
    exactly one record, with the identifier [type/name] and the folder's
    own name as category under [projects], no category otherwise; a
    directory that lists neither is a category folder, each of whose
    directories and markdown files yields exactly one record, with the
    category folder's name as category; and nothing but these and the
    markdown files of the type folder yields a record.  The indexer
    raises, and yields no record, when the body of a document folder
    cannot be read or parsed, or when the frontmatter or the sidecar that
    is read is [null]. *)
Theorem folder_classification :
  (forall docs,
      listing = Ok docs ->
      exists pushed,
        collect = Ok pushed
        /\ Permutation pushed docs
        /\ map Rules.place pushed = Rules.placements BRAIN_PATH fs)
  /\ (forall type typePath entry subEntries,
      isDirectory entry = true ->
      Fs.readdirSync fs (Path.join typePath (name entry)) = Ok subEntries ->
      hasBody subEntries = true ->
      Rules.entry_places fs type typePath entry
      = [(type ++ "/" ++ name entry,
          if type =? "projects" then Some (name entry) else None)])
  /\ (forall type typePath entry subEntries,
      isDirectory entry = true ->
      Fs.readdirSync fs (Path.join typePath (name entry)) = Ok subEntries ->
      hasBody subEntries = false ->
      Rules.entry_places fs type typePath entry
      = map (fun s => (type ++ "/" ++ name entry ++ "/" ++ Spec.segment s,
                       Some (name entry)))
          (filter (fun s => isDirectory s || Js.endsWith (name s) ".md")
                  subEntries))
  /\ (forall type entries entry subEntries,
      In type types ->
      Fs.existsSync fs (Path.join BRAIN_PATH type) = true ->
      Fs.readdirSync fs (Path.join BRAIN_PATH type) = Ok entries ->
      In entry entries ->
      isDirectory entry = true ->
      Fs.readdirSync fs (Path.join (Path.join BRAIN_PATH type) (name entry))
        = Ok subEntries ->
      hasBody subEntries = true ->
      (forall e,
          getBody (Path.join (Path.join BRAIN_PATH type) (name entry))
            = Throw e ->
          exists e', listing = Throw e')
      /\ (forall m bc,
          getMeta (Path.join (Path.join (Path.join BRAIN_PATH type)
                                (name entry)) "meta.json") = Ok m ->
          getBody (Path.join (Path.join BRAIN_PATH type) (name entry))
            = Ok bc ->
          Rules.folder_readable (frontmatter bc) m = false ->
          exists e', listing = Throw e')).
Proof.
  split; [|split; [|split]].
  - intros docs H.
    destruct (any_getAllDocuments_inv _ H) as (pushed & Hc & Hs).
    exists pushed. split; [exact Hc|].
    split; [exact (any_sort_Permutation _ _ _ Hs)|].
    now apply collectDocuments_places.
  - intros type typePath entry subEntries Hdir Hls Hbody.
    unfold Rules.entry_places. now rewrite Hdir, Hls, Hbody.
  - intros type typePath entry subEntries Hdir Hls Hbody.
    unfold Rules.entry_places. now rewrite Hdir, Hls, Hbody.
  - intros type entries entry subEntries Ht Hex Hent Hin Hdir Hls Hbody.
    split.
    + intros e Hbc.
      apply (any_listing_raises type entries entry e Ht Hex Hent Hin).
      unfold entryDocuments. rewrite Hdir, Hls. cbn [bind]. rewrite Hbody.
      destruct (any_getMetaFromFile_total
                  (Path.join (Path.join (Path.join BRAIN_PATH type)
                                (name entry)) "meta.json")) as [m ->].
      cbn [bind]. now rewrite Hbc.
    + intros m bc Hm Hbc Hno.
      apply (any_listing_raises type entries entry TypeError
               Ht Hex Hent Hin).
      rewrite (any_entryDocuments_document_folder _ _ _ _ _ _
                 Hdir Hls Hbody Hm Hbc).
      now rewrite Hno.
Qed.

(* ----------------------------------------------------------------- *)
(** *** The identifiers *)

Lemma append_cancel (a x y : string) : a ++ x = a ++ y -> x = y.
Proof.
  induction a as [|c a IH]; cbn; [auto|]. intros H. injection H. exact IH.
Qed.

Lemma slash_split (a a' x y : string) :
  Spec.no_slash a = true -> Spec.no_slash a' = true ->
  a ++ "/" ++ x = a' ++ "/" ++ y -> a = a' /\ x = y.
Proof.
  revert a'. induction a as [|c a IH]; intros [|c' a'] Ha Ha' H;
    cbn in Ha, Ha', H.
  - injection H as ->. auto.
  - injection H as <- _. cbn in Ha'. discriminate.
  - injection H as -> _. cbn in Ha. discriminate.
  - apply andb_true_iff in Ha as [_ Ha], Ha' as [_ Ha'].
    injection H as -> H. destruct (IH a' Ha Ha' H) as [-> ->]. auto.
Qed.

Lemma NoDup_app_inv {A : Type} (l1 l2 : list A) :
  NoDup (l1 ++ l2) ->
  NoDup l1 /\ NoDup l2 /\ forall a, In a l1 -> ~ In a l2.
Proof.
  induction l1 as [|x l1 IH]; cbn [app].
  - intros H. repeat split; [constructor|exact H|intros a []].
  - intros H. inversion H as [|? ? Hx Hr]. subst.
    destruct (IH Hr) as (H1 & H2 & H3). repeat split.
    + constructor; [|exact H1]. intros Hin. apply Hx.
      apply in_or_app. now left.
    + exact H2.
    + intros a [<-|Ha]; [|now apply H3].
      intros Hin. apply Hx. apply in_or_app. now right.
Qed.

Lemma NoDup_map_prefix (p : string) (l : list string) :
  NoDup (map (fun s => p ++ s) l) <-> NoDup l.
Proof.
  split; [apply NoDup_map_inv|].
  induction 1 as [|x l Hx Hl IH]; cbn [map]; constructor; [|exact IH].
  intros Hin. apply in_map_iff in Hin as (y & Hy & Hin).
  apply append_cancel in Hy. now subst.
Qed.

Lemma prefix_append (t n s : string) :
  (t ++ "/" ++ n ++ "/") ++ s = t ++ "/" ++ n ++ "/" ++ s.
Proof. now rewrite !append_associative. Qed.

(** The three kinds of entries of a type folder. *)
Lemma entry_ids_cases type typePath entry :
  (Rules.yields fs typePath entry = true
   /\ map fst (Rules.entry_places fs type typePath entry)
      = [type ++ "/" ++ Spec.segment entry])
  \/ (Rules.yields fs typePath entry = false
      /\ isDirectory entry = true
      /\ exists subEntries,
          Fs.readdirSync fs (Path.join typePath (name entry)) = Ok subEntries
          /\ hasBody subEntries = false
          /\ map fst (Rules.entry_places fs type typePath entry)
             = map (fun s => (type ++ "/" ++ name entry ++ "/") ++ s)
                 (map Spec.segment (filter Spec.listed subEntries)))
  \/ (Rules.yields fs typePath entry = false
      /\ map fst (Rules.entry_places fs type typePath entry) = []
      /\ forall subEntries,
          isDirectory entry = true ->
          Fs.readdirSync fs (Path.join typePath (name entry)) = Ok subEntries ->
          hasBody subEntries = true).
Proof.
  unfold Rules.yields, Rules.entry_places, Spec.segment.
  destruct (isDirectory entry).
  - destruct (Fs.readdirSync fs _) as [subEntries|e].
    + destruct (hasBody subEntries) eqn:Hb.
      * left. auto.
      * right. left. repeat split. exists subEntries.
        repeat split; [exact Hb|].
        rewrite !map_map. apply map_ext. intros s. cbn [fst].
        now rewrite prefix_append.
    + right. right. repeat split. intros subEntries _ H. discriminate.
  - destruct (Js.endsWith (name entry) ".md").
    + left. auto.
    + right. right. repeat split. intros subEntries H. discriminate.
Qed.

Lemma in_entry_ids type typePath entries i :
  In i (map fst (concat (map (Rules.entry_places fs type typePath) entries)))
  ->
  exists entry,
    In entry entries
    /\ In i (map fst (Rules.entry_places fs type typePath entry)).
Proof.
  intros H. apply in_map_iff in H as ((i' & c) & <- & H).
  apply in_concat in H as (l & Hl & Hin).
  apply in_map_iff in Hl as (entry & <- & He).
  exists entry. split; [exact He|].
  apply in_map_iff. now exists (i', c).
Qed.

Lemma entry_ids_NoDup type typePath entries :
  Spec.no_slash type = true ->
  NoDup (map name entries) ->
  Forall (fun e => Spec.no_slash (name e) = true) entries ->
  NoDup (map fst (concat (map (Rules.entry_places fs type typePath) entries)))
  <->
  NoDup (map Spec.segment (filter (Rules.yields fs typePath) entries))
  /\ forall entry subEntries,
      In entry entries -> isDirectory entry = true ->
      Fs.readdirSync fs (Path.join typePath (name entry)) = Ok subEntries ->
      hasBody subEntries = false ->
      NoDup (map Spec.segment (filter Spec.listed subEntries)).
Proof.
  intros Ht. induction entries as [|e l IH]; intros Hnames Hslash.
  - cbn. split; [|constructor]. intros _. split; [constructor|].
    intros entry subEntries [].
  - cbn [map] in Hnames. inversion Hnames as [|? ? Hne Hnl]. subst.
    inversion Hslash as [|? ? Hse Hsl]. subst.
    specialize (IH Hnl Hsl).
    cbn [map concat filter]. rewrite map_app.
    split.
    + intros H. apply NoDup_app_inv in H as (He & Hl & Hdis).
      destruct (proj1 IH Hl) as [IH1 IH2].
      destruct (entry_ids_cases type typePath e)
        as [[Hy Hids]|[(Hy & Hdir & subs & Hls & Hb & Hids)
                      |(Hy & Hids & Hall)]];
        rewrite Hy.
      * split.
        -- cbn [map]. constructor; [|exact IH1].
           intros Hin. apply in_map_iff in Hin as (e' & Hseg & He').
           apply filter_In in He' as [He' Hy'].
           apply (Hdis (type ++ "/" ++ Spec.segment e)).
           ++ rewrite Hids. apply in_eq.
           ++ apply in_map_iff.
              destruct (entry_ids_cases type typePath e')
                as [[_ Hids']|[(Hy'' & _)|(Hy'' & _)]]; try congruence.
              assert (Hin : In (type ++ "/" ++ Spec.segment e)
                              (map fst
                                 (Rules.entry_places fs type typePath e'))).
              { rewrite Hids', Hseg. apply in_eq. }
              apply in_map_iff in Hin as (p & Hp & Hin).
              exists p. split; [exact Hp|].
              apply in_concat. eexists. split; [|exact Hin].
              apply in_map_iff. eauto.
        -- intros entry subEntries [<-|Hin] Hd Hls Hb; [|now apply (IH2 entry)].
           unfold Rules.yields in Hy. rewrite Hd, Hls in Hy. congruence.
      * split; [exact IH1|].
        intros entry subEntries [<-|Hin] Hd Hls' Hb';
          [|now apply (IH2 entry)].
        rewrite Hls in Hls'. injection Hls' as <-.
        rewrite Hids in He. now apply NoDup_map_prefix in He.
      * split; [exact IH1|].
        intros entry subEntries [<-|Hin] Hd Hls' Hb';
          [|now apply (IH2 entry)].
        rewrite (Hall _ Hd Hls') in Hb'. discriminate.
    + intros [H1 H2].
      assert (Hl : NoDup (map fst (concat (map (Rules.entry_places fs type
                                                  typePath) l)))).
      { apply IH. split.
        - destruct (Rules.yields fs typePath e); [now inversion H1|exact H1].
        - intros entry subEntries Hin. apply H2. now right. }
      apply NoDup_app; [|exact Hl|].
      * destruct (entry_ids_cases type typePath e)
          as [[Hy Hids]|[(Hy & Hdir & subs & Hls & Hb & Hids)|(Hy & Hids & _)]];
          rewrite Hids.
        -- repeat constructor. intros [].
        -- apply NoDup_map_prefix. apply (H2 e subs); auto using in_eq.
        -- constructor.
      * intros i Hi Hi'.
        apply in_entry_ids in Hi' as (e' & He' & Hi').
        assert (Hse' : Spec.no_slash (name e') = true)
          by exact (proj1 (Forall_forall _ _) Hsl e' He').
        assert (Hnames' : name e <> name e').
        { intros E. apply Hne. rewrite E. now apply in_map. }
        destruct (entry_ids_cases type typePath e)
          as [[Hy Hids]|[(Hy & Hdir & subs & Hls & Hb & Hids)|(Hy & Hids & _)]];
          rewrite Hids in Hi;
          (destruct (entry_ids_cases type typePath e')
             as [[Hy' Hids']|[(Hy' & Hdir' & subs' & Hls' & Hb' & Hids')
                             |(Hy' & Hids' & _)]];
           rewrite Hids' in Hi'); try (now destruct Hi); try (now destruct Hi').
        -- destruct Hi as [<-|[]]. destruct Hi' as [E|[]].
           apply append_cancel in E. cbn in E. injection E as E.
           rewrite Hy in H1. cbn [map] in H1. inversion H1 as [|? ? Hnot _].
           apply Hnot. rewrite <- E. apply in_map. apply filter_In. auto.
        -- destruct Hi as [<-|[]].
           apply in_map_iff in Hi' as (s & E & _).
           rewrite prefix_append in E.
           apply append_cancel in E. cbn in E. injection E as E.
           pose proof (no_slash_segment e Hse) as Hn.
           rewrite <- E, no_slash_append in Hn.
           apply andb_true_iff in Hn as [_ Hn]. cbn in Hn. discriminate.
        -- destruct Hi' as [<-|[]].
           apply in_map_iff in Hi as (s & E & _).
           rewrite prefix_append in E.
           apply append_cancel in E. cbn in E. injection E as E.
           pose proof (no_slash_segment e' Hse') as Hn.
           rewrite <- E, no_slash_append in Hn.
           apply andb_true_iff in Hn as [_ Hn]. cbn in Hn. discriminate.
        -- apply in_map_iff in Hi as (s & <- & _).
           apply in_map_iff in Hi' as (s' & E & _).
           rewrite !prefix_append in E.
           apply append_cancel in E. cbn in E. injection E as E.
           apply Hnames'. symmetry.
           exact (proj1 (slash_split _ _ _ _ Hse' Hse E)).
Qed.

Lemma readdirSync_exists (p : string) (entries : list Dirent) :
  Fs.readdirSync fs p = Ok entries -> Fs.existsSync fs p = true.
Proof.
  unfold Fs.readdirSync, Fs.existsSync.
  destruct (Fs.lookup fs p) as [[d|es]|]; [discriminate|reflexivity|
                                           discriminate].
Qed.

Lemma type_places_listed (type : string) (entries : list Dirent) :
  Fs.readdirSync fs (Path.join BRAIN_PATH type) = Ok entries ->
  Rules.type_places BRAIN_PATH fs type
  = concat (map (Rules.entry_places fs type (Path.join BRAIN_PATH type))
              entries).
Proof.
  intros H. unfold Rules.type_places.
  now rewrite (readdirSync_exists _ _ H), H.
Qed.

Lemma type_places_unlisted (type : string) :
  (forall entries,
      Fs.readdirSync fs (Path.join BRAIN_PATH type) <> Ok entries) ->
  Rules.type_places BRAIN_PATH fs type = [].
Proof.
  intros H. unfold Rules.type_places.
  destruct (Fs.existsSync fs _); [|reflexivity].
  destruct (Fs.readdirSync fs _) as [entries|e]; [|reflexivity].
  now destruct (H entries).
Qed.

Lemma in_type_ids (type i : string) :
  In i (map fst (Rules.type_places BRAIN_PATH fs type)) ->
  exists rest, i = type ++ "/" ++ rest.
Proof.
  intros H.
  destruct (Fs.readdirSync fs (Path.join BRAIN_PATH type))
    as [entries|e] eqn:Hls.
  - rewrite (type_places_listed _ _ Hls) in H.
    apply in_entry_ids in H as (entry & _ & H).
    destruct (entry_ids_cases type (Path.join BRAIN_PATH type) entry)
      as [[_ Hids]|[(_ & _ & subs & _ & _ & Hids)|(_ & Hids & _)]];
      rewrite Hids in H.
    + destruct H as [<-|[]]. eauto.
    + apply in_map_iff in H as (s & <- & _).
      rewrite prefix_append. eauto.
    + destruct H.
  - rewrite type_places_unlisted in H; [destruct H|].
    intros entries. rewrite Hls. discriminate.
Qed.

Lemma type_ids_NoDup (ts : list string) :
  NoDup ts -> Forall (fun t => Spec.no_slash t = true) ts ->
  NoDup (map fst (concat (map (Rules.type_places BRAIN_PATH fs) ts)))
  <-> forall t, In t ts ->
        NoDup (map fst (Rules.type_places BRAIN_PATH fs t)).
Proof.
  induction ts as [|t ts IH]; intros Hnd Hns.
  - cbn. split; [intros _ t []|constructor].
  - inversion Hnd as [|? ? Ht Hts]. subst.
    inversion Hns as [|? ? Hst Hsts]. subst.
    specialize (IH Hts Hsts). cbn [map concat]. rewrite map_app. split.
    + intros H. apply NoDup_app_inv in H as (H1 & H2 & _).
      intros t' [<-|Hin]; [exact H1|]. now apply (proj1 IH H2).
    + intros H. apply NoDup_app.
      * apply H. apply in_eq.
      * apply IH. intros t' Hin. apply H. now apply in_cons.
      * intros i Hi Hi'. apply in_type_ids in Hi as [rest ->].
        apply in_map_iff in Hi' as ((i' & c) & E & Hi').
        apply in_concat in Hi' as (l & Hl & Hin).
        apply in_map_iff in Hl as (t' & <- & Ht').
        assert (Hin' : In i' (map fst (Rules.type_places BRAIN_PATH fs t'))).
        { apply in_map_iff. now exists (i', c). }
        apply in_type_ids in Hin' as [rest' ->]. cbn [fst] in E.
        apply slash_split in E as [-> _];
          [now apply Ht| |exact Hst].
        exact (proj1 (Forall_forall _ _) Hsts t' Ht').
Qed.

Lemma types_distinct : NoDup types.
Proof.
  unfold types. repeat constructor; cbn [In];
    intros H; repeat destruct H as [H|H]; try discriminate; exact H.
Qed.

Lemma types_plain_names :
  Forall (fun t => Spec.no_slash t = true) types.
Proof. repeat constructor. Qed.

Lemma identifiers_NoDup :
  Rules.proper BRAIN_PATH fs ->
  NoDup (Rules.identifiers BRAIN_PATH fs)
  <-> Rules.unambiguous BRAIN_PATH fs.
Proof.
  intros Hp. unfold Rules.identifiers, Rules.placements.
  rewrite (type_ids_NoDup types types_distinct types_plain_names).
  split.
  - intros H type entries Ht Hls.
    specialize (H type Ht). rewrite (type_places_listed _ _ Hls) in H.
    destruct (Hp type entries Ht Hls) as [Hn Hs].
    apply (entry_ids_NoDup type _ entries) in H;
      auto using types_no_slash.
  - intros H type Ht.
    destruct (Fs.readdirSync fs (Path.join BRAIN_PATH type))
      as [entries|e] eqn:Hls.
    + rewrite (type_places_listed _ _ Hls).
      destruct (Hp type entries Ht Hls) as [Hn Hs].
      apply entry_ids_NoDup; auto using types_no_slash.
    + rewrite type_places_unlisted; [constructor|].
      intros entries. rewrite Hls. discriminate.
Qed.

Lemma identifiers_located (i : string) :
  In i (Rules.identifiers BRAIN_PATH fs) -> Rules.located BRAIN_PATH fs i.
Proof.
  unfold Rules.identifiers, Rules.placements. intros H.
  apply in_map_iff in H as ((i' & c) & E & H). cbn [fst] in E. subst i'.
  apply in_concat in H as (l & Hl & Hin).
  apply in_map_iff in Hl as (type & <- & Ht).
  destruct (Fs.readdirSync fs (Path.join BRAIN_PATH type))
    as [entries|e] eqn:Hls.
  - rewrite (type_places_listed _ _ Hls) in Hin.
    apply in_concat in Hin as (l & Hl & Hin).
    apply in_map_iff in Hl as (entry & <- & He).
    exists type, entries, entry. repeat split; auto.
    unfold Rules.entry_places in Hin.
    destruct (isDirectory entry) eqn:Hdir.
    + destruct (Fs.readdirSync fs _) as [subs|e] eqn:Hsub; [|destruct Hin].
      destruct (hasBody subs).
      * destruct Hin as [E|[]]. injection E as <- _. left.
        unfold Spec.segment. now rewrite Hdir.
      * apply in_map_iff in Hin as (s & E & Hs). injection E as <- _.
        apply filter_In in Hs as [Hs _]. right. exists subs, s. auto.
    + destruct (Js.endsWith (name entry) ".md"); [|destruct Hin].
      destruct Hin as [E|[]]. injection E as <- _. now left.
  - rewrite type_places_unlisted in Hin; [destruct Hin|].
    intros entries. rewrite Hls. discriminate.
Qed.

Lemma NoDup_map_In {A B : Type} (f : A -> B) (l : list A) (x y : A) :
  NoDup (map f l) -> In x l -> In y l -> f x = f y -> x = y.
Proof.
  induction l as [|a l IH]; intros Hnd Hx Hy E; [destruct Hx|].
  cbn [map] in Hnd. inversion Hnd as [|? ? Hnot Hrest]; subst.
  destruct Hx as [->|Hx], Hy as [->|Hy]; auto.
  - exfalso. apply Hnot. rewrite E. now apply in_map.
  - exfalso. apply Hnot. rewrite <- E. now apply in_map.
Qed.

(** C5 (as amended).  The identifiers of the listing are those built from
    the locations of the documents of the tree: the type folder, then the
    segment of a document of that folder, or the name of a category folder
    and the segment of a document of that one, where a directory
    contributes its name and a markdown file its name with [.md] removed
    once (its extension, when the name holds [.md] nowhere else).  They
    are pairwise distinct exactly when no two documents of a type folder,
    and no two documents of a category folder, contribute the same
    segment.  So they are not distinct when a markdown file and a document
    folder of one type folder share their base name, while the identifier
    of a markdown file differs from that of every document of a category
    folder. *)
Theorem identifiers_are_distinct :
  (forall docs,
      listing = Ok docs ->
      Permutation (map id docs) (Rules.identifiers BRAIN_PATH fs))
  /\ (forall i,
      In i (Rules.identifiers BRAIN_PATH fs) ->
      Rules.located BRAIN_PATH fs i)
  /\ (forall e stem,
      (isDirectory e = true -> Spec.segment e = name e)
      /\ (isDirectory e = false -> name e = stem ++ ".md" ->
          Spec.occurs ".md" stem = false -> Spec.segment e = stem))
  /\ (forall docs,
      listing = Ok docs ->
      Rules.proper BRAIN_PATH fs ->
      (NoDup (map id docs) <-> Rules.unambiguous BRAIN_PATH fs))
  /\ (forall docs type entries file folder subEntries,
      listing = Ok docs ->
      Rules.proper BRAIN_PATH fs ->
      In type types ->
      Fs.readdirSync fs (Path.join BRAIN_PATH type) = Ok entries ->
      In file entries -> In folder entries ->
      isDirectory file = false -> Js.endsWith (name file) ".md" = true ->
      isDirectory folder = true ->
      Fs.readdirSync fs (Path.join (Path.join BRAIN_PATH type) (name folder))
        = Ok subEntries ->
      hasBody subEntries = true ->
      Spec.segment file = name folder ->
      ~ NoDup (map id docs))
  /\ (forall type file folder subEntry,
      Spec.no_slash (name file) = true ->
      type ++ "/" ++ Spec.segment file
      <> type ++ "/" ++ name folder ++ "/" ++ Spec.segment subEntry).
Proof.
  assert (Hperm : forall docs,
    listing = Ok docs ->
    Permutation (map id docs) (Rules.identifiers BRAIN_PATH fs)).
  { intros docs H.
    destruct (any_getAllDocuments_inv _ H) as (pushed & Hc & Hs).
    unfold Rules.identifiers.
    rewrite <- (collectDocuments_places _ Hc), map_map. cbn [Rules.place fst].
    apply Permutation_map, Permutation_sym.
    exact (any_sort_Permutation _ _ _ Hs). }
  assert (Hiff : forall docs,
    listing = Ok docs ->
    Rules.proper BRAIN_PATH fs ->
    (NoDup (map id docs) <-> Rules.unambiguous BRAIN_PATH fs)).
  { intros docs H Hp. split.
    - intros Hnd. apply (identifiers_NoDup Hp).
      exact (Permutation_NoDup (Hperm docs H) Hnd).
    - intros Hu.
      apply (Permutation_NoDup (Permutation_sym (Hperm docs H))).
      now apply identifiers_NoDup. }
  split; [exact Hperm|]. split; [exact identifiers_located|].
  split; [|split; [exact Hiff|split]].
  - intros e stem. split.
    + intros Hdir. unfold Spec.segment. now rewrite Hdir.
    + intros Hdir Hname Hocc. unfold Spec.segment.
      rewrite Hdir, Hname. now apply remove_first_extension.
  - intros docs type entries file folder subEntries H Hp Ht Hls Hfile
      Hfolder Hnd Hmd Hdir Hsub Hbody Hseg Hdistinct.
    apply (Hiff docs H Hp) in Hdistinct.
    destruct (Hdistinct type entries Ht Hls) as [Hsegs _].
    assert (E : file = folder).
    { apply (NoDup_map_In Spec.segment _ file folder Hsegs).
      - apply filter_In. split; [exact Hfile|].
        unfold Rules.yields. now rewrite Hnd.
      - apply filter_In. split; [exact Hfolder|].
        unfold Rules.yields. now rewrite Hdir, Hsub.
      - rewrite Hseg. unfold Spec.segment. now rewrite Hdir. }
    rewrite E, Hdir in Hnd. discriminate.
  - intros type file folder subEntry Hn E.
    apply append_cancel in E. injection E as E.
    assert (Hs : Spec.no_slash (Spec.segment file) = true)
      by now apply no_slash_segment.
    rewrite E, no_slash_append in Hs.
    apply andb_true_iff in Hs as [_ Hs]. cbn in Hs. discriminate.
Qed.

(* ----------------------------------------------------------------- *)
(** *** The order of the listing *)

Lemma any_insert_pure {A : Type} (cmpR : A -> A -> result Z)
    (cmp : A -> A -> Z) (x : A) (l : list A) :
  (forall y, In y l -> cmpR x y = Ok (cmp x y)) ->
  insert cmpR x l = Ok (pure_insert _ cmp x l).
Proof.
  induction l as [|y l IH]; intros H; simpl.
  - reflexivity.
  - rewrite (H y (in_eq _ _)). cbn [bind].
    destruct (cmp x y <=? 0)%Z; [reflexivity|].
    rewrite IH; [reflexivity|]. intros z Hz. apply H. now apply in_cons.
Qed.

Lemma any_sort_pure {A : Type} (cmpR : A -> A -> result Z)
    (cmp : A -> A -> Z) (l : list A) :
  (forall x y, In x l -> In y l -> cmpR x y = Ok (cmp x y)) ->
  sort cmpR l = Ok (pure_sort _ cmp l).
Proof.
  induction l as [|x l IH]; intros H; [reflexivity|].
  cbn [Any.sort]. rewrite IH.
  - cbn [bind]. apply any_insert_pure. intros y Hy.
    apply H; [apply in_eq|]. apply in_cons.
    exact (Permutation_in _ (Permutation_sym (sort_Permutation cmp l)) Hy).
  - intros y z Hy Hz. apply H; now apply in_cons.
Qed.

Lemma compareDocuments_sortable (a b : DocumentMeta) :
  Rules.sortable a -> Rules.sortable b ->
  compare a b = Ok (Rules.order localeCompare a b).
Proof.
  unfold Rules.sortable, compareDocuments, Rules.order.
  destruct (truthy (date a)), (truthy (date b)); cbn [andb];
    intros [x Hx] [y Hy]; try reflexivity.
  - now rewrite Hx, Hy.
  - now rewrite Hx, Hy.
Qed.

Lemma example_listing (collate : string -> string -> Z)
    (d1 d2 d3 : DocumentMeta) :
  Spec.consistent collate ->
  date d1 = Str "2024-01-01" -> date d2 = Str "2024-06-01" ->
  ~ Rules.has_date d3 ->
  (collate "2024-01-01" "2024-06-01" < 0)%Z ->
  collect = Ok [d1; d2; d3] ->
  getAllDocuments matter JSON_parse collate ToString BRAIN_PATH fs
  = Ok [d2; d1; d3].
Proof.
  intros Hcons H1 H2 H3 Hlt Hc.
  unfold getAllDocuments. rewrite Hc. cbn [bind].
  unfold Rules.has_date in H3. apply not_true_is_false in H3.
  assert (Hgt : (0 < collate "2024-06-01" "2024-01-01")%Z).
  { pose proof (Spec.cmp_flip _ Hcons "2024-01-01" "2024-06-01") as H.
    destruct (collate "2024-01-01" "2024-06-01"),
             (collate "2024-06-01" "2024-01-01"); cbn in H;
      try discriminate; lia. }
  cbn [sort insert bind].
  assert (E23 : compareDocuments collate ToString d2 d3 = Ok (-1)%Z).
  { unfold compareDocuments. now rewrite H2, H3. }
  assert (E13 : compareDocuments collate ToString d1 d3 = Ok (-1)%Z).
  { unfold compareDocuments. now rewrite H1, H3. }
  assert (E12 : compareDocuments collate ToString d1 d2
                = Ok (collate "2024-06-01" "2024-01-01")).
  { unfold compareDocuments. now rewrite H1, H2. }
  rewrite E23. cbn [bind Z.leb Z.compare insert]. rewrite E12.
  cbn [bind].
  destruct (Z.leb_spec (collate "2024-06-01" "2024-01-01") 0); [lia|].
  cbn [insert bind]. rewrite E13. reflexivity.
Qed.

Section Order.

Hypothesis collation : Spec.consistent localeCompare.

Lemma collation_total (x y : string) :
  (localeCompare x y <= 0 \/ localeCompare y x <= 0)%Z.
Proof.
  pose proof (Spec.cmp_flip _ collation x y) as H.
  destruct (localeCompare x y), (localeCompare y x); cbn in H;
    try discriminate; lia.
Qed.

Lemma order_total (a b : DocumentMeta) :
  (Rules.order localeCompare a b <= 0
   \/ Rules.order localeCompare b a <= 0)%Z.
Proof.
  unfold Rules.order.
  destruct (truthy (date a)), (truthy (date b)); cbn [andb];
    try apply collation_total; lia.
Qed.

Lemma order_trans (a b c : DocumentMeta) :
  (Rules.order localeCompare a b <= 0)%Z ->
  (Rules.order localeCompare b c <= 0)%Z ->
  (Rules.order localeCompare a c <= 0)%Z.
Proof.
  unfold Rules.order.
  destruct (truthy (date a)), (truthy (date b)), (truthy (date c));
    cbn [andb]; try lia.
  - intros Hab Hbc. exact (Spec.cmp_trans _ collation _ _ _ Hbc Hab).
  - apply (Spec.cmp_trans _ collation).
Qed.

(** C3 (as amended).  Provided the key the comparator reads in each
    record is a text (the date of a record that has one, the title of a
    record without), the indexer returns, and its listing is a
    rearrangement of the collected records in which, for any two
    positions, the earlier date is not before the later one in the order
    of [localeCompare] when both records have dates, a dated record never
    follows an undated one, and the earlier title is not after the later
    one in that order when both lack dates.  Records dated 2024-01-01 and
    2024-06-01 followed by an undated one are listed as 2024-06-01,
    2024-01-01, undated, under a collation that puts the first date before
    the second, as the root collation ([Demo.localeCompare]) does.  Two
    records whose dates are truthy but no texts make the indexer raise. *)
Theorem listing_is_sorted :
  (forall pushed,
      collect = Ok pushed ->
      Forall Rules.sortable pushed ->
      exists docs,
        listing = Ok docs
        /\ Permutation pushed docs
        /\ forall i j a b,
            i < j -> nth_error docs i = Some a -> nth_error docs j = Some b ->
            (Rules.has_date a -> Rules.has_date b ->
             (localeCompare (Rules.text_of (date b)) (Rules.text_of (date a))
              <= 0)%Z)
            /\ (Rules.has_date b -> Rules.has_date a)
            /\ (~ Rules.has_date a -> ~ Rules.has_date b ->
                (localeCompare (Rules.text_of (title a))
                   (Rules.text_of (title b)) <= 0)%Z))
  /\ (forall d1 d2 d3,
      date d1 = Str "2024-01-01" -> date d2 = Str "2024-06-01" ->
      ~ Rules.has_date d3 ->
      (localeCompare "2024-01-01" "2024-06-01" < 0)%Z ->
      collect = Ok [d1; d2; d3] ->
      listing = Ok [d2; d1; d3])
  /\ (forall d1 d2,
      Rules.has_date d1 -> Rules.has_date d2 ->
      ~ Rules.is_text (date d1) -> ~ Rules.is_text (date d2) ->
      collect = Ok [d1; d2] ->
      listing = Throw TypeError)
  /\ (forall d1 d2 d3,
      date d1 = Str "2024-01-01" -> date d2 = Str "2024-06-01" ->
      ~ Rules.has_date d3 ->
      collect = Ok [d1; d2; d3] ->
      getAllDocuments matter JSON_parse Demo.localeCompare ToString
        BRAIN_PATH fs
      = Ok [d2; d1; d3]).
Proof.
  split; [|split; [|split]].
  - intros pushed Hc Hs.
    assert (E : listing = Ok (pure_sort _ (Rules.order localeCompare)
                                pushed)).
    { unfold getAllDocuments. rewrite Hc. cbn [bind].
      apply any_sort_pure. intros x y Hx Hy.
      apply compareDocuments_sortable.
      - exact (proj1 (Forall_forall _ _) Hs x Hx).
      - exact (proj1 (Forall_forall _ _) Hs y Hy). }
    eexists. split; [exact E|]. split; [apply sort_Permutation|].
    intros i j a b Hij Ha Hb.
    pose proof (StronglySorted_nth_error _ _ i j a b
                  (sort_sorted (Rules.order localeCompare)
                     order_total order_trans pushed)
                  Hij Ha Hb) as Hle.
    cbv beta in Hle. unfold Rules.order in Hle.
    unfold Rules.has_date.
    destruct (truthy (date a)), (truthy (date b)); cbn [andb] in Hle.
    all: repeat split; intros; try assumption; try congruence; lia.
  - intros d1 d2 d3 H1 H2 H3 Hlt Hc.
    now apply example_listing.
  - intros d1 d2 H1 H2 N1 N2 Hc.
    unfold getAllDocuments. rewrite Hc. cbn [bind sort insert].
    unfold compareDocuments. unfold Rules.has_date in H1, H2.
    rewrite H1, H2. cbn [andb]. unfold localeCompareOf.
    destruct (date d2); try reflexivity.
    exfalso. apply N2. now eexists.
  - intros d1 d2 d3 H1 H2 H3 Hc.
    apply example_listing; auto using demo_localeCompare_consistent.
    reflexivity.
Qed.

End Order.

End AnyFacts.

(* ================================================================= *)
(** ** The declared types as a restriction of the run-time values *)

Section Refinement.

Variable matter : string -> result (Partial.t * string).
Variable JSON_parse : string -> result Partial.t.
Variable localeCompare : string -> string -> Z.
Variable ToString : Any.value -> string.
Variable BRAIN_PATH : string.
Variable fs : node.

Local Abbreviation image := World.image.
Local Abbreviation of_body := World.of_body.

Lemma get_of_partial (p : Partial.t) :
  Any.get (World.of_partial p) "title" = Ok (World.of_text (Partial.title p))
  /\ Any.get (World.of_partial p) "date"
     = Ok (World.of_text (Partial.date p))
  /\ Any.get (World.of_partial p) "tags"
     = Ok (World.of_tags (Partial.tags p))
  /\ Any.get (World.of_partial p) "summary"
     = Ok (World.of_text (Partial.summary p)).
Proof.
  destruct p as [[t|] [d|] [g|] [u|]]; repeat split; reflexivity.
Qed.

Lemma or_text (a b : option string) :
  Any.or (Ok (World.of_text a)) (Ok (World.of_text b))
  = Ok (World.of_text (Js.or_str a b)).
Proof.
  unfold Any.or, Js.or_str. destruct a as [s|]; cbn; [|reflexivity].
  now destruct (s =? "").
Qed.

Lemma or_text_else (a : option string) (d : string) :
  Any.or (Ok (World.of_text a)) (Ok (Any.Str d))
  = Ok (Any.Str (Js.or_else_str a d)).
Proof.
  unfold Any.or, Js.or_else_str. destruct a as [s|]; cbn; [|reflexivity].
  now destruct (s =? "").
Qed.

Lemma or_tags_else (a : option (list string)) :
  Any.or (Ok (World.of_tags a)) (Ok (Any.Arr []))
  = Ok (World.of_tags (Some (Js.or_else_tags a []))).
Proof. now destruct a. Qed.

Lemma or_tags (a b : option (list string)) :
  Any.or (Ok (World.of_tags a)) (Ok (World.of_tags b))
  = Ok (World.of_tags (Js.or_tags a b)).
Proof. now destruct a. Qed.

Lemma getMetaFromFile_refines (p : string) :
  Any.getMetaFromFile (World.typed_json JSON_parse) fs p
  = image World.of_partial (getMetaFromFile JSON_parse fs p).
Proof.
  unfold Any.getMetaFromFile, getMetaFromFile, World.typed_json.
  destruct (Fs.existsSync fs p); [|reflexivity].
  destruct (Fs.readFileSync fs p) as [s|e]; cbn [bind]; [|reflexivity].
  now destruct (JSON_parse s).
Qed.

Lemma getBodyContent_refines (p : string) :
  Any.getBodyContent (World.typed_matter matter) fs p
  = image of_body (getBodyContent matter fs p).
Proof.
  unfold Any.getBodyContent, getBodyContent, World.typed_matter.
  cbv zeta.
  match goal with
  | |- context [Fs.existsSync fs (if ?c then ?a else ?b)] =>
      set (filePath := if c then a else b)
  end.
  destruct (Fs.existsSync fs filePath).
  - destruct (Fs.readFileSync fs _) as [s|e]; cbn [bind]; [|reflexivity].
    now destruct (matter s).
  - destruct (Js.endsWith p ".md" && Fs.existsSync fs p); [|reflexivity].
    destruct (Fs.readFileSync fs p) as [s|e]; cbn [bind]; [|reflexivity].
    now destruct (matter s).
Qed.

Ltac literal :=
  cbv zeta; cbn [Any.frontmatter Any.bc_content World.of_body];
  repeat (progress
            (repeat match goal with
                    | |- context [Any.get (World.of_partial ?p) _] =>
                        first
                          [ rewrite (proj1 (get_of_partial p))
                          | rewrite (proj1 (proj2 (get_of_partial p)))
                          | rewrite (proj1 (proj2 (proj2 (get_of_partial p))))
                          | rewrite (proj2 (proj2 (proj2 (get_of_partial p))))
                          ]
                    end;
             rewrite ?or_text, ?or_tags, ?or_text_else, ?or_tags_else;
             cbn [bind]));
  reflexivity.

Lemma subEntryDocuments_refines type entryName entryPath subEntry :
  Any.subEntryDocuments (World.typed_matter matter)
    (World.typed_json JSON_parse) fs type entryName entryPath subEntry
  = image (map World.of_meta)
      (subEntryDocuments matter JSON_parse fs type entryName entryPath
         subEntry).
Proof.
  unfold Any.subEntryDocuments, subEntryDocuments.
  destruct (isDirectory subEntry).
  - rewrite getMetaFromFile_refines.
    destruct (getMetaFromFile JSON_parse fs _) as [m|e]; cbn [bind];
      [|reflexivity].
    rewrite getBodyContent_refines.
    destruct (getBodyContent matter fs _) as [bc|e]; cbn [bind];
      [|reflexivity].
    unfold World.image at 1 2. cbn [bind]. literal.
  - destruct (Js.endsWith (name subEntry) ".md"); [|reflexivity].
    rewrite getBodyContent_refines.
    destruct (getBodyContent matter fs _) as [bc|e]; cbn [bind];
      [|reflexivity].
    unfold World.image at 1. cbn [bind]. literal.
Qed.

Lemma for_each_refines {A B C : Type} (F : A -> result (list C))
    (f : A -> result (list B)) (g : B -> C) (l : list A) :
  (forall x, F x = image (map g) (f x)) ->
  for_each F l = image (map g) (for_each f l).
Proof.
  unfold World.image. intros H. induction l as [|x l IH]; [reflexivity|].
  cbn [for_each]. rewrite H, IH.
  destruct (f x) as [ds|e]; cbn [bind]; [|reflexivity].
  destruct (for_each f l) as [more|e]; cbn [bind]; [|reflexivity].
  now rewrite map_app.
Qed.

Lemma entryDocuments_refines type typePath entry :
  Any.entryDocuments (World.typed_matter matter)
    (World.typed_json JSON_parse) fs type typePath entry
  = image (map World.of_meta)
      (entryDocuments matter JSON_parse fs type typePath entry).
Proof.
  unfold Any.entryDocuments, entryDocuments.
  destruct (isDirectory entry).
  - destruct (Fs.readdirSync fs _) as [subEntries|e]; cbn [bind];
      [|reflexivity].
    destruct (hasBody subEntries).
    + rewrite getMetaFromFile_refines.
      destruct (getMetaFromFile JSON_parse fs _) as [m|e]; cbn [bind];
        [|reflexivity].
      rewrite getBodyContent_refines.
      destruct (getBodyContent matter fs _) as [bc|e]; cbn [bind];
        [|reflexivity].
      unfold World.image at 1 2. cbn [bind]. literal.
    + apply for_each_refines. intros s. apply subEntryDocuments_refines.
  - destruct (Js.endsWith (name entry) ".md"); [|reflexivity].
    rewrite getBodyContent_refines.
    destruct (getBodyContent matter fs _) as [bc|e]; cbn [bind];
      [|reflexivity].
    unfold World.image at 1. cbn [bind]. literal.
Qed.

Lemma collectDocuments_refines :
  Any.collectDocuments (World.typed_matter matter)
    (World.typed_json JSON_parse) BRAIN_PATH fs
  = image (map World.of_meta)
      (collectDocuments matter JSON_parse BRAIN_PATH fs).
Proof.
  unfold Any.collectDocuments, collectDocuments.
  apply for_each_refines. intros type.
  unfold Any.typeDocuments, typeDocuments.
  destruct (negb _); [reflexivity|].
  destruct (Fs.readdirSync fs _) as [entries|e]; cbn [bind]; [|reflexivity].
  apply for_each_refines. intros entry. apply entryDocuments_refines.
Qed.

Lemma compareDocuments_refines (a b : DocumentMeta) :
  Any.compareDocuments localeCompare ToString (World.of_meta a)
    (World.of_meta b)
  = Ok (compareDocuments localeCompare a b).
Proof.
  unfold Any.compareDocuments, compareDocuments. cbn [World.of_meta
    Any.date Any.title].
  destruct (date a) as [da|], (date b) as [db|]; cbn;
    try (destruct (da =? "")); try (destruct (db =? "")); reflexivity.
Qed.

Lemma insert_refines {A B : Type} (cmpR : B -> B -> result Z)
    (cmp : A -> A -> Z) (f : A -> B) (x : A) (l : list A) :
  (forall y z, cmpR (f y) (f z) = Ok (cmp y z)) ->
  Any.insert cmpR (f x) (map f l) = Ok (map f (insert cmp x l)).
Proof.
  intros H. induction l as [|y l IH]; [reflexivity|].
  cbn [map Any.insert insert]. rewrite H. cbn [bind].
  destruct (cmp x y <=? 0)%Z; [reflexivity|]. now rewrite IH.
Qed.

Lemma sort_refines {A B : Type} (cmpR : B -> B -> result Z)
    (cmp : A -> A -> Z) (f : A -> B) (l : list A) :
  (forall y z, cmpR (f y) (f z) = Ok (cmp y z)) ->
  Any.sort cmpR (map f l) = Ok (map f (sort cmp l)).
Proof.
  intros H. induction l as [|x l IH]; [reflexivity|].
  cbn [map Any.sort]. rewrite IH. cbn [bind]. now apply insert_refines.
Qed.

(** On metadata of the declared types, the indexer and the loader on
    run-time values are the indexer and the loader above. *)
Theorem declared_types_refine :
  Any.getAllDocuments (World.typed_matter matter)
    (World.typed_json JSON_parse) localeCompare ToString BRAIN_PATH fs
  = image (map World.of_meta)
      (getAllDocuments matter JSON_parse localeCompare BRAIN_PATH fs)
  /\ forall ident,
      Any.getDocument (World.typed_matter matter)
        (World.typed_json JSON_parse) BRAIN_PATH fs ident
      = image (option_map World.of_document)
          (getDocument matter JSON_parse BRAIN_PATH fs ident).
Proof.
  split.
  - unfold Any.getAllDocuments, getAllDocuments.
    rewrite collectDocuments_refines.
    destruct (collectDocuments matter JSON_parse BRAIN_PATH fs) as [l|e];
      cbn [bind]; [|reflexivity].
    apply sort_refines. apply compareDocuments_refines.
  - intros ident. unfold Any.getDocument, getDocument.
    destruct (negb _ && negb _); [reflexivity|].
    destruct (Fs.statSync_isDirectory fs _) as [[|]|e]; cbn [bind];
      [| |reflexivity].
    + rewrite getMetaFromFile_refines.
      destruct (getMetaFromFile JSON_parse fs _) as [m|e]; cbn [bind];
        [|reflexivity].
      rewrite getBodyContent_refines.
      destruct (getBodyContent matter fs _) as [bc|e]; cbn [bind];
        [|reflexivity].
      destruct (readSections fs _) as [s|e]; cbn [bind]; [|reflexivity].
      unfold World.image at 1 2. cbn [bind]. literal.
    + rewrite getBodyContent_refines.
      destruct (getBodyContent matter fs _) as [bc|e]; cbn [bind];
        [|reflexivity].
      unfold World.image at 1. cbn [bind]. literal.
Qed.

End Refinement.

(* ================================================================= *)
(** ** The properties on run-time values, on concrete trees *)

Section WorldFacts.

Import Any.

Local Abbreviation listing fs :=
  (getAllDocuments World.matter World.JSON_parse Demo.localeCompare
     World.ToString Demo.BRAIN_PATH fs).
Local Abbreviation collect fs :=
  (collectDocuments World.matter World.JSON_parse Demo.BRAIN_PATH fs).
Local Abbreviation load fs :=
  (getDocument World.matter World.JSON_parse Demo.BRAIN_PATH fs).
Local Abbreviation entryDocs fs :=
  (entryDocuments World.matter World.JSON_parse fs).
Local Abbreviation getBody fs := (getBodyContent World.matter fs).
Local Abbreviation getMeta fs := (getMetaFromFile World.JSON_parse fs).

Ltac evaluated := vm_compute; reflexivity.
Ltac distinct :=
  vm_compute; repeat constructor; cbn [In]; intuition discriminate.

(** C3, as stated, fails.  The undated concepts [B] and [a] are listed as
    [a], [B], the order of the collation, while the case-sensitive
    comparison of the two titles puts [B] first.  The journals dated [B]
    and [a] are listed as [B], [a], the collation descending, while the
    comparison by character codes makes [a] the greater date.  And two
    journals whose dates YAML reads as timestamps are collected but not
    listed: the comparator raises. *)
Lemma listing_order_counterexample :
  (exists da dB,
      collect World.fs_case = Ok [dB; da]
      /\ listing World.fs_case = Ok [da; dB]
      /\ date da = Undefined /\ date dB = Undefined
      /\ title da = Str "a" /\ title dB = Str "B"
      /\ String.compare "B" "a" = Lt)
  /\ (exists da dB,
      listing World.fs_case_dates = Ok [dB; da]
      /\ date da = Str "a" /\ date dB = Str "B"
      /\ String.compare "B" "a" = Lt)
  /\ (exists d1 d2,
      collect World.fs_unquoted_dates = Ok [d1; d2]
      /\ Rules.has_date d1 /\ Rules.has_date d2
      /\ listing World.fs_unquoted_dates = Throw TypeError).
Proof.
  split; [|split].
  - eexists. eexists.
    split; [evaluated|]. split; [evaluated|].
    repeat split; reflexivity.
  - eexists. eexists.
    split; [evaluated|]. repeat split; reflexivity.
  - eexists. eexists.
    split; [evaluated|]. repeat split; reflexivity.
Qed.

(** C3 on the example of the specification: the journals of 2024-01-01 and
    2024-06-01 and an undated concept are listed as 2024-06-01,
    2024-01-01, undated. *)
Lemma listing_is_sorted_witness :
  exists d1 d2 d3,
    date d1 = Str "2024-01-01" /\ date d2 = Str "2024-06-01"
    /\ date d3 = Undefined
    /\ collect Demo.fs_sorting = Ok [d1; d2; d3]
    /\ listing Demo.fs_sorting = Ok [d2; d1; d3]
    /\ exists docs,
        listing Demo.fs_sorting = Ok docs
        /\ Permutation [d1; d2; d3] docs.
Proof.
  pose proof (listing_is_sorted World.matter World.JSON_parse
                Demo.localeCompare World.ToString Demo.BRAIN_PATH
                Demo.fs_sorting demo_localeCompare_consistent)
    as (Hsorted & Hexample & _).
  exists (mkDocumentMeta "journals/2024-01-01" (Str "2024-01-01") "journal"
            None (Str "2024-01-01") (Arr []) Undefined),
         (mkDocumentMeta "journals/2024-06-01" (Str "2024-06-01") "journal"
            None (Str "2024-06-01") (Arr []) Undefined),
         (mkDocumentMeta "concepts/idea" (Str "idea") "concept" None
            Undefined (Arr []) Undefined).
  split; [reflexivity|]. split; [reflexivity|]. split; [reflexivity|].
  split; [evaluated|]. split.
  - apply Hexample.
    + reflexivity.
    + reflexivity.
    + unfold Rules.has_date. cbn. discriminate.
    + reflexivity.
    + evaluated.
  - destruct (Hsorted _ ltac:(evaluated)) as (docs & Hd & Hp & _).
    + repeat constructor; cbn; eexists; reflexivity.
    + exists docs. split; [exact Hd|exact Hp].
Defined.

(** C5, as stated, fails: [projects/foo/body.md] next to [projects/foo.md]
    yields two records with the one identifier [projects/foo]. *)
Lemma same_base_name_shares_identifier :
  exists d1 d2,
    listing Demo.fs_same_base_name = Ok [d1; d2]
    /\ id d1 = "projects/foo" /\ id d2 = "projects/foo"
    /\ ~ NoDup (map id [d1; d2]).
Proof.
  eexists. eexists.
  split; [evaluated|].
  split; [reflexivity|]. split; [reflexivity|].
  cbn. intros H. inversion H as [|? ? Hin _]. apply Hin. now left.
Qed.

Lemma fs_distinct_proper : Rules.proper Demo.BRAIN_PATH Demo.fs_distinct.
Proof.
  intros type entries Ht Hls. cbn [In] in Ht.
  destruct Ht as [<-|[<-|[<-|[]]]]; vm_compute in Hls; try discriminate;
    injection Hls as <-; (split; [distinct|repeat constructor]).
Qed.

Lemma fs_distinct_unambiguous :
  Rules.unambiguous Demo.BRAIN_PATH Demo.fs_distinct.
Proof.
  intros type entries Ht Hls. cbn [In] in Ht.
  destruct Ht as [<-|[<-|[<-|[]]]]; vm_compute in Hls; try discriminate;
    injection Hls as <-.
  - split; [distinct|].
    intros entry subEntries [<-|[]] _ Hsub _.
    vm_compute in Hsub. injection Hsub as <-. distinct.
  - split; [distinct|].
    intros entry subEntries [<-|[<-|[]]] Hdir; discriminate.
Qed.

Lemma fs_category_and_file_proper :
  Rules.proper Demo.BRAIN_PATH World.fs_category_and_file.
Proof.
  intros type entries Ht Hls. cbn [In] in Ht.
  destruct Ht as [<-|[<-|[<-|[]]]]; vm_compute in Hls; try discriminate;
    injection Hls as <-; (split; [distinct|repeat constructor]).
Qed.

Lemma fs_category_and_file_unambiguous :
  Rules.unambiguous Demo.BRAIN_PATH World.fs_category_and_file.
Proof.
  intros type entries Ht Hls. cbn [In] in Ht.
  destruct Ht as [<-|[<-|[<-|[]]]]; vm_compute in Hls; try discriminate;
    injection Hls as <-.
  split; [distinct|].
  intros entry subEntries [<-|[<-|[]]] Hdir Hsub _; [|discriminate].
  vm_compute in Hsub. injection Hsub as <-. distinct.
Qed.

Lemma fs_same_base_name_proper :
  Rules.proper Demo.BRAIN_PATH Demo.fs_same_base_name.
Proof.
  intros type entries Ht Hls. cbn [In] in Ht.
  destruct Ht as [<-|[<-|[<-|[]]]]; vm_compute in Hls; try discriminate;
    injection Hls as <-; (split; [distinct|repeat constructor]).
Qed.

(** C5 on a tree with two journals and a category folder that holds a
    subdocument folder and a subdocument file, and on the category folder
    [projects/foo/] next to the file [projects/foo.md].  The file
    [projects/foo.md] next to the document folder [projects/foo/] gives
    identifiers that are not distinct. *)
Lemma identifiers_are_distinct_witness :
  (exists docs,
      listing Demo.fs_distinct = Ok docs
      /\ Rules.identifiers Demo.BRAIN_PATH Demo.fs_distinct
         = ["projects/quizzydots/plan"; "projects/quizzydots/notes";
            "journals/2024-01-01"; "journals/2024-06-01"]
      /\ Permutation (map id docs)
           (Rules.identifiers Demo.BRAIN_PATH Demo.fs_distinct)
      /\ NoDup (map id docs))
  /\ (exists docs,
      listing World.fs_category_and_file = Ok docs
      /\ map id docs = ["projects/foo"; "projects/foo/bar"]
      /\ NoDup (map id docs))
  /\ (exists docs,
      listing Demo.fs_same_base_name = Ok docs
      /\ ~ NoDup (map id docs)).
Proof.
  split; [|split].
  - assert (E : exists docs, listing Demo.fs_distinct = Ok docs)
      by (eexists; evaluated).
    destruct E as (docs & E).
    destruct (identifiers_are_distinct World.matter World.JSON_parse
                Demo.localeCompare World.ToString Demo.BRAIN_PATH
                Demo.fs_distinct) as (Hperm & _ & _ & Hiff & _).
    exists docs. split; [exact E|]. split; [reflexivity|].
    split; [exact (Hperm docs E)|].
    apply (Hiff docs E fs_distinct_proper). exact fs_distinct_unambiguous.
  - assert (E : exists docs,
               listing World.fs_category_and_file = Ok docs
               /\ map id docs = ["projects/foo"; "projects/foo/bar"])
      by (eexists; split; [evaluated|reflexivity]).
    destruct E as (docs & E & Hids).
    destruct (identifiers_are_distinct World.matter World.JSON_parse
                Demo.localeCompare World.ToString Demo.BRAIN_PATH
                World.fs_category_and_file) as (_ & _ & _ & Hiff & _).
    exists docs. split; [exact E|]. split; [exact Hids|].
    apply (Hiff docs E fs_category_and_file_proper).
    exact fs_category_and_file_unambiguous.
  - assert (E : exists docs, listing Demo.fs_same_base_name = Ok docs)
      by (eexists; evaluated).
    destruct E as (docs & E). exists docs. split; [exact E|].
    refine (proj1 (proj2 (proj2 (proj2 (proj2
              (identifiers_are_distinct World.matter World.JSON_parse
                 Demo.localeCompare World.ToString Demo.BRAIN_PATH
                 Demo.fs_same_base_name)))))
              docs "projects" [mkDirent "foo" true; mkDirent "foo.md" false]
              (mkDirent "foo.md" false) (mkDirent "foo" true)
              [mkDirent "body.md" false]
              E fs_same_base_name_proper _ _ _ _ _ _ _ _ _ _).
    + cbn; tauto.
    + evaluated.
    + cbn; tauto.
    + cbn; tauto.
    + reflexivity.
    + reflexivity.
    + reflexivity.
    + evaluated.
    + reflexivity.
    + reflexivity.
Defined.

(** C6, as stated, fails: [projects/foo/] holds the primary body file
    [body.md], yet it yields no document when the frontmatter of the file
    is malformed, or when the sidecar of the folder holds [null]: the
    indexer raises. *)
Lemma body_file_may_yield_nothing :
  (exists subEntries,
      Fs.readdirSync World.fs_broken_folder
        (Path.join Demo.projects_path "foo") = Ok subEntries
      /\ hasBody subEntries = true
      /\ listing World.fs_broken_folder = Throw YAMLException)
  /\ (exists subEntries,
      Fs.readdirSync World.fs_null_sidecar
        (Path.join Demo.projects_path "foo") = Ok subEntries
      /\ hasBody subEntries = true
      /\ getBody World.fs_null_sidecar (Path.join Demo.projects_path "foo")
         = Ok (mkBodyContent "Hello" (Obj []))
      /\ listing World.fs_null_sidecar = Throw TypeError).
Proof.
  split; eexists.
  - split; [evaluated|]. split; [reflexivity|evaluated].
  - split; [evaluated|]. split; [reflexivity|]. split; evaluated.
Qed.

(** C6 on the examples of the specification: [projects/foo/body.md] yields
    the one document [projects/foo] of category [foo], and
    [projects/foo/bar/body.md] yields the one document [projects/foo/bar]
    of category [foo].  With the sidecar [null] the indexer raises. *)
Lemma folder_classification_witness :
  (exists d,
      listing Demo.fs_project_foo = Ok [d]
      /\ id d = "projects/foo" /\ category d = Some "foo")
  /\ (exists d,
      listing Demo.fs_project_foo_bar = Ok [d]
      /\ id d = "projects/foo/bar" /\ category d = Some "foo")
  /\ (exists e, listing World.fs_null_sidecar = Throw e).
Proof.
  split; [|split].
  - assert (E : exists d, listing Demo.fs_project_foo = Ok [d])
      by (eexists; evaluated).
    destruct E as (d & E). exists d. split; [exact E|].
    destruct (proj1 (folder_classification World.matter World.JSON_parse
                       Demo.localeCompare World.ToString Demo.BRAIN_PATH
                       Demo.fs_project_foo) [d] E)
      as (pushed & _ & Hp & Hplaces).
    apply Permutation_sym, Permutation_length_1_inv in Hp. subst pushed.
    vm_compute in Hplaces. injection Hplaces as Hid Hcat.
    split; [exact Hid|exact Hcat].
  - assert (E : exists d, listing Demo.fs_project_foo_bar = Ok [d])
      by (eexists; evaluated).
    destruct E as (d & E). exists d. split; [exact E|].
    destruct (proj1 (folder_classification World.matter World.JSON_parse
                       Demo.localeCompare World.ToString Demo.BRAIN_PATH
                       Demo.fs_project_foo_bar) [d] E)
      as (pushed & _ & Hp & Hplaces).
    apply Permutation_sym, Permutation_length_1_inv in Hp. subst pushed.
    vm_compute in Hplaces. injection Hplaces as Hid Hcat.
    split; [exact Hid|exact Hcat].
  - refine (proj2 (proj2 (proj2 (proj2 (folder_classification World.matter
              World.JSON_parse Demo.localeCompare World.ToString
              Demo.BRAIN_PATH World.fs_null_sidecar)))
              "projects" [mkDirent "foo" true] (mkDirent "foo" true)
              [mkDirent "body.md" false; mkDirent "meta.json" false]
              _ _ _ _ _ _ _) Null (mkBodyContent "Hello" (Obj [])) _ _ _).
    + cbn; tauto.
    + evaluated.
    + evaluated.
    + cbn; tauto.
    + reflexivity.
    + evaluated.
    + reflexivity.
    + evaluated.
    + evaluated.
    + reflexivity.
Defined.

(** C9, as stated, fails: [projects/foo] exists as a directory, yet the
    loader returns no Document for it when [sections] is a plain file, or
    when the sidecar holds [null]; it raises. *)
Lemma existing_identifier_may_raise :
  (Fs.existsSync Demo.fs_sections_file
     (Path.join Demo.BRAIN_PATH "projects/foo") = true
   /\ load Demo.fs_sections_file "projects/foo" = Throw ENOTDIR
   /\ forall D, load Demo.fs_sections_file "projects/foo" <> Ok (Some D))
  /\ (Fs.existsSync World.fs_null_sidecar
        (Path.join Demo.BRAIN_PATH "projects/foo") = true
      /\ load World.fs_null_sidecar "projects/foo" = Throw TypeError
      /\ forall D, load World.fs_null_sidecar "projects/foo" <> Ok (Some D)).
Proof.
  split.
  - split; [evaluated|]. split; [evaluated|].
    intros D. vm_compute. discriminate.
  - split; [evaluated|]. split; [evaluated|].
    intros D. vm_compute. discriminate.
Qed.

(** C9 on concrete identifiers: an unknown one is not found, a known one
    is loaded with its body and sections, and one whose sidecar holds
    [null] raises. *)
Lemma getDocument_outcomes_witness :
  load Demo.fs_sections "projects/nope" = Ok None
  /\ (exists D,
      load Demo.fs_sections "projects/foo" = Ok (Some D)
      /\ id (meta D) = "projects/foo" /\ content D = "Hello"
      /\ sections D = Some ["intro"; "outro"])
  /\ load World.fs_null_sidecar "projects/foo" = Throw TypeError
  /\ load Demo.fs_sections_file "projects/foo" = Throw ENOTDIR.
Proof.
  split; [|split; [|split]].
  - exact (proj1 (getDocument_outcomes World.matter World.JSON_parse
                    Demo.BRAIN_PATH Demo.fs_sections)
             "projects/nope" eq_refl eq_refl).
  - apply (proj1 (proj2 (proj2 (getDocument_outcomes World.matter
                                  World.JSON_parse Demo.BRAIN_PATH
                                  Demo.fs_sections)))
             "projects/foo" (Obj []) (mkBodyContent "Hello" (Obj []))
             ["intro"; "outro"]); evaluated.
  - apply (proj1 (proj2 (proj2 (getDocument_outcomes World.matter
                                  World.JSON_parse Demo.BRAIN_PATH
                                  World.fs_null_sidecar)))
             "projects/foo" Null (mkBodyContent "Hello" (Obj []))
             []); evaluated.
  - apply (proj2 (proj2 (proj2 (proj2 (proj2
             (getDocument_outcomes World.matter World.JSON_parse
                Demo.BRAIN_PATH Demo.fs_sections_file)))))
             "projects/foo" (mkBodyContent "Hello" (Obj [])) ENOTDIR);
      evaluated.
Defined.

(** C10, as stated, fails: with the sidecar [{"tags": "x"}] the tags of
    the listed record and of the loaded Document are the text [x], not an
    array. *)
Lemma tags_may_be_a_text :
  exists d D,
    listing World.fs_tags_text = Ok [d]
    /\ load World.fs_tags_text "projects/foo" = Ok (Some D)
    /\ tags d = Str "x" /\ tags (meta D) = Str "x"
    /\ ~ Rules.is_array (tags d) /\ ~ Rules.is_array (tags (meta D)).
Proof.
  eexists. eexists.
  split; [evaluated|]. split; [evaluated|].
  split; [reflexivity|]. split; [reflexivity|].
  split; intros [items H]; discriminate.
Qed.

(** C10 on concrete trees: the listed record and the loaded Document have
    empty tags where no source supplies tags, and the tags of the sidecar
    where it supplies some; the Document of a folder without [sections]
    has empty sections. *)
Lemma tags_and_sections_present_witness :
  (exists d,
      listing Demo.fs_project_foo = Ok [d]
      /\ truthy (tags d) = true /\ tags d = Arr [])
  /\ (exists d,
      listing Demo.fs_empty_tags = Ok [d] /\ tags d = Arr [])
  /\ (exists D,
      load Demo.fs_project_foo "projects/foo" = Ok (Some D)
      /\ tags (meta D) = Arr [] /\ sections D = Some []).
Proof.
  pose proof (tags_and_sections_present World.matter World.JSON_parse
                Demo.localeCompare World.ToString Demo.BRAIN_PATH)
    as T.
  split; [|split].
  - assert (E : exists d, listing Demo.fs_project_foo = Ok [d])
      by (eexists; evaluated).
    destruct E as (d & E). exists d. split; [exact E|].
    destruct (T Demo.fs_project_foo) as (Hall & Hfolder & _).
    split; [exact (Forall_inv (Hall _ E))|].
    apply (Hfolder "projects" Demo.projects_path (mkDirent "foo" true)
             [mkDirent "body.md" false] (Obj [])
             (mkBodyContent "Hello" (Obj [])) d); try evaluated.
    revert E. vm_compute. intros E. injection E as <-. reflexivity.
  - assert (E : exists d, listing Demo.fs_empty_tags = Ok [d])
      by (eexists; evaluated).
    destruct E as (d & E). exists d. split; [exact E|].
    destruct (T Demo.fs_empty_tags) as (_ & Hfolder & _).
    rewrite (Hfolder "projects" Demo.projects_path (mkDirent "foo" true)
               [mkDirent "body.md" false; mkDirent "meta.json" false]
               (Obj [("tags", Arr [Str "x"])])
               (mkBodyContent "Hello" (Obj [("tags", Arr [])])) d);
      try evaluated.
    revert E. vm_compute. intros E. injection E as <-. reflexivity.
  - assert (E : exists D,
               load Demo.fs_project_foo "projects/foo" = Ok (Some D))
      by (eexists; evaluated).
    destruct E as (D & E). exists D. split; [exact E|].
    destruct (T Demo.fs_project_foo) as (_ & _ & _ & _ & _ & Hload & _).
    destruct (Hload "projects/foo" D (Obj [])
                (mkBodyContent "Hello" (Obj [])) E)
      as (Htags & s & Hs & Hnil); try evaluated.
    split; [exact Htags|]. rewrite Hs. f_equal. apply Hnil. evaluated.
Defined.

End WorldFacts.
